(** * CashBackAPI: the pydantic models of [src/models.py]

    The module declares pydantic models: [Customer], [Product],
    [CashBackTransaction] and [JWTPayload] with its one method
    [update_exp_date].  [User], [UserInDB], [Token] and [TokenOwner] only
    hold data; they are in [Accounts].  The library is pydantic 1.8: validators
    declared with [@validator] that receive [values], errors collected over
    all the fields, lenient casts to the declared types.

    The development has these layers.
    - [Py]: the Python values the models receive and hold, exceptions, and
      the builtins the code relies on ([int], [float], [str], [re.fullmatch],
      [datetime]).
    - [Pydantic]: what [BaseModel.__init__] does with the declared fields:
      the type validators, the class validators run after them, the
      [values] dictionary handed to a validator, and the list of errors.
    - [Models]: the classes of the source file, field by field and validator
      by validator.
    - [Accounts]: the classes of the source file that hold the data of users
      and tokens; [Contracts]: the notions the properties of the
      constructors are stated with.

    Conventions.  A Python [int] is a [Z]; a [float] is an IEEE binary64 value
    of [SpecFloat]; a [str] is a [string] whose characters are the code points
    below 256; a [dict] with string keys is an association list that is
    searched from the left.  An exception is a value of [exn]; a computation
    that may raise has type [outcome A]. *)

From Stdlib Require Import ZArith List String Ascii Bool Lia.
From Stdlib Require Import SpecFloat.
Import ListNotations.

Set Warnings "-register-all".

Local Open Scope string_scope.
Local Open Scope Z_scope.

Module Py.

(** ** Values *)

(** A [datetime]: the fields of the constructor, and the UTC offset of its
    [tzinfo] in minutes when it has one. *)
Record pydatetime : Type := mkdatetime {
  year : Z; month : Z; day : Z;
  hour : Z; minute : Z; second : Z; microsecond : Z;
  tzinfo : option Z
}.

(** A [timedelta], as its total number of microseconds. *)
Definition timedelta : Type := Z.

Inductive pyval : Type :=
| VNone
| VBool (b : bool)
| VInt (n : Z)
| VFloat (x : spec_float)
| VStr (s : string)
| VDatetime (d : pydatetime)
| VList (l : list pyval)
| VDict (d : list (string * pyval))
| VModel (cls : string) (fields : list (string * pyval)).

Definition dict : Type := list (string * pyval).

(** ** Exceptions *)

Inductive loc_item : Type :=
| LField (name : string)
| LIndex (i : nat).

(** One line of a [ValidationError]: where, and the reason. *)
Definition error_line : Type := (list loc_item * string)%type.

Inductive exn : Type :=
| ValueError (msg : string)
| TypeError (msg : string)
| OverflowError (msg : string)
| KeyError (key : string)
| AttributeError (msg : string)
| ValidationError (errors : list error_line).

Inductive outcome (A : Type) : Type :=
| Return (a : A)
| Raise (e : exn).

Arguments Return {A} a.
Arguments Raise {A} e.

Definition bind {A B : Type} (c : outcome A) (k : A -> outcome B) : outcome B :=
  match c with
  | Return a => k a
  | Raise e => Raise e
  end.

Declare Scope py_scope.
Delimit Scope py_scope with py.
Notation "x <- c ;; k" := (bind c (fun x => k))
  (at level 61, c at next level, right associativity) : py_scope.
Local Open Scope py_scope.

(** ** Dictionaries *)

Fixpoint dict_get (d : dict) (k : string) : option pyval :=
  match d with
  | [] => None
  | (k', v) :: d' => if String.eqb k k' then Some v else dict_get d' k
  end.

(** [d[k]]. *)
Definition getitem (d : dict) (k : string) : outcome pyval :=
  match dict_get d k with
  | Some v => Return v
  | None => Raise (KeyError k)
  end.

(** [d[k] = v] on a dictionary that keeps the order of first insertion. *)
Fixpoint dict_set (d : dict) (k : string) (v : pyval) : dict :=
  match d with
  | [] => [(k, v)]
  | (k', v') :: d' =>
      if String.eqb k k' then (k', v) :: d' else (k', v') :: dict_set d' k v
  end.

(** ** Characters *)

Definition code (c : ascii) : N := N_of_ascii c.

Definition in_range (lo hi : ascii) (c : ascii) : bool :=
  (code lo <=? code c)%N && (code c <=? code hi)%N.

Definition is_digit (c : ascii) : bool := in_range "0" "9" c.
Definition is_upper (c : ascii) : bool := in_range "A" "Z" c.

(** The white space [int] and [float] skip at both ends: tab, line feed,
    vertical tab, form feed, carriage return, space, and the two white-space
    code points between 128 and 255. *)
Definition is_space (c : ascii) : bool :=
  in_range "009" "013" c || Ascii.eqb c " " ||
  Ascii.eqb c "133" || Ascii.eqb c "160".

Definition digit_value (c : ascii) : Z := Z.of_N (code c) - 48.

Fixpoint lstrip (s : string) : string :=
  match s with
  | String c s' => if is_space c then lstrip s' else s
  | EmptyString => s
  end.

Fixpoint rev_string (acc s : string) : string :=
  match s with
  | EmptyString => acc
  | String c s' => rev_string (String c acc) s'
  end.

Definition strip (s : string) : string :=
  rev_string "" (lstrip (rev_string "" (lstrip s))).

(** ** [int] and [str] of the builtin types *)

(** The digits of a [digitpart] after its first digit: digits, each
    optionally preceded by one underscore.  Returns the number read so far,
    how many digits it has, and what is left. *)
Fixpoint scan_digits (acc cnt : Z) (s : string) : Z * Z * string :=
  match s with
  | String c s' =>
      if is_digit c then scan_digits (10 * acc + digit_value c) (cnt + 1) s'
      else if Ascii.eqb c "_" then
        match s' with
        | String c' s'' =>
            if is_digit c'
            then scan_digits (10 * acc + digit_value c') (cnt + 1) s''
            else (acc, cnt, s)
        | EmptyString => (acc, cnt, s)
        end
      else (acc, cnt, s)
  | EmptyString => (acc, cnt, s)
  end.

(** [digitpart ::= digit (["_"] digit)*], continuing the number [acc]. *)
Definition digitpart (acc : Z) (s : string) : option (Z * Z * string) :=
  match s with
  | String c s' =>
      if is_digit c then Some (scan_digits (10 * acc + digit_value c) 1 s')
      else None
  | EmptyString => None
  end.

(** An optional sign. *)
Definition scan_sign (s : string) : bool * string :=
  match s with
  | String "+" s' => (false, s')
  | String "-" s' => (true, s')
  | _ => (false, s)
  end.

(** [int(s)] for a string, base 10: [None] stands for [ValueError]. *)
Definition int_of_str (s : string) : option Z :=
  let (neg, t) := scan_sign (strip s) in
  match digitpart 0 t with
  | Some (n, _, EmptyString) => Some (if neg then - n else n)
  | _ => None
  end.

(** The decimal digits of a positive number, most significant first. *)
Fixpoint digits_of_pos (fuel : nat) (n : Z) (acc : string) : string :=
  match fuel with
  | O => acc
  | S fuel' =>
      let acc' := String (ascii_of_N (Z.to_N (48 + n mod 10))) acc in
      if n <? 10 then acc' else digits_of_pos fuel' (n / 10) acc'
  end.

Definition digits_of_nat (n : Z) : string :=
  digits_of_pos (S (Z.to_nat (Z.log2 n))) n "".

(** [str(n)] for an [int]. *)
Definition str_of_int (n : Z) : string :=
  if n <? 0 then String "-" (digits_of_nat (- n)) else digits_of_nat n.

(** ** [float]: IEEE binary64 *)

Definition prec : Z := 53.
Definition emax : Z := 1024.

(** The binary64 value nearest to [n / d] (ties to even), for [0 <= n] and
    [0 < d]: the quotient is taken with 64 significant bits or more and a
    sticky bit, then rounded. *)
Definition float_of_ratio (neg : bool) (n d : Z) : spec_float :=
  if n =? 0 then S754_zero neg
  else
    let k := 64 + Z.log2 d - Z.log2 n in
    let num := if 0 <=? k then n * 2 ^ k else n in
    let den := if 0 <=? k then d else d * 2 ^ (- k) in
    let sticky := if num mod den =? 0 then 0 else 1 in
    binary_normalize prec emax
      (cond_Zopp neg (2 * (num / den) + sticky)) (- k - 1) neg.

(** [m * 10 ^ e] as a fraction. *)
Definition decimal_ratio (m e : Z) : Z * Z :=
  if 0 <=? e then (m * 10 ^ e, 1) else (m, 10 ^ (- e)).

Definition float_of_decimal (neg : bool) (m e : Z) : spec_float :=
  let (n, d) := decimal_ratio m e in float_of_ratio neg n d.

(** [float(n)] for an [int]. *)
Definition float_of_int (n : Z) : outcome spec_float :=
  match float_of_ratio (n <? 0) (Z.abs n) 1 with
  | S754_infinity _ => Raise (OverflowError "int too large to convert to float")
  | x => Return x
  end.

(** [int(x)] for a [float]: truncation towards zero. *)
Definition int_of_float (x : spec_float) : outcome Z :=
  match x with
  | S754_zero _ => Return 0
  | S754_finite s m e => Return (cond_Zopp s (Z.shiftl (Zpos m) e))
  | S754_infinity _ =>
      Raise (OverflowError "cannot convert float infinity to integer")
  | S754_nan => Raise (ValueError "cannot convert float NaN to integer")
  end.

(** Comparison of a [float] with an [int], exact as Python does it;
    [None] when the float is a NaN. *)
Definition compare_float_int (x : spec_float) (n : Z) : option comparison :=
  match x with
  | S754_nan => None
  | S754_infinity s => Some (if s then Lt else Gt)
  | S754_zero _ => Some (0 ?= n)
  | S754_finite s m e =>
      let a := cond_Zopp s (Zpos m) in
      Some (if 0 <=? e then (a * 2 ^ e ?= n) else (a ?= n * 2 ^ (- e)))
  end.

(** *** [float(s)] for a string *)

Inductive float_literal : Type :=
| LitNan
| LitInf (neg : bool)
| LitDec (neg : bool) (mantissa exp10 : Z).

Definition lower (c : ascii) : ascii :=
  if is_upper c then ascii_of_N (code c + 32) else c.

Fixpoint lowercase (s : string) : string :=
  match s with
  | EmptyString => EmptyString
  | String c s' => String (lower c) (lowercase s')
  end.

(** [[(e|E) [sign] digitpart]]: the exponent and what is left; [None] when an
    exponent is begun and not completed. *)
Definition scan_exponent (s : string) : option (Z * string) :=
  match s with
  | String c s' =>
      if Ascii.eqb (lower c) "e" then
        let (neg, t) := scan_sign s' in
        match digitpart 0 t with
        | Some (n, _, r) => Some (if neg then - n else n, r)
        | None => None
        end
      else Some (0, s)
  | EmptyString => Some (0, s)
  end.

(** The number of a decimal literal without its sign:
    [digitpart ["." [digitpart]] [exponent]] or ["." digitpart [exponent]],
    up to the end of the string. *)
Definition scan_decimal (s : string) : option (Z * Z) :=
  let whole := digitpart 0 s in
  let '(m, seen, t) :=
    match whole with
    | Some (n, _, r) => (n, true, r)
    | None => (0, false, s)
    end in
  let after_point :=
    match t with
    | String "." t' =>
        match digitpart m t' with
        | Some (n, cnt, r) => Some (n, cnt, r)
        | None => if seen then Some (m, 0, t') else None
        end
    | _ => if seen then Some (m, 0, t) else None
    end in
  match after_point with
  | Some (n, cnt, r) =>
      match scan_exponent r with
      | Some (e, EmptyString) => Some (n, e - cnt)
      | _ => None
      end
  | None => None
  end.

Definition float_syntax (s : string) : option float_literal :=
  let (neg, t) := scan_sign (strip s) in
  let w := lowercase t in
  if String.eqb w "nan" then Some LitNan
  else if String.eqb w "inf" || String.eqb w "infinity" then Some (LitInf neg)
  else
    match scan_decimal t with
    | Some (m, e) => Some (LitDec neg m e)
    | None => None
    end.

Definition float_of_literal (l : float_literal) : spec_float :=
  match l with
  | LitNan => S754_nan
  | LitInf neg => S754_infinity neg
  | LitDec neg m e => float_of_decimal neg m e
  end.

(** [float(s)]: [None] stands for [ValueError]. *)
Definition float_of_str (s : string) : option spec_float :=
  option_map float_of_literal (float_syntax s).

(** *** [repr] of a float

    The shortest string of digits that reads back as the same float, the
    nearest to it when two of that length do, laid out as Python does. *)

Definition float_eqb (a b : spec_float) : bool :=
  match a, b with
  | S754_zero s, S754_zero t => Bool.eqb s t
  | S754_infinity s, S754_infinity t => Bool.eqb s t
  | S754_nan, S754_nan => true
  | S754_finite s m e, S754_finite t n f =>
      Bool.eqb s t && Pos.eqb m n && (e =? f)
  | _, _ => false
  end.

(** [10 ^ k <= n / d], for any integer [k]. *)
Definition pow10_le (k n d : Z) : bool :=
  if 0 <=? k then 10 ^ k * d <=? n else d <=? n * 10 ^ (- k).

Fixpoint first_above (fuel : nat) (k n d : Z) : Z :=
  match fuel with
  | O => k
  | S fuel' => if pow10_le k n d then first_above fuel' (k + 1) n d else k
  end.

(** The least [k] with [n / d < 10 ^ k]: the position of the decimal point. *)
Definition decimal_point (n d : Z) : Z :=
  first_above 8 ((Z.log2 n - Z.log2 d) * 30103 / 100000 - 2) n d.

(** The digits of [m * 2 ^ e], at most 17 of them, as a number [c] and the
    power of ten it is scaled by. *)
Fixpoint shortest_digits (fuel : nat) (p : Z) (x : spec_float)
    (n d point : Z) : Z * Z :=
  let scale := p - point in
  let num := if 0 <=? scale then n * 10 ^ scale else n in
  let den := if 0 <=? scale then d else d * 10 ^ (- scale) in
  let lo := num / den in
  let r := num mod den in
  let back c := float_eqb (float_of_decimal false c (- scale)) x in
  match fuel with
  | O => (lo, - scale)
  | S fuel' =>
      if r =? 0 then (lo, - scale)
      else
        match back lo, back (lo + 1) with
        | true, true =>
            match 2 * r ?= den with
            | Lt => (lo, - scale)
            | Gt => (lo + 1, - scale)
            | Eq => (if Z.even lo then lo else lo + 1, - scale)
            end
        | true, false => (lo, - scale)
        | false, true => (lo + 1, - scale)
        | false, false => shortest_digits fuel' (p + 1) x n d point
        end
  end.

Fixpoint strip_zeros (fuel : nat) (c e : Z) : Z * Z :=
  match fuel with
  | O => (c, e)
  | S fuel' =>
      if (c mod 10 =? 0) && negb (c =? 0)
      then strip_zeros fuel' (c / 10) (e + 1) else (c, e)
  end.

Fixpoint zeros (n : nat) : string :=
  match n with
  | O => EmptyString
  | S n' => String "0" (zeros n')
  end.

Definition take (n : Z) (s : string) : string := substring 0 (Z.to_nat n) s.
Definition drop (n : Z) (s : string) : string :=
  substring (Z.to_nat n) (String.length s - Z.to_nat n) s.

(** The layout of [repr]: the digits [ds] with the decimal point after the
    first [point] of them. *)
Definition layout (ds : string) (point : Z) : string :=
  let len := Z.of_nat (String.length ds) in
  if (-4 <? point) && (point <=? 16) then
    if point <=? 0 then "0." ++ zeros (Z.to_nat (- point)) ++ ds
    else if len <=? point then ds ++ zeros (Z.to_nat (point - len)) ++ ".0"
    else take point ds ++ "." ++ drop point ds
  else
    let e := point - 1 in
    let shown := digits_of_nat (Z.abs e) in
    take 1 ds ++ (if len <=? 1 then "" else "." ++ drop 1 ds) ++ "e"
      ++ (if e <? 0 then "-" else "+")
      ++ (if Z.abs e <? 10 then "0" else "") ++ shown.

Definition float_repr (x : spec_float) : string :=
  match x with
  | S754_nan => "nan"
  | S754_infinity s => if s then "-inf" else "inf"
  | S754_zero s => if s then "-0.0" else "0.0"
  | S754_finite s m e =>
      let n := if 0 <=? e then Zpos m * 2 ^ e else Zpos m in
      let d := if 0 <=? e then 1 else 2 ^ (- e) in
      let '(c, e10) :=
        shortest_digits 17 1 (S754_finite false m e) n d (decimal_point n d) in
      let '(c', e10') := strip_zeros 400 c e10 in
      let ds := digits_of_nat c' in
      (if s then "-" else "") ++ layout ds (Z.of_nat (String.length ds) + e10')
  end.

(** ** [re]: regular expressions and [re.fullmatch]

    The constructs the patterns of the source use: character sets, sequence,
    alternative, the optional group and the counted repeat.  [fullmatch]
    decides whether the whole string belongs to the pattern, by successive
    derivatives. *)

Inductive regex : Type :=
| Void
| Eps
| Class (ranges : list (ascii * ascii))
| Seq (r1 r2 : regex)
| Alt (r1 r2 : regex)
| Rep (r : regex) (lo hi : nat).

(** [( r )?] *)
Definition Opt (r : regex) : regex := Alt r Eps.

Definition in_class (ranges : list (ascii * ascii)) (c : ascii) : bool :=
  existsb (fun r => in_range (fst r) (snd r) c) ranges.

Fixpoint nullable (r : regex) : bool :=
  match r with
  | Void => false
  | Eps => true
  | Class _ => false
  | Seq r1 r2 => nullable r1 && nullable r2
  | Alt r1 r2 => nullable r1 || nullable r2
  | Rep r lo hi => Nat.leb lo hi && (Nat.eqb lo 0 || nullable r)
  end.

Fixpoint deriv (c : ascii) (r : regex) : regex :=
  match r with
  | Void => Void
  | Eps => Void
  | Class ranges => if in_class ranges c then Eps else Void
  | Seq r1 r2 =>
      if nullable r1 then Alt (Seq (deriv c r1) r2) (deriv c r2)
      else Seq (deriv c r1) r2
  | Alt r1 r2 => Alt (deriv c r1) (deriv c r2)
  | Rep r lo hi =>
      match hi with
      | O => Void
      | S hi' => Seq (deriv c r) (Rep r (Nat.pred lo) hi')
      end
  end.

(** [re.fullmatch(r, s) is not None] *)
Fixpoint fullmatch (r : regex) (s : string) : bool :=
  match s with
  | EmptyString => nullable r
  | String c s' => fullmatch (deriv c r) s'
  end.

(** ** [datetime] and [timedelta] *)

Definition is_leap (y : Z) : bool :=
  (y mod 4 =? 0) && (negb (y mod 100 =? 0) || (y mod 400 =? 0)).

Definition days_in_month (y m : Z) : Z :=
  if m =? 2 then (if is_leap y then 29 else 28)
  else if (m =? 4) || (m =? 6) || (m =? 9) || (m =? 11) then 30
  else 31.

Definition days_before_year (y : Z) : Z :=
  let p := y - 1 in p * 365 + p / 4 - p / 100 + p / 400.

Definition days_before_month (y m : Z) : Z :=
  fold_left (fun acc k => acc + days_in_month y (Z.of_nat k))
            (seq 1 (Z.to_nat (m - 1))) 0.

(** The ordinal of a date: 1 for 0001-01-01. *)
Definition ymd2ord (y m d : Z) : Z :=
  days_before_year y + days_before_month y m + d.

Fixpoint month_of_day (fuel : nat) (y m n : Z) : Z * Z :=
  match fuel with
  | O => (m, n)
  | S fuel' =>
      if n <? days_in_month y m then (m, n)
      else month_of_day fuel' y (m + 1) (n - days_in_month y m)
  end.

(** The date of an ordinal. *)
Definition ord2ymd (ord : Z) : Z * Z * Z :=
  let n := ord - 1 in
  let n400 := n / 146097 in
  let n := n mod 146097 in
  let n100 := n / 36524 in
  let n := n mod 36524 in
  let n4 := n / 1461 in
  let n := n mod 1461 in
  let n1 := n / 365 in
  let n := n mod 365 in
  let y := n400 * 400 + 1 + n100 * 100 + n4 * 4 + n1 in
  if (n1 =? 4) || (n100 =? 4) then (y - 1, 12, 31)
  else let (m, r) := month_of_day 11 y 1 n in (y, m, r + 1).

Definition MINYEAR : Z := 1.
Definition MAXYEAR : Z := 9999.

Definition between (lo x hi : Z) : bool := (lo <=? x) && (x <=? hi).

(** [datetime(year, month, day, hour, minute, second, microsecond, tzinfo)] *)
Definition datetime_new (y mo d h mi s us : Z) (tz : option Z)
    : outcome pydatetime :=
  if negb (between MINYEAR y MAXYEAR) then
    Raise (ValueError "year is out of range")
  else if negb (between 1 mo 12) then
    Raise (ValueError "month must be in 1..12")
  else if negb (between 1 d (days_in_month y mo)) then
    Raise (ValueError "day is out of range for month")
  else if negb (between 0 h 23) then
    Raise (ValueError "hour must be in 0..23")
  else if negb (between 0 mi 59) then
    Raise (ValueError "minute must be in 0..59")
  else if negb (between 0 s 59) then
    Raise (ValueError "second must be in 0..59")
  else if negb (between 0 us 999999) then
    Raise (ValueError "microsecond must be in 0..999999")
  else Return (mkdatetime y mo d h mi s us tz).

Definition datetime_min : pydatetime := mkdatetime 1 1 1 0 0 0 0 None.
Definition datetime_max : pydatetime :=
  mkdatetime 9999 12 31 23 59 59 999999 None.

Definition us_per_day : Z := 86400 * 1000000.

(** The microseconds between 0001-01-01 00:00 and a datetime's fields. *)
Definition datetime_us (d : pydatetime) : Z :=
  (ymd2ord (year d) (month d) (day d) - 1) * us_per_day
  + ((hour d * 60 + minute d) * 60 + second d) * 1000000 + microsecond d.

(** [d + td] *)
Definition datetime_add (d : pydatetime) (td : timedelta) : outcome pydatetime :=
  let t := datetime_us d + td in
  let ord := t / us_per_day + 1 in
  let r := t mod us_per_day in
  if between 1 ord (ymd2ord MAXYEAR 12 31) then
    let '(y, m, dd) := ord2ymd ord in
    let secs := r / 1000000 in
    Return (mkdatetime y m dd (secs / 3600) (secs / 60 mod 60) (secs mod 60)
                       (r mod 1000000) (tzinfo d))
  else Raise (OverflowError "date value out of range").

(** An [int] or a [float]. *)
Inductive number : Type :=
| NInt (n : Z)
| NFloat (x : spec_float).

(** The nearest integer to [n / d], ties to even, for [0 < d]. *)
Definition round_half_even (n d : Z) : Z :=
  let q := n / d in
  match 2 * (n mod d) ?= d with
  | Lt => q
  | Gt => q + 1
  | Eq => if Z.even q then q else q + 1
  end.

Definition float_of_Z (n : Z) : spec_float :=
  float_of_ratio (n <? 0) (Z.abs n) 1.

Definition float_is_zero (x : spec_float) : bool :=
  match x with S754_zero _ => true | _ => false end.

(** [timedelta(seconds=x)] for a float: the whole seconds are exact; the
    fraction is multiplied by a million in floating point and the result
    rounded to a whole microsecond, ties to even. *)
Definition timedelta_of_float (x : spec_float) : outcome timedelta :=
  whole <- int_of_float x ;;
  let frac := SFsub prec emax x (float_of_Z whole) in
  let sum := whole * 1000000 in
  if float_is_zero frac then Return sum
  else
    match SFmul prec emax (float_of_Z 1000000) frac with
    | S754_finite sg m e =>
        let n := cond_Zopp sg (Zpos m) in
        Return (if 0 <=? e then sum + n * 2 ^ e
                else round_half_even (sum * 2 ^ (- e) + n) (2 ^ (- e)))
    | _ => Return sum
    end.

Definition timedelta_of_seconds (x : number) : outcome timedelta :=
  match x with
  | NInt n => Return (n * 1000000)
  | NFloat f => timedelta_of_float f
  end.

End Py.

(** * pydantic 1.8: fields, validators and [BaseModel.__init__] *)

Module Pydantic.

Import Py.
Local Open Scope py_scope.

(** ** The type validators ([pydantic.validators]) *)

(** A validator receives the value and the fields validated so far. *)
Definition validator : Type := pyval -> dict -> outcome pyval.

(** [str_validator]: a [str] as it is; an [int] or a [float] through [str]. *)
Definition str_validator (v : pyval) : outcome pyval :=
  match v with
  | VStr s => Return (VStr s)
  | VInt n => Return (VStr (str_of_int n))
  | VBool b => Return (VStr (if b then "True" else "False"))
  | VFloat x => Return (VStr (float_repr x))
  | _ => Raise (TypeError "str type expected")
  end.

(** [int(v)] *)
Definition py_int (v : pyval) : outcome Z :=
  match v with
  | VInt n => Return n
  | VBool b => Return (if b then 1 else 0)
  | VFloat x => int_of_float x
  | VStr s =>
      match int_of_str s with
      | Some n => Return n
      | None => Raise (ValueError "invalid literal for int() with base 10")
      end
  | _ => Raise (TypeError "int() argument must be a string or a number")
  end.

(** [int_validator]: an [int] that is not a [bool] as it is; otherwise
    [int(v)], whose [TypeError] and [ValueError] become the field's error. *)
Definition int_validator (v : pyval) : outcome pyval :=
  match v with
  | VInt n => Return (VInt n)
  | _ =>
      match py_int v with
      | Return n => Return (VInt n)
      | Raise (TypeError _) | Raise (ValueError _) =>
          Raise (TypeError "value is not a valid integer")
      | Raise e => Raise e
      end
  end.

(** [float(v)] *)
Definition py_float (v : pyval) : outcome spec_float :=
  match v with
  | VFloat x => Return x
  | VInt n => float_of_int n
  | VBool b => float_of_int (if b then 1 else 0)
  | VStr s =>
      match float_of_str s with
      | Some x => Return x
      | None => Raise (ValueError "could not convert string to float")
      end
  | _ => Raise (TypeError "float() argument must be a string or a number")
  end.

(** [float_validator] *)
Definition float_validator (v : pyval) : outcome pyval :=
  match v with
  | VFloat x => Return (VFloat x)
  | _ =>
      match py_float v with
      | Return x => Return (VFloat x)
      | Raise (TypeError _) | Raise (ValueError _) =>
          Raise (TypeError "value is not a valid float")
      | Raise e => Raise e
      end
  end.

(** ** Datetimes ([pydantic.datetime_parse]) *)

Definition MS_WATERSHED : Z := 20000000000.
Definition MAX_NUMBER : Z := 300000000000000000000.
Definition EPOCH : pydatetime := mkdatetime 1970 1 1 0 0 0 0 None.

(** [a > n] and [abs(a) > n] for a number [a] and an [int] [n]. *)
Definition number_gt (a : number) (n : Z) : bool :=
  match a with
  | NInt m => n <? m
  | NFloat x =>
      match compare_float_int x n with Some Gt => true | _ => false end
  end.

Definition number_lt (a : number) (n : Z) : bool :=
  match a with
  | NInt m => m <? n
  | NFloat x =>
      match compare_float_int x n with Some Lt => true | _ => false end
  end.

Definition number_abs (a : number) : number :=
  match a with
  | NInt m => NInt (Z.abs m)
  | NFloat x => NFloat (SFabs x)
  end.

(** [seconds /= 1000] *)
Definition div_1000 (a : number) : number :=
  match a with
  | NInt m => NFloat (float_of_ratio (m <? 0) (Z.abs m) 1000)
  | NFloat x => NFloat (SFdiv prec emax x (float_of_Z 1000))
  end.

(** [while abs(seconds) > MS_WATERSHED: seconds /= 1000]; below [MAX_NUMBER]
    four rounds are enough. *)
Fixpoint to_seconds (fuel : nat) (a : number) : number :=
  match fuel with
  | O => a
  | S fuel' =>
      if number_gt (number_abs a) MS_WATERSHED
      then to_seconds fuel' (div_1000 a) else a
  end.

Definition from_unix_seconds (seconds : number) : outcome pydatetime :=
  if number_gt seconds MAX_NUMBER then Return datetime_max
  else if number_lt seconds (- MAX_NUMBER) then Return datetime_min
  else
    td <- timedelta_of_seconds (to_seconds 8 seconds) ;;
    dt <- datetime_add EPOCH td ;;
    Return (mkdatetime (year dt) (month dt) (day dt) (hour dt) (minute dt)
                       (second dt) (microsecond dt) (Some 0)).

(** [get_numeric]: the number a value is or is written as, [None] when a
    string is not a number. *)
Definition get_numeric (v : pyval) : outcome (option number) :=
  match v with
  | VInt n => Return (Some (NInt n))
  | VBool b => Return (Some (NInt (if b then 1 else 0)))
  | VFloat x => Return (Some (NFloat x))
  | VStr s => Return (option_map NFloat (float_of_str s))
  | _ =>
      Raise (TypeError
        "invalid type; expected datetime, string, bytes, int or float")
  end.

(** Up to [n] digits from the front of [s], as many as there are. *)
Fixpoint take_digits (n : nat) (s : string) : string * string :=
  match n, s with
  | S n', String c s' =>
      if is_digit c
      then let (ds, r) := take_digits n' s' in (String c ds, r)
      else (EmptyString, s)
  | _, _ => (EmptyString, s)
  end.

(** [\d{lo,hi}] *)
Definition digits (lo hi : nat) (s : string) : option (string * string) :=
  let (ds, r) := take_digits hi s in
  if Nat.leb lo (String.length ds) then Some (ds, r) else None.

(** One character out of [cs]. *)
Definition one_of (cs : list ascii) (s : string) : option (ascii * string) :=
  match s with
  | String c s' => if existsb (Ascii.eqb c) cs then Some (c, s') else None
  | EmptyString => None
  end.

(** The groups of [datetime_re]. *)
Record datetime_groups : Type := mkgroups {
  g_year : string; g_month : string; g_day : string;
  g_hour : string; g_minute : string;
  g_second : option string;
  g_microsecond : option string;
  g_tzinfo : option string
}.

(** [(?::(\d{1,2})(?:\.(\d{1,6})\d{0,6})?)?] *)
Definition scan_seconds (s : string)
    : option string * option string * string :=
  match one_of [":"%char] s with
  | Some (_, s1) =>
      match digits 1 2 s1 with
      | Some (sec, s2) =>
          match one_of ["."%char] s2 with
          | Some (_, s3) =>
              match digits 1 6 s3 with
              | Some (us, s4) => (Some sec, Some us, snd (take_digits 6 s4))
              | None => (Some sec, None, s2)
              end
          | None => (Some sec, None, s2)
          end
      | None => (None, None, s)
      end
  | None => (None, None, s)
  end.

(** [(Z|[+-]\d{2}(?::?\d{2})?)?] *)
Definition scan_tzinfo (s : string) : option string * string :=
  match s with
  | String "Z" s' => (Some "Z", s')
  | _ =>
      match one_of ["+"%char; "-"%char] s with
      | Some (sg, s1) =>
          match digits 2 2 s1 with
          | Some (hh, s2) =>
              let s3 := match one_of [":"%char] s2 with
                        | Some (_, t) => t
                        | None => s2
                        end in
              match digits 2 2 s3 with
              | Some (mm, s4) =>
                  (Some (substring 0 (String.length s - String.length s4) s),
                   s4)
              | None => (Some (String sg hh), s2)
              end
          | None => (None, s)
          end
      | None => (None, s)
      end
  end.

(** [$]: the end of the string, or the line feed that ends it. *)
Definition at_end (s : string) : bool :=
  match s with
  | EmptyString => true
  | String c EmptyString => Ascii.eqb c "010"
  | _ => false
  end.

(** [datetime_re.match(s)], with
    [datetime_re = (\d{4})-(\d{1,2})-(\d{1,2})[T ](\d{1,2}):(\d{1,2})]
    followed by the optional seconds, the optional zone and [$].  Every
    repeat is followed by a character its digits cannot be, so taking as many
    digits as there are is the only way to match. *)
Definition datetime_re_match (s : string) : option datetime_groups :=
  match digits 4 4 s with
  | Some (y, s) =>
  match one_of ["-"%char] s with
  | Some (_, s) =>
  match digits 1 2 s with
  | Some (mo, s) =>
  match one_of ["-"%char] s with
  | Some (_, s) =>
  match digits 1 2 s with
  | Some (d, s) =>
  match one_of ["T"%char; " "%char] s with
  | Some (_, s) =>
  match digits 1 2 s with
  | Some (h, s) =>
  match one_of [":"%char] s with
  | Some (_, s) =>
  match digits 1 2 s with
  | Some (mi, s) =>
      let '(sec, us, s) := scan_seconds s in
      let (tz, s) := scan_tzinfo s in
      if at_end s then Some (mkgroups y mo d h mi sec us tz) else None
  | None => None end | None => None end | None => None end
  | None => None end | None => None end | None => None end
  | None => None end | None => None end | None => None end.

(** [int] of a string of digits. *)
Definition int_of_digits (s : string) : Z :=
  fold_left (fun acc c => 10 * acc + digit_value c) (list_ascii_of_string s) 0.

(** [s.ljust(6, '0')] *)
Definition ljust6 (s : string) : string :=
  s ++ zeros (6 - String.length s).

(** [_parse_timezone]: the offset in minutes; a [timezone] wants it strictly
    between minus and plus one day. *)
Definition parse_timezone (value : option string) : outcome (option Z) :=
  match value with
  | None => Return None
  | Some v =>
      if String.eqb v "Z" then Return (Some 0)
      else
        let len := String.length v in
        let offset_mins :=
          if Nat.ltb 3 len then int_of_digits (substring (len - 2) 2 v)
          else 0 in
        let offset := 60 * int_of_digits (substring 1 2 v) + offset_mins in
        let offset :=
          if String.eqb (substring 0 1 v) "-" then - offset else offset in
        if (-1440 <? offset) && (offset <? 1440) then Return (Some offset)
        else Raise (ValueError "invalid datetime format")
  end.

Definition group_int (g : option string) : Z :=
  match g with
  | Some ds => int_of_digits ds
  | None => 0
  end.

(** [parse_datetime] *)
Definition parse_datetime (v : pyval) : outcome pyval :=
  match v with
  | VDatetime d => Return (VDatetime d)
  | _ =>
      number <- get_numeric v ;;
      match number with
      | Some n => d <- from_unix_seconds n ;; Return (VDatetime d)
      | None =>
          match v with
          | VStr s =>
              match datetime_re_match s with
              | None => Raise (ValueError "invalid datetime format")
              | Some kw =>
                  tz <- parse_timezone (g_tzinfo kw) ;;
                  match
                    datetime_new
                      (int_of_digits (g_year kw)) (int_of_digits (g_month kw))
                      (int_of_digits (g_day kw)) (int_of_digits (g_hour kw))
                      (int_of_digits (g_minute kw)) (group_int (g_second kw))
                      (group_int (option_map ljust6 (g_microsecond kw))) tz
                  with
                  | Return d => Return (VDatetime d)
                  | Raise (ValueError _) =>
                      Raise (ValueError "invalid datetime format")
                  | Raise e => Raise e
                  end
              end
          | _ => Raise (ValueError "invalid datetime format")
          end
      end
  end.

(** ** Fields ([pydantic.fields.ModelField]) *)

Inductive shape : Type :=
| SHAPE_SINGLETON
| SHAPE_LIST.

Record ModelField : Type := mkfield {
  name : string;
  required : bool;
  default : pyval;
  allow_none : bool;
  field_shape : shape;
  validators : list validator;       (* of the declared type *)
  post_validators : list validator   (* the class's [@validator]s *)
}.

(** What validating one field gives: the value, the lines of its errors, or
    an exception that is not caught. *)
Inductive field_result : Type :=
| Valid (v : pyval)
| Invalid (errors : list error_line)
| Escaped (e : exn).

(** [except (ValueError, TypeError, AssertionError)]; a [ValidationError] is
    a [ValueError]. *)
Definition caught (e : exn) : bool :=
  match e with
  | ValueError _ | TypeError _ | ValidationError _ => true
  | _ => false
  end.

(** The lines an exception caught at [loc] contributes: its message, or the
    lines of a nested [ValidationError] placed under [loc]. *)
Definition error_lines (loc : list loc_item) (e : exn) : list error_line :=
  match e with
  | ValidationError errs => map (fun l => ((loc ++ fst l)%list, snd l)) errs
  | ValueError msg | TypeError msg | OverflowError msg
  | KeyError msg | AttributeError msg => [(loc, msg)]
  end.

(** [ModelField._apply_validators] *)
Fixpoint apply_validators (vs : list validator) (v : pyval) (values : dict)
    (loc : list loc_item) : field_result :=
  match vs with
  | [] => Valid v
  | f :: vs' =>
      match f v values with
      | Return v' => apply_validators vs' v' values loc
      | Raise e => if caught e then Invalid (error_lines loc e) else Escaped e
      end
  end.

Definition none_not_allowed (loc : list loc_item) : field_result :=
  Invalid [(loc, "none is not an allowed value")].

(** The items of a [List[T]] field, one after the other from index [i]: every
    item is validated, the errors of all of them are kept. *)
Fixpoint validate_items (vs : list validator) (items : list pyval) (i : nat)
    (values : dict) (loc : list loc_item)
    : outcome (list pyval * list error_line) :=
  match items with
  | [] => Return ([], [])
  | v :: items' =>
      let v_loc := (loc ++ [LIndex i])%list in
      let r := match v with
               | VNone => none_not_allowed v_loc
               | _ => apply_validators vs v values v_loc
               end in
      match r with
      | Escaped e => Raise e
      | Valid v' =>
          rest <- validate_items vs items' (S i) values loc ;;
          Return (v' :: fst rest, snd rest)
      | Invalid errs =>
          rest <- validate_items vs items' (S i) values loc ;;
          Return (fst rest, (errs ++ snd rest)%list)
      end
  end.

(** [ModelField._validate_sequence_like] for a list field. *)
Definition validate_sequence_like (vs : list validator) (v : pyval)
    (values : dict) (loc : list loc_item) : field_result :=
  match v with
  | VList items =>
      match validate_items vs items 0 values loc with
      | Raise e => Escaped e
      | Return (result, []) => Valid (VList result)
      | Return (_, errs) => Invalid errs
      end
  | _ => Invalid [(loc, "value is not a valid list")]
  end.

(** [ModelField.validate] *)
Definition field_validate (f : ModelField) (v : pyval) (values : dict)
    (loc : list loc_item) : field_result :=
  match v with
  | VNone =>
      if allow_none f then apply_validators (post_validators f) v values loc
      else none_not_allowed loc
  | _ =>
      let r := match field_shape f with
               | SHAPE_SINGLETON => apply_validators (validators f) v values loc
               | SHAPE_LIST => validate_sequence_like (validators f) v values loc
               end in
      match r with
      | Valid v' => apply_validators (post_validators f) v' values loc
      | _ => r
      end
  end.

(** ** Models ([pydantic.main]) *)

(** [validate_model]: the fields in the order of their declaration.  A field
    that is absent is an error when required and takes its default
    otherwise; a field whose validation fails adds its errors and is left
    out of [values]; the others are added to [values]. *)
Fixpoint validate_model (fields : list ModelField) (input_data : dict)
    (values : dict) (errors : list error_line)
    : outcome (dict * list error_line) :=
  match fields with
  | [] => Return (values, errors)
  | f :: fields' =>
      match dict_get input_data (name f) with
      | None =>
          if required f then
            validate_model fields' input_data values
              (errors ++ [([LField (name f)], "field required")])%list
          else
            validate_model fields' input_data
              (values ++ [(name f, default f)])%list errors
      | Some v =>
          match field_validate f v values [LField (name f)] with
          | Valid v' =>
              validate_model fields' input_data
                (values ++ [(name f, v')])%list errors
          | Invalid errs =>
              validate_model fields' input_data values (errors ++ errs)%list
          | Escaped e => Raise e
          end
      end
  end.

(** [BaseModel.__init__] for the class [cls] with these fields, on the
    keyword arguments [data]. *)
Definition BaseModel_init (cls : string) (fields : list ModelField)
    (data : dict) : outcome pyval :=
  r <- validate_model fields data [] [] ;;
  match snd r with
  | [] => Return (VModel cls (fst r))
  | errors => Raise (ValidationError errors)
  end.

(** A value that can be a key of a dictionary. *)
Definition hashable (v : pyval) : bool :=
  match v with
  | VList _ | VDict _ | VModel _ _ => false
  | _ => true
  end.

(** One item of the sequence given to [dict()]: a pair with a string key
    ([inl]), a pair with another key ([inr]), or not a pair ([None]). *)
Definition dict_item (v : pyval) : option (string * pyval + unit) :=
  match v with
  | VList [VStr k; x] => Some (inl (k, x))
  | VList [k; _] => if hashable k then Some (inr tt) else None
  | VStr (String a (String b EmptyString)) =>
      Some (inl (String a EmptyString, VStr (String b EmptyString)))
  | VDict [(k1, _); (k2, _)] => Some (inl (k1, VStr k2))
  | VModel _ [(_, x); _] => if hashable x then Some (inr tt) else None
  | _ => None
  end.

(** [dict(items)] followed by the call with [**]: the keywords must be
    strings. *)
Fixpoint dict_of_items (items : list pyval) (acc : dict) (strings : bool)
    : outcome dict :=
  match items with
  | [] =>
      if strings then Return acc
      else Raise (TypeError "keywords must be strings")
  | v :: items' =>
      match dict_item v with
      | Some (inl (k, x)) => dict_of_items items' (dict_set acc k x) strings
      | Some (inr _) => dict_of_items items' acc false
      | None => Raise (TypeError "value is not a valid dict")
      end
  end.

(** [Model.validate], the validator of a field whose type is a model: an
    instance of the class as it is, a dictionary through the constructor,
    anything else through [dict()]. *)
Definition model_validator (cls : string) (init : dict -> outcome pyval)
    : validator :=
  fun v _ =>
    match v with
    | VModel c fields => if String.eqb c cls then Return v else init fields
    | VDict d => init d
    | VList items => d <- dict_of_items items [] true ;; init d
    | VStr EmptyString => init []
    | _ => Raise (TypeError "value is not a valid dict")
    end.

(** A type validator that does not look at the other fields. *)
Definition plain (f : pyval -> outcome pyval) : validator := fun v _ => f v.

Definition required_field (n : string) (sh : shape) (vs post : list validator)
    : ModelField :=
  mkfield n true VNone false sh vs post.

(** [n: Optional[T]] without a default: not required, [None] when absent. *)
Definition optional_field (n : string) (vs : list validator) : ModelField :=
  mkfield n false VNone true SHAPE_SINGLETON vs [].

End Pydantic.

(** * The models of [src/models.py] *)

Module Models.

Import Py Pydantic.
Local Open Scope py_scope.

(** ** Operators of Python the validators use *)

(** [v < n] for an [int] [n]. *)
Definition py_lt_int (v : pyval) (n : Z) : outcome bool :=
  match v with
  | VInt m => Return (m <? n)
  | VBool b => Return ((if b then 1 else 0) <? n)
  | VFloat x =>
      Return (match compare_float_int x n with Some Lt => true | _ => false end)
  | _ => Raise (TypeError "'<' not supported between these instances")
  end.

(** [v == n] for an [int] [n]. *)
Definition py_eq_int (v : pyval) (n : Z) : bool :=
  match v with
  | VInt m => m =? n
  | VBool b => (if b then 1 else 0) =? n
  | VFloat x =>
      match compare_float_int x n with Some Eq => true | _ => false end
  | _ => false
  end.

(** [RE_NAMES = "[A-Za-z]{3,20}( [A-Za-z]{2,25})?"] *)
Definition letter : regex := Class [("A", "Z"); ("a", "z")]%char.
Definition space : regex := Class [(" ", " ")]%char.

Definition RE_NAMES : regex :=
  Seq (Rep letter 3 20) (Opt (Seq space (Rep letter 2 25))).

(** ** [class Customer(BaseModel)] *)

Definition Customer_fields : list ModelField :=
  [ required_field "customer_name" SHAPE_SINGLETON [plain str_validator] [];
    required_field "customer_cpf" SHAPE_SINGLETON [plain int_validator] [] ].

Definition Customer (data : dict) : outcome pyval :=
  BaseModel_init "Customer" Customer_fields data.

(** ** [class Product(BaseModel)] *)

Section WithCategories.

(** [from db_api.info_tb import PRODUCT_CATEGORIES]: the known categories,
    a collection of strings of which the code only asks membership. *)
Variable PRODUCT_CATEGORIES : list string.

(** [v in PRODUCT_CATEGORIES] *)
Definition known_category (v : string) : bool :=
  existsb (String.eqb v) PRODUCT_CATEGORIES.

(** [@validator('category')] *)
Definition category_must_be_valid (v : pyval) : outcome pyval :=
  match v with
  | VStr s =>
      if negb (fullmatch RE_NAMES s) then
        Raise (ValueError "product name invalid")
      else if negb (known_category s) then
        Raise (ValueError "unknown product")
      else Return v
  | _ => Raise (TypeError "expected string or bytes-like object")
  end.

(** [@validator('quantity')] *)
Definition quantity_must_be_positive (v : pyval) : outcome pyval :=
  negative <- py_lt_int v 0 ;;
  if negative then Raise (ValueError "product quantity cannot be negative")
  else Return v.

(** [@validator('value')]; [values] holds the fields declared above that
    passed their validation. *)
Definition value_must_be_positive (v : pyval) (values : dict)
    : outcome pyval :=
  negative <- py_lt_int v 0 ;;
  if negative then Raise (ValueError "product value cannot be negative")
  else if negb (py_eq_int v 0) then
    quantity <- getitem values "quantity" ;;
    if py_eq_int quantity 0 then
      Raise (ValueError "product whitout the quantity")
    else Return v
  else Return v.

(** The fields in the order of the class body:
    [category: str], [quantity: int], [value: int]. *)
Definition category_field : ModelField :=
  required_field "category" SHAPE_SINGLETON
    [plain str_validator] [plain category_must_be_valid].

Definition quantity_field : ModelField :=
  required_field "quantity" SHAPE_SINGLETON
    [plain int_validator] [plain quantity_must_be_positive].

Definition value_field : ModelField :=
  required_field "value" SHAPE_SINGLETON
    [plain int_validator] [value_must_be_positive].

Definition Product_fields : list ModelField :=
  [category_field; quantity_field; value_field].

Definition Product (data : dict) : outcome pyval :=
  BaseModel_init "Product" Product_fields data.

(** ** [class CashBackTransaction(BaseModel)] *)

Definition CashBackTransaction_fields : list ModelField :=
  [ required_field "sold_at" SHAPE_SINGLETON [plain parse_datetime] [];
    required_field "customer" SHAPE_SINGLETON
      [model_validator "Customer" Customer] [];
    required_field "total" SHAPE_SINGLETON [plain float_validator] [];
    required_field "products" SHAPE_LIST
      [model_validator "Product" Product] [] ].

Definition CashBackTransaction (data : dict) : outcome pyval :=
  BaseModel_init "CashBackTransaction" CashBackTransaction_fields data.

End WithCategories.

(** ** [class JWTPayload(BaseModel)] *)

Definition JWTPayload_fields : list ModelField :=
  [ required_field "sub" SHAPE_SINGLETON [plain str_validator] [];
    optional_field "exp" [plain parse_datetime] ].

Definition JWTPayload (data : dict) : outcome pyval :=
  BaseModel_init "JWTPayload" JWTPayload_fields data.

(** What looking an attribute up on an object gives: a value it holds, or
    something its class defines. *)
Inductive attribute : Type :=
| Held (v : pyval)
| OfClass (attr : string).

(** The names [BaseModel] defines for every model. *)
Definition BaseModel_attributes : list string :=
  [ "dict"; "json"; "copy"; "parse_obj"; "parse_raw"; "parse_file";
    "from_orm"; "construct"; "schema"; "schema_json"; "validate";
    "update_forward_refs"; "fields"; "to_string"; "Config" ].

(** The names the class [JWTPayload] defines or inherits. *)
Definition JWTPayload_attributes : list string :=
  "update_exp_date" :: BaseModel_attributes.

(** [obj.attr]: the fields the instance holds, then its class; a model has
    no other source of attributes. *)
Definition getattr (class_attributes : list string) (obj : pyval)
    (attr : string) : outcome attribute :=
  let missing cls :=
    Raise (AttributeError
             ("'" ++ cls ++ "' object has no attribute '" ++ attr ++ "'")) in
  match obj with
  | VModel cls fields =>
      match dict_get fields attr with
      | Some v => Return (Held v)
      | None =>
          if existsb (String.eqb attr) class_attributes
          then Return (OfClass attr) else missing cls
      end
  | _ => missing "object"
  end.

(** [obj.attr = v] on a model: the name must be one of its fields. *)
Definition setattr (obj : pyval) (attr : string) (v : pyval) : outcome pyval :=
  match obj with
  | VModel cls fields =>
      match dict_get fields attr with
      | Some _ => Return (VModel cls (dict_set fields attr v))
      | None =>
          Raise (ValueError
                   ("'" ++ cls ++ "' object has no field '" ++ attr ++ "'"))
      end
  | _ => Raise (AttributeError "object has no such attribute")
  end.

(** [x.utcnow()] where the clock reads [now]: [utcnow] is a class method of
    [datetime], which its instances reach too. *)
Definition call_utcnow (now : pydatetime) (x : attribute) : outcome pydatetime :=
  match x with
  | Held (VDatetime _) => Return now
  | _ => Raise (AttributeError "object has no attribute 'utcnow'")
  end.

(** [timedelta(minutes=15)] *)
Definition default_lifetime : timedelta := 15 * 60 * 1000000.

(** [def update_exp_date(self, lifetime=timedelta(minutes=15))] with the
    body [self.exp = self.datetime.utcnow() + lifetime], run when the clock
    reads [now].  The result is what the call gives and the payload after
    the call. *)
Definition update_exp_date (now : pydatetime) (self : pyval)
    (lifetime : option timedelta) : outcome unit * pyval :=
  let lifetime := match lifetime with Some l => l | None => default_lifetime end in
  let assigned :=
    d <- getattr JWTPayload_attributes self "datetime" ;;
    t <- call_utcnow now d ;;
    e <- datetime_add t lifetime ;;
    setattr self "exp" (VDatetime e) in
  match assigned with
  | Return self' => (Return tt, self')
  | Raise e => (Raise e, self)
  end.

End Models.

(** * What the specification says, in terms of the models *)

Module Spec.

Import Py Pydantic Models.

(** The keyword arguments of the three constructors. *)
Definition customer_data (customer_name customer_cpf : pyval) : dict :=
  [("customer_name", customer_name); ("customer_cpf", customer_cpf)].

Definition product_data (category quantity value : pyval) : dict :=
  [("category", category); ("quantity", quantity); ("value", value)].

Definition transaction_data (sold_at customer total products : pyval) : dict :=
  [("sold_at", sold_at); ("customer", customer); ("total", total);
   ("products", products)].

(** A payload holding [sub] and [exp]. *)
Definition payload (sub : string) (exp : option pydatetime) : pyval :=
  VModel "JWTPayload"
    [("sub", VStr sub);
     ("exp", match exp with Some d => VDatetime d | None => VNone end)].

(** A construction fails when it raises; it is rejected when what it raises
    is a [ValidationError]. *)
Definition fails {A : Type} (o : outcome A) : Prop := exists e, o = Raise e.

Definition rejects {A : Type} (o : outcome A) : Prop :=
  exists errors, o = Raise (ValidationError errors).

(** [isinstance(v, cls)] *)
Definition is_instance (cls : string) (v : pyval) : bool :=
  match v with
  | VModel c _ => String.eqb c cls
  | _ => false
  end.

(** ** The name pattern, in the words of the specification *)

(** The words of a pattern: [power L k] is [k] words of [L] in a row. *)
Fixpoint power (L : string -> Prop) (k : nat) (s : string) : Prop :=
  match k with
  | O => s = ""
  | S k' => exists s1 s2, s = s1 ++ s2 /\ L s1 /\ power L k' s2
  end.

Fixpoint lang (r : regex) (s : string) : Prop :=
  match r with
  | Void => False
  | Eps => s = ""
  | Class ranges => exists c, s = String c "" /\ in_class ranges c = true
  | Seq r1 r2 => exists s1 s2, s = s1 ++ s2 /\ lang r1 s1 /\ lang r2 s2
  | Alt r1 r2 => lang r1 s \/ lang r2 s
  | Rep r lo hi => exists k, (lo <= k <= hi)%nat /\ power (lang r) k s
  end.

Fixpoint all_in (ranges : list (ascii * ascii)) (s : string) : bool :=
  match s with
  | EmptyString => true
  | String c s' => in_class ranges c && all_in ranges s'
  end.

(** The letters, of either case. *)
Definition letters : list (ascii * ascii) := [("A", "Z"); ("a", "z")]%char.

(** A word of [lo] to [hi] letters. *)
Definition word (lo hi : nat) (w : string) : Prop :=
  all_in letters w = true /\ (lo <= String.length w <= hi)%nat.

(** The pattern as the specification words it: 3 to 20 letters, and
    optionally a space and a second word of 2 to 25 letters. *)
Definition name_pattern (s : string) : Prop :=
  exists w1, word 3 20 w1 /\
    (s = w1 \/ exists w2, word 2 25 w2 /\ s = w1 ++ " " ++ w2).

(** ** The rules of a product, field by field *)

Definition category_reason (cats : list string) (s : string) : option string :=
  if negb (fullmatch RE_NAMES s) then Some "product name invalid"
  else if negb (known_category cats s) then Some "unknown product"
  else None.

Definition quantity_reason (q : Z) : option string :=
  if q <? 0 then Some "product quantity cannot be negative" else None.

Definition value_reason (q v : Z) : option string :=
  if v <? 0 then Some "product value cannot be negative"
  else if negb (v =? 0) && (q =? 0) then Some "product whitout the quantity"
  else None.

Definition line_of (field : string) (reason : option string)
    : list error_line :=
  match reason with
  | Some msg => [([LField field], msg)]
  | None => []
  end.

(** The lines of the fields that break their rule, in the order category,
    quantity, value. *)
Definition violation_lines (cats : list string) (s : string) (q v : Z)
    : list error_line :=
  (line_of "category" (category_reason cats s)
   ++ line_of "quantity" (quantity_reason q)
   ++ line_of "value" (value_reason q v))%list.

(** The category [s] went through: it is held by the instance, or no line
    of the error is about it. *)
Definition category_accepted (s : string) (o : outcome pyval) : Prop :=
  match o with
  | Return (VModel _ fields) => dict_get fields "category" = Some (VStr s)
  | Raise (ValidationError errors) =>
      forall l, In l errors -> fst l <> [LField "category"]
  | _ => False
  end.

(** ** The timestamp format, in the words of the specification *)

(** The number a list of digits writes. *)
Definition number_of (ds : list ascii) : Z :=
  fold_left (fun acc c => 10 * acc + digit_value c) ds 0.

Definition valid_date (y m d : Z) : bool :=
  between 1 y 9999 && between 1 m 12 && between 1 d (days_in_month y m).

Definition valid_time (h mi s : Z) : bool :=
  between 0 h 23 && between 0 mi 59 && between 0 s 59.

(** The format as the specification words it: a string written exactly as
    [YYYY-MM-DD HH:MM:SS], and the date and time it denotes. *)
Definition exact_format (s : string) : option pydatetime :=
  match list_ascii_of_string s with
  | [y1; y2; y3; y4; p1; m1; m2; p2; d1; d2; p3; h1; h2; p4; n1; n2; p5;
     s1; s2] =>
      let y := number_of [y1; y2; y3; y4] in
      let mo := number_of [m1; m2] in
      let d := number_of [d1; d2] in
      let h := number_of [h1; h2] in
      let mi := number_of [n1; n2] in
      let sec := number_of [s1; s2] in
      if forallb is_digit
           [y1; y2; y3; y4; m1; m2; d1; d2; h1; h2; n1; n2; s1; s2]
         && String.eqb (string_of_list_ascii [p1; p2; p3; p4; p5]) "-- ::"
         && valid_date y mo d && valid_time h mi sec
      then Some (mkdatetime y mo d h mi sec 0 None)
      else None
  | _ => None
  end.

(** A string of 19 characters. *)
Definition string19
    (y1 y2 y3 y4 p1 m1 m2 p2 d1 d2 p3 h1 h2 p4 n1 n2 p5 s1 s2 : ascii)
    : string :=
  string_of_list_ascii
    [y1; y2; y3; y4; p1; m1; m2; p2; d1; d2; p3; h1; h2; p4; n1; n2; p5;
     s1; s2].

(** ** The types of the fields of a customer *)

(** A value [str_validator] takes: a string or a number. *)
Definition str_like (v : pyval) : bool :=
  match v with
  | VStr _ | VInt _ | VBool _ | VFloat _ => true
  | _ => false
  end.

(** A value [int()] takes. *)
Definition int_like (v : pyval) : bool :=
  match py_int v with
  | Return _ => true
  | Raise _ => false
  end.

(** ** Values of the examples *)

Definition known : list string := ["Eletronico"].

(** [10.5] *)
Definition ten_and_a_half : spec_float := float_of_decimal false 105 (-1).

(** [0.5] and [-0.5] *)
Definition half : spec_float := float_of_decimal false 5 (-1).
Definition minus_half : spec_float := float_of_decimal true 5 (-1).

Definition ana : pyval :=
  VModel "Customer" (customer_data (VStr "Ana") (VInt 12345678901)).

Definition tv : pyval :=
  VModel "Product" (product_data (VStr "Eletronico") (VInt 2) (VInt 150)).

End Spec.

(** * The identity models of [src/models.py] *)

Module Accounts.

Import Py Pydantic.
Local Open Scope py_scope.

(** [s.lower()] on the code points below 256: the letters [A] to [Z], and
    the accented capitals 192 to 222 without the multiplication sign. *)
Definition lower_char (c : ascii) : ascii :=
  if is_upper c
     || ((192 <=? code c)%N && (code c <=? 222)%N && negb (code c =? 215)%N)
  then ascii_of_N (code c + 32) else c.

Fixpoint str_lower (s : string) : string :=
  match s with
  | EmptyString => EmptyString
  | String c s' => String (lower_char c) (str_lower s')
  end.

(** The strings of [BOOL_TRUE] and [BOOL_FALSE]; their numbers are 1
    and 0. *)
Definition BOOL_TRUE : list string := ["1"; "on"; "t"; "true"; "y"; "yes"].
Definition BOOL_FALSE : list string := ["0"; "off"; "f"; "false"; "n"; "no"].

Definition BoolError : exn :=
  TypeError "value could not be parsed to a boolean".

(** [bool_validator]: a [bool] as it is; a string, in lower case, or a
    number that belongs to one of the two sets. *)
Definition bool_validator (v : pyval) : outcome pyval :=
  match v with
  | VBool b => Return (VBool b)
  | VStr s =>
      let w := str_lower s in
      if existsb (String.eqb w) BOOL_TRUE then Return (VBool true)
      else if existsb (String.eqb w) BOOL_FALSE then Return (VBool false)
      else Raise BoolError
  | VInt n =>
      if n =? 1 then Return (VBool true)
      else if n =? 0 then Return (VBool false)
      else Raise BoolError
  | VFloat x =>
      match compare_float_int x 1, compare_float_int x 0 with
      | Some Eq, _ => Return (VBool true)
      | _, Some Eq => Return (VBool false)
      | _, _ => Raise BoolError
      end
  | _ => Raise BoolError
  end.

(** ** [class User(BaseModel)] *)

Definition User_fields : list ModelField :=
  [ required_field "username" SHAPE_SINGLETON [plain str_validator] [];
    optional_field "full_name" [plain str_validator];
    optional_field "email" [plain str_validator];
    optional_field "disabled" [plain bool_validator] ].

Definition User (data : dict) : outcome pyval :=
  BaseModel_init "User" User_fields data.

(** ** [class UserInDB(User)]: the fields of [User], then its own. *)

Definition UserInDB_fields : list ModelField :=
  (User_fields ++
   [ required_field "hashed_password" SHAPE_SINGLETON
       [plain str_validator] [] ])%list.

Definition UserInDB (data : dict) : outcome pyval :=
  BaseModel_init "UserInDB" UserInDB_fields data.

(** ** [class Token(BaseModel)] *)

Definition Token_fields : list ModelField :=
  [ required_field "access_token" SHAPE_SINGLETON [plain str_validator] [];
    required_field "token_type" SHAPE_SINGLETON [plain str_validator] [] ].

Definition Token (data : dict) : outcome pyval :=
  BaseModel_init "Token" Token_fields data.

(** ** [class TokenOwner(BaseModel)] *)

Definition TokenOwner_fields : list ModelField :=
  [ optional_field "username" [plain str_validator] ].

Definition TokenOwner (data : dict) : outcome pyval :=
  BaseModel_init "TokenOwner" TokenOwner_fields data.

End Accounts.

(** * Further notions for the properties of the constructors *)

Module Contracts.

Import Py Pydantic Models Spec Accounts.

(** An exception that [BaseModel.__init__] lets through: neither a
    [ValidationError] nor one that becomes a line of it. *)
Definition uncaught (e : exn) : Prop := caught e = false.

(** A string, or [None]. *)
Definition optional_str (v : pyval) : bool :=
  match v with
  | VNone | VStr _ => true
  | _ => false
  end.

(** A [bool], or [None]. *)
Definition optional_bool (v : pyval) : bool :=
  match v with
  | VNone | VBool _ => true
  | _ => false
  end.

(** The names of the fields of a list of fields. *)
Definition names (fields : list ModelField) : list string := map name fields.

(** The place of a line under the item [i] of [products]. *)
Definition under_product (i : nat) (l : error_line) : error_line :=
  ([LField "products"; LIndex i] ++ fst l, snd l)%list.

(** A string of digits. *)
Fixpoint all_digits (s : string) : bool :=
  match s with
  | EmptyString => true
  | String c s' => is_digit c && all_digits s'
  end.

(** A letter or a space. *)
Definition letter_or_space (c : ascii) : bool :=
  in_class letters c || Ascii.eqb c " ".

Fixpoint all_chars (p : ascii -> bool) (s : string) : bool :=
  match s with
  | EmptyString => true
  | String c s' => p c && all_chars p s'
  end.

(** ** When a constructor returns *)

(** The field [f] gives [x]: its default when the data do not have it and
    it is not required, the value its validation returns otherwise. *)
Definition field_accepts (data values : dict) (f : ModelField) (x : pyval)
    : Prop :=
  match dict_get data (name f) with
  | None => required f = false /\ x = default f
  | Some v => field_validate f v values [LField (name f)] = Valid x
  end.

(** The fields give [xs], each validated with the ones before it. *)
Fixpoint fields_accept (data values : dict) (fields : list ModelField)
    (xs : list pyval) : Prop :=
  match fields, xs with
  | [], [] => True
  | f :: fields', x :: xs' =>
      field_accepts data values f x /\
      fields_accept data (values ++ [(name f, x)])%list fields' xs'
  | _, _ => False
  end.

(** A validator that raises no [ValidationError], or one with lines. *)
Definition raises_lines (g : validator) : Prop :=
  forall v values, g v values <> Raise (ValidationError []).

(** A field whose rejection always has a line. *)
Definition never_silent (f : ModelField) : Prop :=
  forall v values loc, field_validate f v values loc <> Invalid [].

(** ** The quantity and the value of a product, as they are given *)

(** The quantity is there and casts to an integer that is not negative. *)
Definition quantity_accepted (data : dict) : Prop :=
  exists rq q,
    dict_get data "quantity" = Some rq /\ py_int rq = Return q /\ 0 <= q.

(** The cast of the quantity raises what the constructor does not catch. *)
Definition quantity_escapes (data : dict) : Prop :=
  exists rq e,
    dict_get data "quantity" = Some rq /\ py_int rq = Raise e /\ uncaught e.

(** The value is there and casts to an integer above zero. *)
Definition value_positive (data : dict) : Prop :=
  exists rv v,
    dict_get data "value" = Some rv /\ py_int rv = Return v /\ 0 < v.

(** The two dictionaries give the same for each of the keys. *)
Definition same_on (keys : list string) (data data' : dict) : Prop :=
  forall k, In k keys -> dict_get data k = dict_get data' k.

(** The value an instance holds for a field. *)
Definition field_of (obj : pyval) (k : string) : option pyval :=
  match obj with
  | VModel _ fields => dict_get fields k
  | _ => None
  end.

(** A validator that does not look at the fields validated before. *)
Definition ignores_values (g : validator) : Prop :=
  forall v a b, g v a = g v b.

(** A validator whose exceptions all become lines of the error. *)
Definition raises_caught (g : validator) : Prop :=
  forall v values e, g v values = Raise e -> caught e = true.

(** One of the exceptions the builtin casts raise. *)
Definition builtin_error (e : exn) : bool :=
  match e with
  | ValueError _ | TypeError _ | OverflowError _ => true
  | _ => false
  end.

(** What escapes a construction: the [KeyError] of the value validator, or
    an [OverflowError] of a cast. *)
Definition escaping (e : exn) : Prop :=
  e = KeyError "quantity" \/ exists msg, e = OverflowError msg.

(** ** Values of the examples *)

(** The arguments of a transaction of the customer [ana] with these
    products. *)
Definition purchase (products : list pyval) : dict :=
  transaction_data (VStr "2023-01-15 10:30:00") ana (VFloat ten_and_a_half)
    (VList products).

(** The transaction they construct. *)
Definition purchased (products : list pyval) : pyval :=
  VModel "CashBackTransaction"
    (transaction_data (VDatetime (mkdatetime 2023 1 15 10 30 0 0 None)) ana
       (VFloat ten_and_a_half) (VList products)).

(** A television set, two of them. *)
Definition tv_data : dict :=
  product_data (VStr "Eletronico") (VInt 2) (VInt 150).

(** A product whose quantity is negative, with a value above zero and with
    a negative value. *)
Definition returned_data : dict :=
  product_data (VStr "Eletronico") (VInt (-1)) (VInt 5).

Definition broken_data : dict :=
  product_data (VStr "Eletronico") (VInt (-1)) (VInt (-1)).

End Contracts.

(** * Proofs *)

Import Py Pydantic Models Spec.

(** ** The pattern of names *)

Lemma append_empty s1 s2 : s1 ++ s2 = "" -> s1 = "" /\ s2 = "".
Proof. destruct s1; cbn; [auto | discriminate]. Qed.

Lemma append_nil_r s : s ++ "" = s.
Proof. induction s; cbn; congruence. Qed.

Lemma append_cons c s s1 s2 :
  String c s = s1 ++ s2 ->
  (s1 = "" /\ s2 = String c s) \/
  (exists s1', s1 = String c s1' /\ s = s1' ++ s2).
Proof.
  destruct s1 as [|c' s1']; cbn; intros H.
  - left; auto.
  - right. injection H as -> ->. eauto.
Qed.

Section Languages.

Variable L : string -> Prop.

Lemma power_empty k : L "" -> power L k "".
Proof.
  intros HL. induction k; cbn; [reflexivity|].
  exists "", "". auto.
Qed.

Lemma power_pad j k s : L "" -> (j <= k)%nat -> power L j s -> power L k s.
Proof.
  intros HL Hjk. induction Hjk; intros H; [assumption|].
  cbn. exists "", s. auto.
Qed.

(** A repetition that begins with [c]: one of its words does, and the words
    before it are empty. *)
Lemma power_cons k c s :
  power L k (String c s) ->
  exists s1 s2 j, s = s1 ++ s2 /\ L (String c s1) /\ power L j s2 /\
                  (j < k)%nat /\ (S j = k \/ L "").
Proof.
  induction k as [|k IH]; cbn.
  - discriminate.
  - intros (s1 & s2 & Heq & H1 & H2).
    destruct (append_cons _ _ _ _ Heq) as [[-> ->]|(s1' & -> & ->)].
    + destruct (IH H2) as (t1 & t2 & j & -> & Ht1 & Ht2 & Hlt & _).
      exists t1, t2, j. repeat split; auto.
    + exists s1', s2, k. repeat split; auto.
Qed.

End Languages.

Lemma nullable_lang r : nullable r = true <-> lang r "".
Proof.
  induction r as [| |rs|r1 IH1 r2 IH2|r1 IH1 r2 IH2|r IH lo hi]; cbn.
  - split; [discriminate | tauto].
  - split; auto.
  - split; [discriminate | intros (c & H & _); discriminate H].
  - rewrite andb_true_iff, IH1, IH2. split.
    + intros [H1 H2]. exists "", "". auto.
    + intros (s1 & s2 & Heq & H1 & H2).
      symmetry in Heq. apply append_empty in Heq as [-> ->]. auto.
  - rewrite orb_true_iff, IH1, IH2. tauto.
  - rewrite andb_true_iff, orb_true_iff, Nat.leb_le, Nat.eqb_eq, IH. split.
    + intros [Hle [->|Hn]].
      * exists 0%nat. cbn. split; [lia | reflexivity].
      * exists lo. split; [lia | apply power_empty, Hn].
    + intros (k & Hk & Hp). split; [lia|].
      destruct lo as [|lo]; [left; reflexivity | right].
      destruct k as [|k]; [lia|]. cbn in Hp.
      destruct Hp as (s1 & s2 & Heq & H1 & _).
      symmetry in Heq. apply append_empty in Heq as [-> _]. exact H1.
Qed.

Lemma deriv_seq c r1 r2 s :
  (forall t, lang (deriv c r1) t <-> lang r1 (String c t)) ->
  (exists s1 s2, s = s1 ++ s2 /\ lang (deriv c r1) s1 /\ lang r2 s2)
  \/ (lang r1 "" /\ lang r2 (String c s))
  <-> exists s1 s2, String c s = s1 ++ s2 /\ lang r1 s1 /\ lang r2 s2.
Proof.
  intros IH1. split.
  - intros [(s1 & s2 & -> & H1 & H2)|[H1 H2]].
    + exists (String c s1), s2. rewrite <- IH1. auto.
    + exists "", (String c s). auto.
  - intros (s1 & s2 & Heq & H1 & H2).
    destruct (append_cons _ _ _ _ Heq) as [[-> ->]|(s1' & -> & ->)].
    + right; auto.
    + left. exists s1', s2. rewrite IH1. auto.
Qed.

(** The derivative by [c] holds what is left of the words that begin
    with [c]. *)
Lemma deriv_lang c r : forall s, lang (deriv c r) s <-> lang r (String c s).
Proof.
  induction r as [| |rs|r1 IH1 r2 IH2|r1 IH1 r2 IH2|r IH lo hi]; intros s; cbn.
  - tauto.
  - split; [tauto | discriminate].
  - destruct (in_class rs c) eqn:Hc; cbn; split.
    + intros ->. exists c. auto.
    + intros (c' & Heq & _). injection Heq as _ ->. reflexivity.
    + tauto.
    + intros (c' & Heq & Hc'). injection Heq as -> _. congruence.
  - rewrite <- (deriv_seq c r1 r2 s IH1).
    destruct (nullable r1) eqn:Hn; cbn.
    + rewrite IH2. apply nullable_lang in Hn. tauto.
    + split; [tauto|]. intros [H|[H _]]; [exact H|].
      apply nullable_lang in H. congruence.
  - rewrite IH1, IH2. tauto.
  - destruct hi as [|hi]; cbn.
    + split; [tauto|]. intros (k & Hk & Hp).
      assert (k = 0)%nat as -> by lia. discriminate Hp.
    + split.
      * intros (s1 & s2 & -> & H1 & k & Hk & Hp).
        exists (S k). split; [lia|]. cbn.
        exists (String c s1), s2. rewrite <- IH. auto.
      * intros (k & Hk & Hp).
        destruct (power_cons _ _ _ _ Hp)
          as (s1 & s2 & j & -> & H1 & H2 & Hlt & Hj).
        exists s1, s2. rewrite IH. repeat split; auto.
        destruct Hj as [<-|Hnil].
        -- exists j. split; [lia | assumption].
        -- exists (Nat.pred k). split; [lia|].
           apply (power_pad _ j); auto. lia.
Qed.

(** [fullmatch] decides membership. *)
Lemma fullmatch_lang s : forall r, fullmatch r s = true <-> lang r s.
Proof.
  induction s as [|c s IH]; intros r; cbn.
  - apply nullable_lang.
  - rewrite IH. apply deriv_lang.
Qed.

Lemma power_class rs k s :
  power (lang (Class rs)) k s <-> all_in rs s = true /\ String.length s = k.
Proof.
  revert s. induction k as [|k IH]; intros s; cbn.
  - split.
    + intros ->. auto.
    + intros [_ H]. destruct s; [reflexivity | discriminate].
  - split.
    + intros (s1 & s2 & -> & (c & -> & Hc) & Hp).
      apply IH in Hp as [Hall <-]. cbn. rewrite Hc, Hall. auto.
    + intros [Hall Hlen]. destruct s as [|c s]; [discriminate|].
      cbn in Hall. apply andb_true_iff in Hall as [Hc Hall].
      exists (String c ""), s. repeat split; eauto.
      apply IH. split; [assumption|]. cbn in Hlen. lia.
Qed.

Lemma lang_word lo hi w : lang (Rep letter lo hi) w <-> word lo hi w.
Proof.
  unfold word, letter. cbn [lang]. split.
  - intros (k & Hk & Hp). apply power_class in Hp as [Hall <-]. auto.
  - intros [Hall Hlen]. exists (String.length w). split; [lia|].
    apply power_class. auto.
Qed.

Lemma only_space c : in_class [(" ", " ")]%char c = true -> c = " "%char.
Proof.
  cbn. rewrite orb_false_r. unfold in_range, code.
  intros H. apply andb_true_iff in H as [Ha Hb].
  apply N.leb_le in Ha, Hb.
  assert (Hc : N_of_ascii c = N_of_ascii " ") by (cbn in *; lia).
  apply (f_equal ascii_of_N) in Hc. rewrite !ascii_N_embedding in Hc.
  exact Hc.
Qed.

(** [RE_NAMES] is the pattern the specification describes. *)
Lemma RE_NAMES_spec s : fullmatch RE_NAMES s = true <-> name_pattern s.
Proof.
  rewrite fullmatch_lang. unfold RE_NAMES, Opt, name_pattern, space.
  cbn [lang]. split.
  - intros (w1 & t & -> & H1 & Ht). apply lang_word in H1.
    exists w1. split; [assumption|].
    destruct Ht as [(sp & w2 & -> & (c & -> & Hc) & H2)| ->].
    + right. exists w2. apply lang_word in H2. split; [assumption|].
      apply only_space in Hc. subst c. reflexivity.
    + left. apply append_nil_r.
  - intros (w1 & H1 & Hs). apply lang_word in H1.
    destruct Hs as [->|(w2 & H2 & ->)].
    + exists w1, "". rewrite append_nil_r. auto.
    + exists w1, (" " ++ w2). repeat split; auto.
      left. exists " ", w2. apply lang_word in H2. repeat split; auto.
      exists " "%char. auto.
Qed.

Lemma known_category_In cats s : known_category cats s = true <-> In s cats.
Proof.
  unfold known_category. rewrite existsb_exists. split.
  - intros (x & Hx & Heq). apply String.eqb_eq in Heq. congruence.
  - intros H. exists s. split; [assumption | apply String.eqb_refl].
Qed.

(** ** Customer *)

Lemma Customer_accepts s n :
  Customer (customer_data (VStr s) (VInt n)) =
  Return (VModel "Customer" (customer_data (VStr s) (VInt n))).
Proof. reflexivity. Qed.

Lemma Customer_rejects_only data errs :
  Customer data = Raise (ValidationError errs) ->
  dict_get data "customer_name" = None \/
  dict_get data "customer_cpf" = None \/
  (exists v, dict_get data "customer_name" = Some v /\ str_like v = false) \/
  (exists v, dict_get data "customer_cpf" = Some v /\ int_like v = false).
Proof.
  unfold Customer, BaseModel_init, Customer_fields.
  cbn [validate_model name required required_field].
  destruct (dict_get data "customer_name") as [n|]; [|auto].
  destruct (dict_get data "customer_cpf") as [c|]; [|auto].
  intros H.
  destruct (str_like n) eqn:Hn; [|right; right; left; eauto].
  destruct (int_like c) eqn:Hc; [|right; right; right; eauto].
  exfalso.
  unfold int_like in Hc. destruct (py_int c) as [k|] eqn:Hk; [|discriminate].
  destruct n; try discriminate Hn;
    (destruct c; cbn in Hk; try discriminate Hk;
     cbn in H; try rewrite Hk in H; cbn in H; discriminate H).
Qed.

(** C9, as the specification states it, fails: a customer whose name is the
    empty string is constructed, not rejected. *)
Lemma Customer_empty_name_accepted :
  ~ rejects (Customer (customer_data (VStr "") (VInt 12345678901))).
Proof. intros [errs H]. discriminate H. Qed.

(** C9, amended.  Constructing a Customer takes a name string, which may be
    empty, and an integer identification number, and validates neither
    beyond its type: for every string and every integer the construction
    succeeds and holds both as given.  It fails with ValidationError only
    when a field is missing or its value is not of a type that casts to the
    declared one. *)
Theorem Customer_contract :
  (forall s n,
     Customer (customer_data (VStr s) (VInt n)) =
     Return (VModel "Customer" (customer_data (VStr s) (VInt n)))) /\
  (forall data errs,
     Customer data = Raise (ValidationError errs) ->
     dict_get data "customer_name" = None \/
     dict_get data "customer_cpf" = None \/
     (exists v, dict_get data "customer_name" = Some v /\ str_like v = false) \/
     (exists v, dict_get data "customer_cpf" = Some v /\ int_like v = false)).
Proof. split; [apply Customer_accepts | apply Customer_rejects_only]. Qed.

Lemma Customer_contract_witness :
  Customer (customer_data (VList []) (VInt 1)) =
    Raise (ValidationError [([LField "customer_name"], "str type expected")])
  /\ (dict_get (customer_data (VList []) (VInt 1)) "customer_name" = None \/
      dict_get (customer_data (VList []) (VInt 1)) "customer_cpf" = None \/
      (exists v, dict_get (customer_data (VList []) (VInt 1)) "customer_name"
                 = Some v /\ str_like v = false) \/
      (exists v, dict_get (customer_data (VList []) (VInt 1)) "customer_cpf"
                 = Some v /\ int_like v = false)).
Proof.
  split; [reflexivity|].
  apply (proj2 Customer_contract (customer_data (VList []) (VInt 1))
           [([LField "customer_name"], "str type expected")]).
  reflexivity.
Defined.

(** C10.  For every integer [n], negative or of any number of digits, and
    every name, constructing a Customer with [customer_cpf = n] succeeds: no
    check of sign or of digit count is applied. *)
Theorem Customer_accepts_any_cpf (name : string) (n : Z) :
  Customer (customer_data (VStr name) (VInt n)) =
  Return (VModel "Customer" (customer_data (VStr name) (VInt n))).
Proof. apply Customer_accepts. Qed.

(** ** Product *)

Lemma category_check cats s values loc :
  field_validate (category_field cats) (VStr s) values loc =
  if negb (fullmatch RE_NAMES s) then Invalid [(loc, "product name invalid")]
  else if negb (known_category cats s) then Invalid [(loc, "unknown product")]
  else Valid (VStr s).
Proof.
  unfold field_validate, category_field, required_field.
  cbn -[fullmatch RE_NAMES known_category].
  destruct (fullmatch RE_NAMES s); cbn -[known_category]; [|reflexivity].
  destruct (known_category cats s); reflexivity.
Qed.

Lemma quantity_check q values loc :
  field_validate quantity_field (VInt q) values loc =
  if q <? 0 then Invalid [(loc, "product quantity cannot be negative")]
  else Valid (VInt q).
Proof.
  unfold field_validate, quantity_field, required_field; cbn -[Z.ltb].
  destruct (q <? 0); reflexivity.
Qed.

Lemma value_check v values loc :
  field_validate value_field (VInt v) values loc =
  if v <? 0 then Invalid [(loc, "product value cannot be negative")]
  else if v =? 0 then Valid (VInt v)
  else match dict_get values "quantity" with
       | None => Escaped (KeyError "quantity")
       | Some q => if py_eq_int q 0
                   then Invalid [(loc, "product whitout the quantity")]
                   else Valid (VInt v)
       end.
Proof.
  unfold field_validate, value_field, required_field.
  cbn -[Z.ltb Z.eqb dict_get py_eq_int].
  destruct (v <? 0); [reflexivity|]. cbn -[Z.eqb dict_get py_eq_int].
  change (py_eq_int (VInt v) 0) with (v =? 0).
  destruct (v =? 0); [reflexivity|]. cbn -[dict_get py_eq_int].
  unfold getitem.
  destruct (dict_get values "quantity"); cbn -[py_eq_int]; [|reflexivity].
  destruct (py_eq_int p 0); reflexivity.
Qed.

(** The constructor, one field after the other. *)
Lemma Product_unfold cats c q v :
  Product cats (product_data c q v) =
  match field_validate (category_field cats) c [] [LField "category"] with
  | Escaped e => Raise e
  | rc =>
    let values1 := match rc with Valid c' => [("category", c')] | _ => [] end in
    let errs1 := match rc with Invalid e => e | _ => [] end in
    match field_validate quantity_field q values1 [LField "quantity"] with
    | Escaped e => Raise e
    | rq =>
      let values2 :=
        (values1 ++
         match rq with Valid q' => [("quantity", q')] | _ => [] end)%list in
      let errs2 :=
        (errs1 ++ match rq with Invalid e => e | _ => [] end)%list in
      match field_validate value_field v values2 [LField "value"] with
      | Escaped e => Raise e
      | rv =>
        let values3 :=
          (values2 ++
           match rv with Valid v' => [("value", v')] | _ => [] end)%list in
        match (errs2 ++ match rv with Invalid e => e | _ => [] end)%list with
        | [] => Return (VModel "Product" values3)
        | errs => Raise (ValidationError errs)
        end
      end
    end
  end.
Proof.
  unfold Product, BaseModel_init, Product_fields, product_data.
  cbn [validate_model dict_get name category_field quantity_field value_field
       required_field required String.eqb Ascii.eqb Bool.eqb].
  cbn -[field_validate].
  destruct (field_validate _ c); cbn -[field_validate]; try reflexivity;
  destruct (field_validate quantity_field q); cbn -[field_validate];
    try reflexivity;
  destruct (field_validate value_field v); cbn -[field_validate];
    try reflexivity;
  rewrite ?app_nil_r; try reflexivity.
Qed.

(** Away from a rejected quantity with a positive value, the constructor
    returns the instance or raises the lines of the broken rules. *)
Lemma Product_outcome cats s q v :
  ~ (q < 0 /\ 0 < v) ->
  Product cats (product_data (VStr s) (VInt q) (VInt v)) =
  match violation_lines cats s q v with
  | [] => Return (VModel "Product" (product_data (VStr s) (VInt q) (VInt v)))
  | errs => Raise (ValidationError errs)
  end.
Proof.
  intros Hslip.
  unfold violation_lines, category_reason, quantity_reason, value_reason.
  rewrite Product_unfold, category_check.
  destruct (fullmatch RE_NAMES s); cbn [negb];
  [destruct (known_category cats s); cbn [negb]|];
  rewrite quantity_check;
  destruct (Z.ltb_spec q 0) as [Hq|Hq]; cbn -[field_validate Z.ltb Z.eqb];
  rewrite value_check;
  destruct (Z.ltb_spec v 0) as [Hv|Hv]; cbn -[Z.eqb]; try reflexivity;
  destruct (Z.eqb_spec v 0) as [Hz|Hz]; cbn -[Z.eqb]; try reflexivity;
  try (exfalso; lia);
  destruct (Z.eqb_spec q 0) as [Hq0|Hq0]; cbn; reflexivity.
Qed.

Lemma Product_KeyError cats s q v :
  q < 0 -> 0 < v ->
  Product cats (product_data (VStr s) (VInt q) (VInt v)) =
  Raise (KeyError "quantity").
Proof.
  intros Hq Hv.
  assert (Hq1 : (q <? 0) = true) by (apply Z.ltb_lt; lia).
  assert (Hv1 : (v <? 0) = false) by (apply Z.ltb_ge; lia).
  assert (Hv2 : (v =? 0) = false) by (apply Z.eqb_neq; lia).
  rewrite Product_unfold, category_check.
  destruct (fullmatch RE_NAMES s); cbn [negb];
    [destruct (known_category cats s); cbn [negb]|];
    rewrite quantity_check, Hq1; cbn -[field_validate];
    rewrite value_check, Hv1, Hv2; reflexivity.
Qed.

(** The two validators on integers.  With a category that matches the
    pattern and is known, and an integer as quantity and as value,
    constructing a Product fails for every quantity below zero; and for a
    quantity of zero or more it fails exactly when the value is below zero,
    or is not zero while the quantity is zero.  In every other combination,
    a value of zero with a quantity of zero or above among them, it returns
    the instance. *)
Theorem Product_fails_iff cats s q v :
  fullmatch RE_NAMES s = true -> known_category cats s = true ->
  let out := Product cats (product_data (VStr s) (VInt q) (VInt v)) in
  (q < 0 -> fails out) /\
  (0 <= q -> (fails out <-> v < 0 \/ (v <> 0 /\ q = 0))) /\
  (0 <= q -> ~ (v < 0 \/ (v <> 0 /\ q = 0)) ->
   out = Return (VModel "Product" (product_data (VStr s) (VInt q) (VInt v)))).
Proof.
  intros Hm Hk out. subst out.
  rewrite Product_unfold, category_check, Hm, Hk. cbn [negb].
  rewrite quantity_check.
  destruct (Z.ltb_spec q 0) as [Hq|Hq].
  - cbn -[field_validate]. rewrite value_check.
    repeat split; try lia.
    destruct (v <? 0); [eexists; reflexivity|].
    destruct (v =? 0); [eexists; reflexivity|].
    cbn. eexists; reflexivity.
  - cbn -[field_validate]. rewrite value_check.
    destruct (Z.ltb_spec v 0) as [Hv|Hv].
    + repeat split; try lia. intros _. eexists; reflexivity.
    + destruct (Z.eqb_spec v 0) as [Hz|Hz].
      * repeat split; try lia; try reflexivity.
        intros [e He]. discriminate He.
      * cbn [dict_get String.eqb Ascii.eqb Bool.eqb app]. cbn -[Z.eqb].
        destruct (Z.eqb_spec q 0) as [Hq0|Hq0].
        -- repeat split; try lia. intros _. eexists; reflexivity.
        -- repeat split; try lia; try reflexivity.
           intros [e He]. discriminate He.
Qed.

Lemma Product_fails_iff_witness :
  fullmatch RE_NAMES "Eletronico" = true /\
  known_category known "Eletronico" = true /\
  (fails (Product known (product_data (VStr "Eletronico") (VInt 0) (VInt 150)))
   <-> 150 < 0 \/ (150 <> 0 /\ 0 = 0)).
Proof.
  split; [reflexivity|]. split; [reflexivity|].
  apply (Product_fails_iff known "Eletronico" 0 150);
    [reflexivity | reflexivity | lia].
Defined.

(** C2: the code at [Product(category="Eletronico", quantity=0, value=0.5)]
    and at [Product(category="Eletronico", quantity=1, value=-0.5)].  The
    field is declared [value: int], so the value is cast with [int] before
    its validator runs: the validator sees 0 where the value given is not
    zero, or is below zero, and both constructions return an instance whose
    value is 0. *)
Theorem Product_fractional_value_constructed :
  py_eq_int (VFloat half) 0 = false /\
  Product known (product_data (VStr "Eletronico") (VInt 0) (VFloat half)) =
    Return (VModel "Product"
              (product_data (VStr "Eletronico") (VInt 0) (VInt 0))) /\
  py_lt_int (VFloat minus_half) 0 = Return true /\
  Product known
    (product_data (VStr "Eletronico") (VInt 1) (VFloat minus_half)) =
    Return (VModel "Product"
              (product_data (VStr "Eletronico") (VInt 1) (VInt 0))).
Proof. repeat split; vm_compute; reflexivity. Qed.

(** The category validator on its own, and the constructor where the
    quantity and the value are integers and the [KeyError] of C5 is not
    raised.  For every string [s] given as category: when [s] does not fully
    match the pattern of names (3 to 20 letters, optionally a space and 2 to
    25 letters, of either case), the category check fails with the reason
    "product name invalid"; when [s] matches and is not among the known
    categories, it fails with "unknown product"; otherwise it passes.  On
    those inputs the constructor reports the same: the line of the category
    comes first in its error, or the category is held by the instance. *)
Theorem category_rule cats s :
  (forall values loc,
     (~ name_pattern s ->
      field_validate (category_field cats) (VStr s) values loc =
      Invalid [(loc, "product name invalid")]) /\
     (name_pattern s -> ~ In s cats ->
      field_validate (category_field cats) (VStr s) values loc =
      Invalid [(loc, "unknown product")]) /\
     (name_pattern s -> In s cats ->
      field_validate (category_field cats) (VStr s) values loc =
      Valid (VStr s))) /\
  (forall q v,
     ~ (q < 0 /\ 0 < v) ->
     let out := Product cats (product_data (VStr s) (VInt q) (VInt v)) in
     (~ name_pattern s ->
      exists rest, out = Raise (ValidationError
        (([LField "category"], "product name invalid") :: rest))) /\
     (name_pattern s -> ~ In s cats ->
      exists rest, out = Raise (ValidationError
        (([LField "category"], "unknown product") :: rest))) /\
     (name_pattern s -> In s cats -> category_accepted s out)).
Proof.
  split.
  - intros values loc. rewrite category_check.
    rewrite <- RE_NAMES_spec, <- known_category_In.
    destruct (fullmatch RE_NAMES s); cbn [negb];
      [destruct (known_category cats s); cbn [negb]|];
      repeat split; congruence.
  - intros q v Hslip out. subst out. rewrite Product_outcome by assumption.
    unfold violation_lines, category_reason.
    rewrite <- RE_NAMES_spec, <- known_category_In.
    destruct (fullmatch RE_NAMES s); cbn [negb].
    + destruct (known_category cats s); cbn [negb line_of app].
      * repeat split; try congruence. intros _ _.
        destruct (quantity_reason q), (value_reason q v); cbn; try reflexivity;
          intros l Hl; repeat (destruct Hl as [<-|Hl]; [discriminate|]);
          contradiction.
      * repeat split; try congruence. intros _ _. eexists; reflexivity.
    + cbn [line_of app]. repeat split; try congruence.
      intros _. eexists; reflexivity.
Qed.

Lemma category_rule_witness :
  ~ (1 < 0 /\ 0 < 10) /\
  exists rest,
    Product known (product_data (VStr "xyz123") (VInt 1) (VInt 10)) =
    Raise (ValidationError
             (([LField "category"], "product name invalid") :: rest)).
Proof.
  split; [lia|].
  refine (proj1 (proj2 (category_rule known "xyz123") 1 10 _) _); [lia|].
  intros H. apply RE_NAMES_spec in H. discriminate H.
Defined.

(** C3: the code at [Product(category="xyz123", quantity=-1, value=5)].  The
    category does not match the pattern of names and its validator rejects
    it, but the construction does not fail with the reason "product name
    invalid": the value validator then looks up the rejected quantity, and
    what leaves the constructor is the [KeyError] of that lookup, which
    carries no reason. *)
Theorem category_reason_not_reported :
  fullmatch RE_NAMES "xyz123" = false /\
  field_validate (category_field known) (VStr "xyz123") []
    [LField "category"] =
    Invalid [([LField "category"], "product name invalid")] /\
  Product known (product_data (VStr "xyz123") (VInt (-1)) (VInt 5)) =
    Raise (KeyError "quantity") /\
  ~ rejects
      (Product known (product_data (VStr "xyz123") (VInt (-1)) (VInt 5))).
Proof.
  assert (H : Product known
                (product_data (VStr "xyz123") (VInt (-1)) (VInt 5))
              = Raise (KeyError "quantity")) by (vm_compute; reflexivity).
  repeat split; try (vm_compute; reflexivity).
  rewrite H. intros [errs He]. discriminate He.
Qed.

(** C4: the code at [Product(category="Eletronico", quantity=0, value=150)].
    The value validator rejects it, and the reason it gives is spelled
    "product whitout the quantity", which is not the reason of the
    specification. *)
Theorem value_reason_misspelled :
  Product known (product_data (VStr "Eletronico") (VInt 0) (VInt 150)) =
    Raise (ValidationError
             [([LField "value"], "product whitout the quantity")])
  /\ "product whitout the quantity" <> "product without the quantity".
Proof. split; [reflexivity | discriminate]. Qed.

(** C5: the code where the quantity is below zero and the value above.  The
    rejected quantity is absent from [values], the value validator reads it
    all the same, and the [KeyError] of that lookup leaves the constructor:
    what is raised is not a [ValidationError]. *)
Theorem Product_raises_KeyError cats s q v :
  q < 0 -> 0 < v ->
  Product cats (product_data (VStr s) (VInt q) (VInt v)) =
    Raise (KeyError "quantity")
  /\ ~ rejects (Product cats (product_data (VStr s) (VInt q) (VInt v))).
Proof.
  intros Hq Hv. rewrite Product_KeyError by assumption.
  split; [reflexivity|]. intros [errs H]. discriminate H.
Qed.

Lemma Product_raises_KeyError_witness :
  -1 < 0 /\ 0 < 5 /\
  Product known (product_data (VStr "Eletronico") (VInt (-1)) (VInt 5)) =
    Raise (KeyError "quantity").
Proof.
  split; [lia|]. split; [lia|].
  apply (Product_raises_KeyError known "Eletronico" (-1) 5); lia.
Defined.

(** C6, as the specification states it, fails: with a category that does not
    match and a value below zero, the error has a line for each of the two
    fields, not only for the first. *)
Lemma Product_not_fail_fast :
  Product known (product_data (VStr "xyz123") (VInt 1) (VInt (-1))) =
    Raise (ValidationError
             [([LField "category"], "product name invalid");
              ([LField "value"], "product value cannot be negative")])
  /\ ~ (exists line,
          Product known (product_data (VStr "xyz123") (VInt 1) (VInt (-1))) =
          Raise (ValidationError [line])).
Proof. split; [reflexivity|]. intros [line H]. discriminate H. Qed.

(** C6, amended.  Constructing a Product validates the three fields in the
    order category, quantity, value and does not stop at the first that
    breaks its rule: when one or more do, the ValidationError it raises
    lists every one of them, in that order, each with the reason of its
    first failing check.  (Inputs whose quantity is below zero and whose
    value is above zero are left out.) *)
Theorem Product_reports_every_violation cats s q v :
  ~ (q < 0 /\ 0 < v) ->
  violation_lines cats s q v <> [] ->
  Product cats (product_data (VStr s) (VInt q) (VInt v)) =
  Raise (ValidationError (violation_lines cats s q v)).
Proof.
  intros Hslip Hne. rewrite Product_outcome by assumption.
  destruct (violation_lines cats s q v); [contradiction | reflexivity].
Qed.

Lemma Product_reports_every_violation_witness :
  ~ (-1 < 0 /\ 0 < -1) /\
  violation_lines known "xyz123" (-1) (-1) <> [] /\
  Product known (product_data (VStr "xyz123") (VInt (-1)) (VInt (-1))) =
  Raise (ValidationError
           [([LField "category"], "product name invalid");
            ([LField "quantity"], "product quantity cannot be negative");
            ([LField "value"], "product value cannot be negative")]).
Proof.
  split; [lia|]. split; [discriminate|].
  apply (Product_reports_every_violation known "xyz123" (-1) (-1));
    [lia | discriminate].
Defined.

(** C8: the code at [Product(category="Eletronico", quantity=1, value=10.5)].
    The field is declared [value: int]; the construction succeeds and the
    value read back is the integer 10, not the 10.5 that was given. *)
Theorem Product_value_truncated :
  Product known
    (product_data (VStr "Eletronico") (VInt 1) (VFloat ten_and_a_half)) =
    Return (VModel "Product"
              (product_data (VStr "Eletronico") (VInt 1) (VInt 10)))
  /\ VInt 10 <> VFloat ten_and_a_half.
Proof. split; [vm_compute; reflexivity | discriminate]. Qed.

(** ** CashBackTransaction *)

Lemma digit_cases c :
  is_digit c = true ->
  In c ["0"; "1"; "2"; "3"; "4"; "5"; "6"; "7"; "8"; "9"]%char.
Proof.
  destruct c as [[] [] [] [] [] [] [] []]; intros H;
    try discriminate H; cbn; tauto.
Qed.

Ltac by_digit c H :=
  let Hc := fresh in
  pose proof (digit_cases c H) as Hc; cbn in Hc;
  repeat (destruct Hc as [<-|Hc]; [reflexivity|]); contradiction.

Lemma digit_not_space c : is_digit c = true -> is_space c = false.
Proof. intros H. by_digit c H. Qed.

Lemma scan_sign_digit c s :
  is_digit c = true -> scan_sign (String c s) = (false, String c s).
Proof. intros H. by_digit c H. Qed.

Lemma lowercase_length s : String.length (lowercase s) = String.length s.
Proof. induction s; cbn; congruence. Qed.

Lemma eqb_length_neq s t :
  String.length s <> String.length t -> String.eqb s t = false.
Proof. intros H. apply String.eqb_neq. intros ->. auto. Qed.

Lemma scan_digits_digit acc cnt c s :
  is_digit c = true ->
  scan_digits acc cnt (String c s) =
  scan_digits (10 * acc + digit_value c) (cnt + 1) s.
Proof. intros H. cbn [scan_digits]. rewrite H. reflexivity. Qed.

(** A string of 19 characters that begins with four digits and a hyphen and
    ends with a digit is not the literal of a float. *)
Lemma float_of_str_dated
    y1 y2 y3 y4 m1 m2 p2 d1 d2 p3 h1 h2 p4 n1 n2 p5 s1 s2 :
  is_digit y1 = true -> is_digit y2 = true -> is_digit y3 = true ->
  is_digit y4 = true -> is_digit s2 = true ->
  float_of_str
    (string19 y1 y2 y3 y4 "-" m1 m2 p2 d1 d2 p3 h1 h2 p4 n1 n2 p5 s1 s2) = None.
Proof.
  intros H1 H2 H3 H4 Hz.
  unfold float_of_str, float_syntax, string19, strip.
  cbn [string_of_list_ascii lstrip]. rewrite (digit_not_space _ H1).
  cbn [rev_string lstrip]. rewrite (digit_not_space _ Hz).
  cbn [rev_string]. rewrite (scan_sign_digit _ _ H1).
  rewrite !eqb_length_neq
    by (rewrite lowercase_length; cbn [String.length]; lia).
  cbn [orb]. unfold scan_decimal, digitpart. rewrite H1.
  rewrite !scan_digits_digit by assumption.
  reflexivity.
Qed.

Lemma take_digits_digit n c s :
  is_digit c = true ->
  take_digits (S n) (String c s) =
  (String c (fst (take_digits n s)), snd (take_digits n s)).
Proof.
  intros H. cbn [take_digits]. rewrite H.
  destruct (take_digits n s). reflexivity.
Qed.

Lemma digits_two a b s :
  is_digit a = true -> is_digit b = true ->
  digits 1 2 (String a (String b s)) = Some (String a (String b ""), s).
Proof.
  intros Ha Hb. unfold digits.
  rewrite !take_digits_digit by assumption. reflexivity.
Qed.

Lemma digits_four a b c d s :
  is_digit a = true -> is_digit b = true -> is_digit c = true ->
  is_digit d = true ->
  digits 4 4 (String a (String b (String c (String d s)))) =
  Some (String a (String b (String c (String d ""))), s).
Proof.
  intros Ha Hb Hc Hd. unfold digits.
  rewrite !take_digits_digit by assumption. reflexivity.
Qed.

Lemma datetime_re_match_exact y1 y2 y3 y4 m1 m2 d1 d2 h1 h2 n1 n2 s1 s2 :
  forallb is_digit [y1; y2; y3; y4; m1; m2; d1; d2; h1; h2; n1; n2; s1; s2]
    = true ->
  datetime_re_match
    (string19 y1 y2 y3 y4 "-" m1 m2 "-" d1 d2 " " h1 h2 ":" n1 n2 ":" s1 s2) =
  Some (mkgroups (string_of_list_ascii [y1; y2; y3; y4])
                 (string_of_list_ascii [m1; m2])
                 (string_of_list_ascii [d1; d2])
                 (string_of_list_ascii [h1; h2])
                 (string_of_list_ascii [n1; n2])
                 (Some (string_of_list_ascii [s1; s2])) None None).
Proof.
  intros H. cbn [forallb] in H. rewrite !andb_true_iff in H.
  destruct H as (Hy1 & Hy2 & Hy3 & Hy4 & Hm1 & Hm2 & Hd1 & Hd2 & Hh1 & Hh2
                 & Hn1 & Hn2 & Hs1 & Hs2 & _).
  unfold datetime_re_match, string19. cbn [string_of_list_ascii].
  rewrite digits_four by assumption.
  cbn [one_of existsb Ascii.eqb Bool.eqb orb].
  rewrite digits_two by assumption.
  cbn [one_of existsb Ascii.eqb Bool.eqb orb].
  rewrite digits_two by assumption.
  cbn [one_of existsb Ascii.eqb Bool.eqb orb].
  rewrite digits_two by assumption.
  cbn [one_of existsb Ascii.eqb Bool.eqb orb].
  rewrite digits_two by assumption.
  unfold scan_seconds.
  cbn [one_of existsb Ascii.eqb Bool.eqb orb].
  rewrite digits_two by assumption.
  reflexivity.
Qed.

Lemma int_of_digits_number ds :
  int_of_digits (string_of_list_ascii ds) = number_of ds.
Proof.
  unfold int_of_digits, number_of.
  rewrite list_ascii_of_string_of_list_ascii. reflexivity.
Qed.

Lemma datetime_new_valid y mo d h mi s :
  valid_date y mo d = true -> valid_time h mi s = true ->
  datetime_new y mo d h mi s 0 None = Return (mkdatetime y mo d h mi s 0 None).
Proof.
  unfold valid_date, valid_time, datetime_new, MINYEAR, MAXYEAR.
  rewrite !andb_true_iff. intros ((-> & ->) & ->) ((-> & ->) & ->).
  reflexivity.
Qed.

Lemma exact_format_shape s dt :
  exact_format s = Some dt ->
  exists y1 y2 y3 y4 m1 m2 d1 d2 h1 h2 n1 n2 s1 s2,
    s = string19 y1 y2 y3 y4 "-" m1 m2 "-" d1 d2 " " h1 h2 ":" n1 n2 ":" s1 s2
    /\ forallb is_digit [y1; y2; y3; y4; m1; m2; d1; d2; h1; h2; n1; n2; s1; s2]
       = true
    /\ valid_date (number_of [y1; y2; y3; y4]) (number_of [m1; m2])
                  (number_of [d1; d2]) = true
    /\ valid_time (number_of [h1; h2]) (number_of [n1; n2])
                  (number_of [s1; s2]) = true
    /\ dt = mkdatetime (number_of [y1; y2; y3; y4]) (number_of [m1; m2])
              (number_of [d1; d2]) (number_of [h1; h2]) (number_of [n1; n2])
              (number_of [s1; s2]) 0 None.
Proof.
  unfold exact_format. intros H.
  rewrite <- (string_of_list_ascii_of_string s).
  destruct (list_ascii_of_string s) as [|y1 [|y2 [|y3 [|y4 [|p1 [|m1 [|m2 [|p2
    [|d1 [|d2 [|p3 [|h1 [|h2 [|p4 [|n1 [|n2 [|p5 [|s1 [|s2 [|? ?]]]]]]]]]]]]]]]]]]]];
    try discriminate H.
  match type of H with (if ?b then _ else _) = _ => destruct b eqn:Hb end;
    [|discriminate H].
  injection H as <-.
  rewrite !andb_true_iff in Hb. destruct Hb as (((Hd & Hp) & Hdate) & Htime).
  apply String.eqb_eq in Hp. cbn [string_of_list_ascii] in Hp.
  injection Hp as -> -> -> -> ->.
  exists y1, y2, y3, y4, m1, m2, d1, d2, h1, h2, n1, n2, s1, s2.
  repeat split; assumption.
Qed.

(** A string in the exact format is parsed to the date and time it writes. *)
Lemma parse_datetime_exact s dt :
  exact_format s = Some dt -> parse_datetime (VStr s) = Return (VDatetime dt).
Proof.
  intros H. apply exact_format_shape in H.
  destruct H as (y1 & y2 & y3 & y4 & m1 & m2 & d1 & d2 & h1 & h2 & n1 & n2
                 & s1 & s2 & -> & Hd & Hdate & Htime & ->).
  unfold parse_datetime, get_numeric.
  pose proof Hd as Hd'. cbn [forallb] in Hd'. rewrite !andb_true_iff in Hd'.
  rewrite float_of_str_dated by tauto.
  cbn [option_map bind]. rewrite datetime_re_match_exact by assumption.
  cbn [g_tzinfo g_year g_month g_day g_hour g_minute g_second g_microsecond
       parse_timezone bind option_map group_int].
  rewrite !int_of_digits_number, datetime_new_valid by assumption.
  reflexivity.
Qed.

(** The items of a list that are instances of the class go through. *)
Lemma validate_instances cls init ps :
  forallb (is_instance cls) ps = true ->
  forall i values loc,
    validate_items [model_validator cls init] ps i values loc = Return (ps, []).
Proof.
  induction ps as [|p ps IH]; intros H i values loc; [reflexivity|].
  cbn [forallb] in H. apply andb_true_iff in H as [Hp Hps].
  destruct p; try discriminate Hp. cbn [is_instance] in Hp.
  cbn [validate_items apply_validators model_validator]. rewrite Hp.
  rewrite IH by assumption. reflexivity.
Qed.

(** C7, as the specification states it, fails: a timestamp written with a
    [T] between the date and the time is not in the format, and the
    transaction is constructed all the same. *)
Lemma CashBackTransaction_accepts_T_separator :
  exact_format "2023-01-15T10:30:00" = None /\
  ~ rejects (CashBackTransaction known
               (transaction_data (VStr "2023-01-15T10:30:00") ana
                  (VFloat ten_and_a_half) (VList [tv]))).
Proof.
  split; [reflexivity|]. intros [errs H]. vm_compute in H. discriminate H.
Qed.

(** C7, amended.  For every string [s] given as sold_at, with a customer, a
    total and products that are valid: when [s] is written exactly as
    YYYY-MM-DD HH:MM:SS and denotes a date and a time that exist, the
    construction succeeds and the transaction holds that date and time; a
    failure on sold_at therefore means that [s] is not in that format.
    Strings in other formats are not all rejected. *)
Theorem CashBackTransaction_accepts_exact_format cats s dt c t ps :
  exact_format s = Some dt ->
  is_instance "Customer" c = true ->
  forallb (is_instance "Product") ps = true ->
  CashBackTransaction cats
    (transaction_data (VStr s) c (VFloat t) (VList ps)) =
  Return (VModel "CashBackTransaction"
            (transaction_data (VDatetime dt) c (VFloat t) (VList ps))).
Proof.
  intros Hs Hc Hps.
  destruct c; try discriminate Hc. cbn [is_instance] in Hc.
  unfold CashBackTransaction, BaseModel_init, CashBackTransaction_fields,
    transaction_data.
  cbn [validate_model name required required_field dict_get String.eqb
       Ascii.eqb Bool.eqb].
  cbn [field_validate allow_none field_shape validators post_validators
       apply_validators plain required_field].
  unfold plain. rewrite (parse_datetime_exact _ _ Hs).
  cbn [apply_validators app model_validator]. rewrite Hc.
  cbn [apply_validators app plain float_validator validate_sequence_like].
  rewrite validate_instances by assumption.
  reflexivity.
Qed.

Lemma CashBackTransaction_accepts_exact_format_witness :
  exact_format "2023-01-15 10:30:00" =
    Some (mkdatetime 2023 1 15 10 30 0 0 None) /\
  is_instance "Customer" ana = true /\
  forallb (is_instance "Product") [tv] = true /\
  CashBackTransaction known
    (transaction_data (VStr "2023-01-15 10:30:00") ana
       (VFloat ten_and_a_half) (VList [tv])) =
  Return (VModel "CashBackTransaction"
            (transaction_data
               (VDatetime (mkdatetime 2023 1 15 10 30 0 0 None)) ana
               (VFloat ten_and_a_half) (VList [tv]))).
Proof.
  split; [reflexivity|]. split; [reflexivity|]. split; [reflexivity|].
  apply (CashBackTransaction_accepts_exact_format known
           "2023-01-15 10:30:00" (mkdatetime 2023 1 15 10 30 0 0 None)
           ana ten_and_a_half [tv]); reflexivity.
Defined.

(** ** JWTPayload *)

(** The payloads the constructor gives. *)
Lemma JWTPayload_constructs sub :
  JWTPayload [("sub", VStr sub)] = Return (payload sub None).
Proof. reflexivity. Qed.

Lemma JWTPayload_constructs_with_exp sub d :
  JWTPayload [("sub", VStr sub); ("exp", VDatetime d)] =
  Return (payload sub (Some d)).
Proof. reflexivity. Qed.

(** C1: the code on every payload, whatever the clock reads and whatever the
    lifetime, given or left to its default.  The body reads [self.datetime];
    a payload holds [sub] and [exp] and its class defines no [datetime], so
    the call raises [AttributeError] and the payload is as it was: [exp] is
    not set to the current time plus the lifetime. *)
Theorem update_exp_date_raises now sub exp lifetime :
  update_exp_date now (payload sub exp) lifetime =
  (Raise (AttributeError "'JWTPayload' object has no attribute 'datetime'"),
   payload sub exp).
Proof. reflexivity. Qed.

(** * Further properties of the models *)

Import Accounts Contracts.

(** ** What every constructor does *)

Lemma apply_validators_escaped vs : forall v values loc e,
  apply_validators vs v values loc = Escaped e -> uncaught e.
Proof.
  induction vs as [|f vs IH]; intros v values loc e; cbn; [discriminate|].
  destruct (f v values) as [v'|e']; [apply IH|].
  destruct (caught e') eqn:Hc; [discriminate|].
  intros [= <-]. exact Hc.
Qed.

Lemma validate_items_raise vs items : forall i values loc e,
  validate_items vs items i values loc = Raise e -> uncaught e.
Proof.
  induction items as [|v items IH]; intros i values loc e; cbn; [discriminate|].
  set (r := match v with VNone => none_not_allowed _ | _ => _ end).
  assert (Hr : forall e', r = Escaped e' -> uncaught e').
  { subst r. destruct v; try apply apply_validators_escaped.
    unfold none_not_allowed. discriminate. }
  destruct r as [v'|errs|e'].
  - destruct (validate_items vs items (S i) values loc) eqn:Hrest; cbn;
      [discriminate|]. intros [= <-]. eapply IH, Hrest.
  - destruct (validate_items vs items (S i) values loc) eqn:Hrest; cbn;
      [discriminate|]. intros [= <-]. eapply IH, Hrest.
  - intros [= <-]. apply Hr. reflexivity.
Qed.

Lemma validate_sequence_like_escaped vs v values loc e :
  validate_sequence_like vs v values loc = Escaped e -> uncaught e.
Proof.
  unfold validate_sequence_like. destruct v; try discriminate.
  destruct (validate_items _ _ _ _ _) as [[res [|? ?]]|e'] eqn:H;
    try discriminate.
  intros [= <-]. eapply validate_items_raise, H.
Qed.

Lemma field_validate_escaped f v values loc e :
  field_validate f v values loc = Escaped e -> uncaught e.
Proof.
  unfold field_validate.
  set (r := match field_shape f with
            | SHAPE_SINGLETON => apply_validators (validators f) v values loc
            | SHAPE_LIST => validate_sequence_like (validators f) v values loc
            end).
  assert (Hr : forall e', r = Escaped e' -> uncaught e').
  { subst r. destruct (field_shape f);
      [apply apply_validators_escaped | apply validate_sequence_like_escaped]. }
  assert (Hpost : match r with
                  | Valid v' => apply_validators (post_validators f) v' values loc
                  | _ => r
                  end = Escaped e -> uncaught e).
  { destruct r as [v'| |e'].
    - apply apply_validators_escaped.
    - discriminate.
    - intros [= <-]. apply Hr. reflexivity. }
  destruct v; try exact Hpost.
  destruct (allow_none f);
    [apply apply_validators_escaped | unfold none_not_allowed; discriminate].
Qed.

(** The constructor raises nothing of its own: what leaves
    [validate_model] is an exception of a validator that is not caught. *)
Lemma validate_model_raise fields data : forall values errors e,
  validate_model fields data values errors = Raise e -> uncaught e.
Proof.
  induction fields as [|f fields IH]; intros values errors e; cbn;
    [discriminate|].
  destruct (dict_get data (name f)) as [v|].
  - destruct (field_validate f v values [LField (name f)]) eqn:Hf;
      try apply IH.
    intros [= <-]. eapply field_validate_escaped, Hf.
  - destruct (required f); apply IH.
Qed.

(** The errors only grow. *)
Lemma validate_model_errors fields data : forall values errors values' errors',
  validate_model fields data values errors = Return (values', errors') ->
  exists more, errors' = (errors ++ more)%list.
Proof.
  induction fields as [|f fields IH]; intros values errors values' errors'; cbn.
  - intros [= <- <-]. exists []. symmetry. apply app_nil_r.
  - destruct (dict_get data (name f)) as [v|].
    + destruct (field_validate f v values [LField (name f)]).
      * apply IH.
      * intros H. apply IH in H as [more ->].
        rewrite <- app_assoc. eauto.
      * discriminate.
    + destruct (required f).
      * intros H. apply IH in H as [more ->].
        rewrite <- app_assoc. eauto.
      * apply IH.
Qed.

Lemma BaseModel_init_outcome cls fields data :
  match BaseModel_init cls fields data with
  | Return p => exists values, p = VModel cls values
  | Raise (ValidationError errs) => errs <> []
  | Raise e => uncaught e
  end.
Proof.
  unfold BaseModel_init.
  destruct (validate_model fields data [] []) as [[values errs]|e] eqn:H; cbn.
  - destruct errs; [eauto | discriminate].
  - apply validate_model_raise in H. destruct e; try exact H. discriminate H.
Qed.

Lemma error_lines_nonempty loc e :
  e <> ValidationError [] -> error_lines loc e <> [].
Proof. destruct e as [| | | | |[|l ls]]; cbn; congruence. Qed.

Lemma apply_validators_lines vs : forall v values loc,
  Forall raises_lines vs -> apply_validators vs v values loc <> Invalid [].
Proof.
  induction vs as [|g vs IH]; intros v values loc H; cbn; [discriminate|].
  inversion H as [|? ? Hg Hvs]; subst.
  destruct (g v values) as [v'|e] eqn:He; [apply IH, Hvs|].
  destruct (caught e); [|discriminate].
  intros [= Hnil]. revert Hnil. apply error_lines_nonempty.
  intros ->. apply (Hg v values He).
Qed.

Lemma validate_sequence_like_lines vs v values loc :
  validate_sequence_like vs v values loc <> Invalid [].
Proof.
  unfold validate_sequence_like. destruct v; try discriminate.
  destruct (validate_items _ _ _ _ _) as [[res [|? ?]]|e]; discriminate.
Qed.

Lemma never_silent_field f :
  Forall raises_lines (validators f) ->
  Forall raises_lines (post_validators f) ->
  never_silent f.
Proof.
  intros Hv Hp v values loc. unfold field_validate.
  set (r := match field_shape f with
            | SHAPE_SINGLETON => apply_validators (validators f) v values loc
            | SHAPE_LIST => validate_sequence_like (validators f) v values loc
            end).
  assert (Hr : r <> Invalid []).
  { subst r. destruct (field_shape f);
      [apply apply_validators_lines, Hv | apply validate_sequence_like_lines]. }
  assert (Hpost : match r with
                  | Valid v' => apply_validators (post_validators f) v' values loc
                  | _ => r
                  end <> Invalid []).
  { destruct r; [apply apply_validators_lines, Hp | exact Hr | discriminate]. }
  destruct v; try exact Hpost.
  destruct (allow_none f);
    [apply apply_validators_lines, Hp | unfold none_not_allowed; discriminate].
Qed.

Lemma validate_model_nonempty fields data : forall values errors values' errors',
  validate_model fields data values errors = Return (values', errors') ->
  errors <> [] -> errors' <> [].
Proof.
  intros values errors values' errors' H Hne.
  apply validate_model_errors in H as [more ->].
  destruct errors; [contradiction | discriminate].
Qed.

(** A constructor returns exactly when every field gives a value. *)
Lemma validate_model_returns fields data : forall values values',
  Forall never_silent fields ->
  validate_model fields data values [] = Return (values', []) <->
  exists xs, fields_accept data values fields xs /\
             values' = (values ++ combine (names fields) xs)%list.
Proof.
  induction fields as [|f fields IH]; intros values values' Hs.
  - cbn. split.
    + intros [= <-]. exists []. rewrite app_nil_r. auto.
    + intros ([|? ?] & H & ->); [|contradiction].
      rewrite app_nil_r. reflexivity.
  - inversion Hs as [|? ? Hf Hfs]; subst.
    cbn [validate_model names map].
    split.
    + destruct (dict_get data (name f)) as [v|] eqn:Hget.
      * destruct (field_validate f v values [LField (name f)]) as [x|errs|e]
          eqn:Hv.
        -- intros H. apply IH in H as (xs & Hxs & ->); [|assumption].
           exists (x :: xs). cbn [fields_accept combine]. unfold field_accepts.
           rewrite Hget, <- app_assoc. auto.
        -- intros H. exfalso.
           destruct errs as [|l errs]; [exact (Hf v values _ Hv)|].
           eapply validate_model_nonempty in H; [apply H; reflexivity|].
           discriminate.
        -- discriminate.
      * destruct (required f) eqn:Hreq.
        -- intros H. exfalso.
           eapply validate_model_nonempty in H; [apply H; reflexivity|].
           discriminate.
        -- intros H. apply IH in H as (xs & Hxs & ->); [|assumption].
           exists (default f :: xs). cbn [fields_accept combine].
           unfold field_accepts. rewrite Hget, <- app_assoc. auto.
    + intros ([|x xs] & Hxs & ->); [contradiction|].
      cbn [fields_accept combine] in *. destruct Hxs as [Hx Hxs].
      unfold field_accepts in Hx.
      destruct (dict_get data (name f)) as [v|].
      * rewrite Hx. apply IH; [assumption|].
        exists xs. rewrite <- app_assoc. auto.
      * destruct Hx as [-> ->]. apply IH; [assumption|].
        exists xs. rewrite <- app_assoc. auto.
Qed.

Lemma BaseModel_init_returns cls fields data p :
  Forall never_silent fields ->
  BaseModel_init cls fields data = Return p <->
  exists xs, fields_accept data [] fields xs /\
             p = VModel cls (combine (names fields) xs).
Proof.
  intros Hs. unfold BaseModel_init. split.
  - destruct (validate_model fields data [] []) as [[values errs]|e] eqn:H;
      cbn; [|discriminate].
    destruct errs; [|discriminate]. intros [= <-].
    apply validate_model_returns in H as (xs & Hxs & ->); eauto.
  - intros (xs & Hxs & ->).
    assert (H : validate_model fields data [] [] =
                Return (combine (names fields) xs, [])).
    { apply validate_model_returns; eauto. }
    rewrite H. reflexivity.
Qed.

(** ** The validators of the fields *)

Lemma str_validator_result v x :
  str_validator v = Return x -> exists s, x = VStr s.
Proof. destruct v; cbn; intros [= <-] || discriminate; eauto. Qed.

Lemma int_validator_result v x :
  int_validator v = Return x <-> exists n, x = VInt n /\ py_int v = Return n.
Proof.
  split.
  - destruct v; cbn;
      try (intros [= <-]; eauto);
      try discriminate.
    + destruct (int_of_float x0) as [n|[]]; cbn; try discriminate.
      intros [= <-]; eauto.
    + destruct (int_of_str s); cbn; [intros [= <-]; eauto | discriminate].
  - intros (n & -> & H). destruct v; cbn in *; try discriminate;
      try (injection H as <-; reflexivity); rewrite H; reflexivity.
Qed.

Lemma float_validator_result v x :
  float_validator v = Return x -> exists y, x = VFloat y.
Proof.
  destruct v; cbn; try discriminate; try (intros [= <-]; eauto).
  - destruct (float_of_int _) as [y|[]]; cbn; try discriminate.
    intros [= <-]; eauto.
  - destruct (float_of_int n) as [y|[]]; cbn; try discriminate.
    intros [= <-]; eauto.
  - destruct (float_of_str s); cbn; [intros [= <-]; eauto | discriminate].
Qed.

Lemma bool_validator_result v x :
  bool_validator v = Return x -> exists b, x = VBool b.
Proof.
  destruct v; cbn -[BOOL_TRUE BOOL_FALSE]; try discriminate.
  - intros [= <-]; eauto.
  - destruct (n =? 1); [intros [= <-]; eauto|].
    destruct (n =? 0); [intros [= <-]; eauto | discriminate].
  - destruct (compare_float_int x0 1) as [[]|], (compare_float_int x0 0) as [[]|];
      try discriminate; intros [= <-]; eauto.
  - destruct (existsb _ BOOL_TRUE); [intros [= <-]; eauto|].
    destruct (existsb _ BOOL_FALSE); [intros [= <-]; eauto | discriminate].
Qed.

Lemma int_of_float_raises x e :
  int_of_float x = Raise e -> forall l, e <> ValidationError l.
Proof. destruct x; cbn; intros [= <-]; discriminate. Qed.

Lemma timedelta_of_seconds_raises n e :
  timedelta_of_seconds n = Raise e -> forall l, e <> ValidationError l.
Proof.
  destruct n as [n|x]; cbn [timedelta_of_seconds]; [discriminate|].
  unfold timedelta_of_float.
  destruct (int_of_float x) as [w|e'] eqn:Hw; cbn [bind].
  - destruct (float_is_zero _); [discriminate|].
    destruct (SFmul prec emax _ _); discriminate.
  - intros [= <-]. eapply int_of_float_raises, Hw.
Qed.

Lemma from_unix_seconds_raises n e :
  from_unix_seconds n = Raise e -> forall l, e <> ValidationError l.
Proof.
  unfold from_unix_seconds.
  destruct (number_gt n MAX_NUMBER); [discriminate|].
  destruct (number_lt n (- MAX_NUMBER)); [discriminate|].
  destruct (timedelta_of_seconds _) as [td|e'] eqn:Htd; cbn [bind].
  - unfold datetime_add.
    destruct (between _ _ _); cbn [bind].
    + destruct (ord2ymd _) as [[y m] d]. cbn [bind]. discriminate.
    + intros [= <-]. discriminate.
  - intros [= <-]. eapply timedelta_of_seconds_raises, Htd.
Qed.

Lemma datetime_new_raises y mo d h mi s us tz e :
  datetime_new y mo d h mi s us tz = Raise e -> exists msg, e = ValueError msg.
Proof.
  unfold datetime_new.
  repeat match goal with
         | |- (if ?b then _ else _) = _ -> _ =>
             destruct b; [intros [= <-]; eauto|]
         end.
  discriminate.
Qed.

Lemma parse_datetime_outcome v :
  match parse_datetime v with
  | Return x => exists d, x = VDatetime d
  | Raise e => forall l, e <> ValidationError l
  end.
Proof.
  unfold parse_datetime.
  assert (Hnum : forall n,
    match (d <- from_unix_seconds n ;; Return (VDatetime d))%py with
    | Return x => exists d, x = VDatetime d
    | Raise e => forall l, e <> ValidationError l
    end).
  { intros n. destruct (from_unix_seconds n) as [d|e] eqn:H; cbn; eauto.
    eapply from_unix_seconds_raises, H. }
  destruct v; cbn [get_numeric bind]; try apply Hnum; eauto; try discriminate.
  destruct (float_of_str s) as [x|]; cbn [option_map]; [apply Hnum|].
  destruct (datetime_re_match s) as [kw|]; [|discriminate].
  unfold parse_timezone.
  destruct (g_tzinfo kw) as [tz|]; cbn [bind].
  - destruct (String.eqb tz "Z"); cbn [bind].
    + destruct (datetime_new _ _ _ _ _ _ _ _) as [d|e] eqn:H; eauto.
      apply datetime_new_raises in H as [msg ->]. discriminate.
    + match goal with |- context [if ?b then Return _ else _] => destruct b end;
        cbn [bind]; [|discriminate].
      destruct (datetime_new _ _ _ _ _ _ _ _) as [d|e] eqn:H; eauto.
      apply datetime_new_raises in H as [msg ->]. discriminate.
  - destruct (datetime_new _ _ _ _ _ _ _ _) as [d|e] eqn:H; eauto.
    apply datetime_new_raises in H as [msg ->]. discriminate.
Qed.

Lemma plain_lines g :
  (forall v, g v <> Raise (ValidationError [])) -> raises_lines (plain g).
Proof. intros H v values. apply H. Qed.

Lemma str_validator_lines : raises_lines (plain str_validator).
Proof. apply plain_lines. destruct v; discriminate. Qed.

Lemma int_validator_lines : raises_lines (plain int_validator).
Proof.
  apply plain_lines. intros v H.
  assert (py_int v <> Raise (ValidationError [])) as Hp.
  { destruct v; cbn; try discriminate.
    - intros H'. eapply int_of_float_raises in H'. apply H'. reflexivity.
    - destruct (int_of_str s); discriminate. }
  destruct v; cbn in H; try discriminate H; cbn in Hp.
  - destruct (int_of_float x) as [n|[]]; cbn in H; try discriminate H.
    injection H as ->. apply Hp. reflexivity.
  - destruct (int_of_str s); discriminate H.
Qed.

Lemma float_validator_lines : raises_lines (plain float_validator).
Proof.
  apply plain_lines. intros v H.
  destruct v; cbn in H; try discriminate H.
  - unfold float_of_int in H.
    destruct (float_of_ratio _ _ _); discriminate H.
  - unfold float_of_int in H.
    destruct (float_of_ratio _ _ _); discriminate H.
  - destruct (float_of_str s); discriminate H.
Qed.

Lemma bool_validator_lines : raises_lines (plain bool_validator).
Proof.
  apply plain_lines. intros v H.
  destruct v; cbn -[BOOL_TRUE BOOL_FALSE] in H; try discriminate H.
  - destruct (n =? 1); [discriminate H|]. destruct (n =? 0); discriminate H.
  - destruct (compare_float_int x 1) as [[]|], (compare_float_int x 0) as [[]|];
      discriminate H.
  - destruct (existsb _ BOOL_TRUE); [discriminate H|].
    destruct (existsb _ BOOL_FALSE); discriminate H.
Qed.

Lemma parse_datetime_lines : raises_lines (plain parse_datetime).
Proof.
  apply plain_lines. intros v H.
  pose proof (parse_datetime_outcome v) as Ho. rewrite H in Ho.
  apply (Ho []). reflexivity.
Qed.

Lemma dict_of_items_raises items : forall acc strings e,
  dict_of_items items acc strings = Raise e -> exists msg, e = TypeError msg.
Proof.
  induction items as [|v items IH]; intros acc strings e; cbn.
  - destruct strings; [discriminate | intros [= <-]; eauto].
  - destruct (dict_item v) as [[[k x]|?]|]; [apply IH | apply IH |].
    intros [= <-]; eauto.
Qed.

Lemma model_validator_lines cls fs :
  raises_lines (model_validator cls (BaseModel_init cls fs)).
Proof.
  intros v values H.
  assert (Hinit : forall d, BaseModel_init cls fs d <> Raise (ValidationError [])).
  { intros d Hd. pose proof (BaseModel_init_outcome cls fs d) as Ho.
    rewrite Hd in Ho. apply Ho. reflexivity. }
  destruct v; cbn in H; try discriminate H.
  - destruct s; [apply (Hinit _ H) | discriminate H].
  - destruct (dict_of_items l [] true) as [d|e] eqn:Hd; cbn in H.
    + apply (Hinit _ H).
    + injection H as ->. apply dict_of_items_raises in Hd as [msg Hd].
      discriminate Hd.
  - apply (Hinit _ H).
  - destruct (String.eqb cls0 cls); [discriminate H | apply (Hinit _ H)].
Qed.

Lemma category_must_be_valid_lines cats :
  raises_lines (plain (category_must_be_valid cats)).
Proof.
  apply plain_lines. intros v H. destruct v; cbn in H; try discriminate H.
  destruct (negb (fullmatch RE_NAMES s)); [discriminate H|].
  destruct (negb (known_category cats s)); discriminate H.
Qed.

Lemma quantity_must_be_positive_lines :
  raises_lines (plain quantity_must_be_positive).
Proof.
  apply plain_lines. intros v H. unfold quantity_must_be_positive in H.
  destruct (py_lt_int v 0) as [[]|e] eqn:Hlt; cbn in H; try discriminate H.
  injection H as ->. destruct v; discriminate Hlt.
Qed.

Lemma value_must_be_positive_lines : raises_lines value_must_be_positive.
Proof.
  intros v values H. unfold value_must_be_positive in H.
  destruct (py_lt_int v 0) as [[]|e] eqn:Hlt; cbn in H; try discriminate H.
  - destruct (negb (py_eq_int v 0)); [|discriminate H].
    unfold getitem in H. destruct (dict_get values "quantity"); cbn in H.
    + destruct (py_eq_int p 0); discriminate H.
    + discriminate H.
  - injection H as ->. destruct v; discriminate Hlt.
Qed.

Lemma never_silent_Customer : Forall never_silent Customer_fields.
Proof.
  repeat constructor; apply never_silent_field; cbn;
    repeat constructor; auto using str_validator_lines, int_validator_lines.
Qed.

Lemma never_silent_Product cats : Forall never_silent (Product_fields cats).
Proof.
  repeat constructor; apply never_silent_field; cbn;
    repeat constructor;
    auto using str_validator_lines, int_validator_lines,
      category_must_be_valid_lines, quantity_must_be_positive_lines,
      value_must_be_positive_lines.
Qed.

Lemma never_silent_CashBackTransaction cats :
  Forall never_silent (CashBackTransaction_fields cats).
Proof.
  repeat constructor; apply never_silent_field; cbn;
    repeat constructor;
    auto using parse_datetime_lines, float_validator_lines.
  - apply model_validator_lines.
  - apply (model_validator_lines "Product" (Product_fields cats)).
Qed.

Lemma never_silent_JWTPayload : Forall never_silent JWTPayload_fields.
Proof.
  repeat constructor; apply never_silent_field; cbn;
    repeat constructor; auto using str_validator_lines, parse_datetime_lines.
Qed.

Lemma never_silent_User : Forall never_silent User_fields.
Proof.
  repeat constructor; apply never_silent_field; cbn;
    repeat constructor; auto using str_validator_lines, bool_validator_lines.
Qed.

(** A required field of one type validator. *)
Lemma required_plain_valid n g v values loc x :
  field_validate (required_field n SHAPE_SINGLETON [plain g] []) v values loc
    = Valid x <-> v <> VNone /\ g v = Return x.
Proof.
  unfold field_validate, required_field, plain;
    cbn [allow_none field_shape validators post_validators apply_validators].
  destruct v; unfold none_not_allowed;
    try (destruct (g _) as [y|e]; [|destruct (caught e)]);
    split; try discriminate; try (intros [H1 H2]; congruence);
    try (intros [= <-]; split; [discriminate | reflexivity]).
Qed.

(** An optional field of one type validator. *)
Lemma optional_plain_valid n g v values loc x :
  field_validate (optional_field n [plain g]) v values loc = Valid x <->
  (v = VNone /\ x = VNone) \/ (v <> VNone /\ g v = Return x).
Proof.
  unfold field_validate, optional_field, plain;
    cbn [allow_none field_shape validators post_validators apply_validators].
  destruct v;
    try (destruct (g _) as [y|e]; [|destruct (caught e)]);
    split; try discriminate;
    try (intros [[H1 H2]|[H1 H2]]; congruence);
    try (intros [= <-]; right; split; [discriminate | reflexivity]).
  all: intros [= <-]; left; auto.
Qed.

(** ** Customer *)

(** X1. A customer is constructed exactly when both fields are given, the name
    is or casts to a string and the number casts to an integer; it holds the
    string and the integer. *)
Theorem Customer_returns_iff data p :
  Customer data = Return p <->
  exists vn vc s n,
    dict_get data "customer_name" = Some vn /\
    dict_get data "customer_cpf" = Some vc /\
    str_validator vn = Return (VStr s) /\
    py_int vc = Return n /\
    p = VModel "Customer" (customer_data (VStr s) (VInt n)).
Proof.
  unfold Customer.
  rewrite (BaseModel_init_returns _ _ _ _ never_silent_Customer).
  unfold Customer_fields. split.
  - intros ([|x1 [|x2 [|? ?]]] & Hxs & ->); cbn in Hxs; try tauto.
    destruct Hxs as (H1 & H2 & _). unfold field_accepts in H1, H2.
    cbn [name required_field required] in H1, H2.
    destruct (dict_get data "customer_name") as [vn|]; [|destruct H1; discriminate].
    destruct (dict_get data "customer_cpf") as [vc|]; [|destruct H2; discriminate].
    apply required_plain_valid in H1 as [_ H1], H2 as [_ H2].
    destruct (str_validator_result _ _ H1) as [s ->].
    apply int_validator_result in H2 as (n & -> & H2).
    exists vn, vc, s, n. auto.
  - intros (vn & vc & s & n & Hn & Hc & Hs & Hi & ->).
    exists [VStr s; VInt n]. split; [|reflexivity].
    cbn. unfold field_accepts. cbn [name required_field]. rewrite Hn, Hc.
    repeat split.
    + apply required_plain_valid. split; [|assumption].
      intros ->. discriminate Hs.
    + apply required_plain_valid. split.
      * intros ->. discriminate Hi.
      * apply int_validator_result. eauto.
Qed.

(** ** Product, on any data *)

(** A field cast with [int] and checked by [post]: the check sees the
    integer. *)
Lemma int_field_cast nm post rv n values loc :
  py_int rv = Return n ->
  field_validate (required_field nm SHAPE_SINGLETON [plain int_validator] [post])
    rv values loc =
  field_validate (required_field nm SHAPE_SINGLETON [plain int_validator] [post])
    (VInt n) values loc.
Proof.
  intros H.
  assert (Hv : int_validator rv = Return (VInt n))
    by (apply int_validator_result; eauto).
  unfold field_validate, required_field, plain;
    cbn [allow_none field_shape validators post_validators apply_validators].
  destruct rv; try discriminate H; rewrite ?Hv; try reflexivity.
Qed.

Lemma int_field_fails nm post rv e values loc :
  py_int rv = Raise e ->
  if caught e
  then exists l, field_validate
         (required_field nm SHAPE_SINGLETON [plain int_validator] [post])
         rv values loc = Invalid [l]
  else field_validate
         (required_field nm SHAPE_SINGLETON [plain int_validator] [post])
         rv values loc = Escaped e.
Proof.
  intros H.
  unfold field_validate, required_field, plain;
    cbn [allow_none field_shape validators post_validators apply_validators].
  destruct rv; try discriminate H; cbn in H;
    try (injection H as <-; cbn; unfold none_not_allowed; eauto).
  - destruct x; cbn in H; try discriminate H; injection H as <-; cbn; eauto.
  - cbn. destruct (int_of_str s); [discriminate H|].
    injection H as <-. cbn. eauto.
Qed.

Lemma category_valid cats c values loc x :
  field_validate (category_field cats) c values loc = Valid x ->
  exists s, x = VStr s /\ fullmatch RE_NAMES s = true /\
            known_category cats s = true.
Proof.
  unfold field_validate, category_field, required_field, plain;
    cbn [allow_none field_shape validators post_validators apply_validators].
  assert (H : forall s,
    match category_must_be_valid cats (VStr s) with
    | Return v' => Valid v'
    | Raise e => if caught e then Invalid (error_lines loc e) else Escaped e
    end = Valid x ->
    exists s, x = VStr s /\ fullmatch RE_NAMES s = true /\
              known_category cats s = true).
  { intros s. cbn.
    destruct (fullmatch RE_NAMES s) eqn:Hm; cbn; [|discriminate].
    destruct (known_category cats s) eqn:Hk; cbn; [|discriminate].
    intros [= <-]. eauto. }
  destruct c; cbn [str_validator]; try discriminate; try apply H.
Qed.

Lemma category_not_escaped cats c values loc e :
  field_validate (category_field cats) c values loc <> Escaped e.
Proof.
  intros H. pose proof (field_validate_escaped _ _ _ _ _ H) as Hu.
  revert H.
  unfold field_validate, category_field, required_field, plain;
    cbn [allow_none field_shape validators post_validators apply_validators].
  assert (Hs : forall s,
    match category_must_be_valid cats (VStr s) with
    | Return v' => Valid v'
    | Raise e => if caught e then Invalid (error_lines loc e) else Escaped e
    end <> Escaped e).
  { intros s. cbn.
    destruct (fullmatch RE_NAMES s); cbn; [|discriminate].
    destruct (known_category cats s); cbn; discriminate. }
  destruct c; cbn [str_validator]; try discriminate; try apply Hs.
Qed.

(** Validation of the quantity, whatever is given. *)
Lemma quantity_result rq values loc :
  match field_validate quantity_field rq values loc with
  | Valid x => exists q, x = VInt q /\ py_int rq = Return q /\ 0 <= q
  | Invalid errs =>
      errs <> [] /\
      ((exists q, py_int rq = Return q /\ q < 0) \/
       (exists e, py_int rq = Raise e /\ caught e = true))
  | Escaped e => py_int rq = Raise e /\ uncaught e
  end.
Proof.
  destruct (py_int rq) as [q|e] eqn:Hq.
  - unfold quantity_field. rewrite (int_field_cast _ _ _ _ _ _ Hq).
    fold quantity_field. rewrite quantity_check.
    destruct (Z.ltb_spec q 0).
    + split; [discriminate|]. left; eauto.
    + eauto.
  - pose proof (int_field_fails "quantity" (plain quantity_must_be_positive)
                  _ _ values loc Hq) as H.
    unfold quantity_field. destruct (caught e) eqn:Hc.
    + destruct H as [l ->]. split; [discriminate|]. right; eauto.
    + rewrite H. auto.
Qed.

(** Validation of the value, whatever is given. *)
Lemma value_result rv values loc :
  match field_validate value_field rv values loc with
  | Valid x =>
      exists v, x = VInt v /\ py_int rv = Return v /\ 0 <= v /\
        (v = 0 \/ exists q, dict_get values "quantity" = Some q /\
                            py_eq_int q 0 = false)
  | Invalid errs => errs <> []
  | Escaped e =>
      (py_int rv = Raise e /\ uncaught e) \/
      (e = KeyError "quantity" /\ dict_get values "quantity" = None /\
       exists v, py_int rv = Return v /\ 0 < v)
  end.
Proof.
  destruct (py_int rv) as [v|e] eqn:Hv.
  - unfold value_field. rewrite (int_field_cast _ _ _ _ _ _ Hv).
    fold value_field. rewrite value_check.
    destruct (Z.ltb_spec v 0); [discriminate|].
    destruct (Z.eqb_spec v 0).
    + exists v. repeat split; auto.
    + destruct (dict_get values "quantity") as [q|] eqn:Hq.
      * destruct (py_eq_int q 0) eqn:Hz; [discriminate|].
        exists v. repeat split; eauto.
      * right. repeat split; auto. exists v. split; [reflexivity | lia].
  - pose proof (int_field_fails "value" value_must_be_positive
                  _ _ values loc Hv) as H.
    destruct (caught e) eqn:Hc.
    + destruct H as [l Hl].
      change (field_validate value_field rv values loc = Invalid [l]) in Hl.
      rewrite Hl. discriminate.
    + change (field_validate value_field rv values loc = Escaped e) in H.
      rewrite H. left. auto.
Qed.

(** The constructor on any data, one field after the other. *)
Lemma Product_run cats data :
  Product cats data =
  match
    match dict_get data "category" with
    | None => Return ([], [([LField "category"], "field required")])
    | Some c =>
        match field_validate (category_field cats) c [] [LField "category"] with
        | Valid x => Return ([("category", x)], [])
        | Invalid errs => Return ([], errs)
        | Escaped e => Raise e
        end
    end
  with
  | Raise e => Raise e
  | Return (values1, errs1) =>
    match
      match dict_get data "quantity" with
      | None => Return (values1,
                        (errs1 ++ [([LField "quantity"], "field required")])%list)
      | Some q =>
          match field_validate quantity_field q values1 [LField "quantity"] with
          | Valid x => Return ((values1 ++ [("quantity", x)])%list, errs1)
          | Invalid errs => Return (values1, (errs1 ++ errs)%list)
          | Escaped e => Raise e
          end
      end
    with
    | Raise e => Raise e
    | Return (values2, errs2) =>
      match
        match dict_get data "value" with
        | None => Return (values2,
                          (errs2 ++ [([LField "value"], "field required")])%list)
        | Some v =>
            match field_validate value_field v values2 [LField "value"] with
            | Valid x => Return ((values2 ++ [("value", x)])%list, errs2)
            | Invalid errs => Return (values2, (errs2 ++ errs)%list)
            | Escaped e => Raise e
            end
        end
      with
      | Raise e => Raise e
      | Return (values3, []) => Return (VModel "Product" values3)
      | Return (_, errs) => Raise (ValidationError errs)
      end
    end
  end.
Proof.
  unfold Product, BaseModel_init, Product_fields.
  cbn [validate_model name category_field quantity_field value_field
       required_field required app].
  destruct (dict_get data "category") as [rc|];
    [destruct (field_validate _ rc [] _) as [xc|ec|]|]; try reflexivity;
  (destruct (dict_get data "quantity") as [rq|];
    [destruct (field_validate quantity_field rq _ _) as [xq|eq|]|];
    try reflexivity;
   (destruct (dict_get data "value") as [rv|];
    [destruct (field_validate value_field rv _ _) as [xv|ev|]|];
    cbn; rewrite ?app_nil_r; try reflexivity;
    match goal with
    | |- context [match ?l with [] => _ | _ :: _ => _ end] =>
        destruct l; reflexivity
    end)).
Qed.

Lemma py_int_raises v e :
  py_int v = Raise e ->
  exists msg, e = TypeError msg \/ e = ValueError msg \/ e = OverflowError msg.
Proof.
  destruct v; cbn; try discriminate; try (intros [= <-]; eauto).
  - destruct x; cbn; try discriminate; intros [= <-]; eauto.
  - destruct (int_of_str s); [discriminate | intros [= <-]; eauto].
Qed.

Lemma py_int_escapes v e :
  py_int v = Raise e -> uncaught e -> exists msg, e = OverflowError msg.
Proof.
  intros H Hu. apply py_int_raises in H as (msg & [-> | [-> | ->]]);
    try discriminate Hu. eauto.
Qed.

(** What the three fields of a product that is constructed went through. *)
Lemma Product_returns cats data p :
  Product cats data = Return p ->
  exists s q v,
    p = VModel "Product" (product_data (VStr s) (VInt q) (VInt v)) /\
    fullmatch RE_NAMES s = true /\ known_category cats s = true /\
    0 <= q /\ 0 <= v /\ (v = 0 \/ 0 < q).
Proof.
  unfold Product.
  rewrite (BaseModel_init_returns _ _ _ _ (never_silent_Product cats)).
  intros ([|x1 [|x2 [|x3 [|? ?]]]] & Hxs & ->); cbn in Hxs; try tauto.
  destruct Hxs as (H1 & H2 & H3 & _). unfold field_accepts in H1, H2, H3.
  cbn [name category_field quantity_field value_field required_field required]
    in H1, H2, H3.
  destruct (dict_get data "category") as [rc|]; [|destruct H1; discriminate].
  destruct (dict_get data "quantity") as [rq|]; [|destruct H2; discriminate].
  destruct (dict_get data "value") as [rv|]; [|destruct H3; discriminate].
  apply category_valid in H1 as (s & -> & Hm & Hk).
  pose proof (quantity_result rq [("category", VStr s)] [LField "quantity"])
    as Hq.
  change (field_validate quantity_field rq [("category", VStr s)]
            [LField "quantity"] = Valid x2) in H2.
  rewrite H2 in Hq. destruct Hq as (q & -> & Hq & Hq0).
  pose proof (value_result rv
                [("category", VStr s); ("quantity", VInt q)] [LField "value"])
    as Hv.
  change (field_validate value_field rv
            [("category", VStr s); ("quantity", VInt q)] [LField "value"]
          = Valid x3) in H3.
  rewrite H3 in Hv. destruct Hv as (v & -> & Hv & Hv0 & Hvq).
  exists s, q, v. repeat split; auto.
  destruct Hvq as [->|(qv & Hget & Hz)]; [left; reflexivity|].
  vm_compute in Hget. injection Hget as Hget. subst qv. cbn in Hz.
  apply Z.eqb_neq in Hz. right. lia.
Qed.

Lemma quantity_in_values x (values : dict) :
  dict_get (values ++ [("quantity", x)])%list "quantity" <> None.
Proof.
  induction values as [|[k y] values IH]; cbn [app dict_get].
  - rewrite String.eqb_refl. discriminate.
  - destruct (String.eqb "quantity" k); [discriminate | exact IH].
Qed.

(** The values before the quantity do not hold one. *)
Lemma before_quantity cats data values errs :
  match dict_get data "category" with
  | None => Return ([], [([LField "category"], "field required")])
  | Some c =>
      match field_validate (category_field cats) c [] [LField "category"] with
      | Valid x => Return ([("category", x)], [])
      | Invalid errs => Return ([], errs)
      | Escaped e => Raise e
      end
  end = Return (values, errs) ->
  dict_get values "quantity" = None.
Proof.
  destruct (dict_get data "category") as [c|].
  - destruct (field_validate _ c [] _); intros [= <- <-]; reflexivity.
  - intros [= <- <-]. reflexivity.
Qed.

Lemma category_step_returns cats data :
  exists values errs,
  match dict_get data "category" with
  | None => Return ([], [([LField "category"], "field required")])
  | Some c =>
      match field_validate (category_field cats) c [] [LField "category"] with
      | Valid x => Return ([("category", x)], [])
      | Invalid errs => Return ([], errs)
      | Escaped e => Raise e
      end
  end = Return (values, errs).
Proof.
  destruct (dict_get data "category") as [c|]; [|eauto].
  destruct (field_validate _ c [] _) eqn:H; eauto.
  exfalso. eapply category_not_escaped, H.
Qed.

Ltac final_errors :=
  match goal with
  | |- context [match ?l with [] => _ | _ :: _ => _ end] =>
      destruct l; discriminate
  end.

(** X2. The [KeyError] of the value validator leaves the constructor exactly
    when the value is above zero and the quantity is missing or rejected. *)
Theorem Product_KeyError_iff cats data :
  Product cats data = Raise (KeyError "quantity") <->
  value_positive data /\ ~ quantity_accepted data /\ ~ quantity_escapes data.
Proof.
  rewrite Product_run.
  destruct (category_step_returns cats data) as (values1 & errs1 & H1).
  rewrite H1. apply before_quantity in H1.
  unfold value_positive, quantity_accepted, quantity_escapes.
  destruct (dict_get data "quantity") as [rq|].
  - pose proof (quantity_result rq values1 [LField "quantity"]) as Hq.
    destruct (field_validate quantity_field rq values1 _) as [xq|eq|e].
    + (* the quantity is accepted *)
      destruct Hq as (q & -> & Hq & Hq0). split.
      * destruct (dict_get data "value") as [rv|]; [|final_errors].
        pose proof (value_result rv (values1 ++ [("quantity", VInt q)])%list
                      [LField "value"]) as Hv.
        destruct (field_validate value_field rv _ _) as [xv|ev|e].
        -- final_errors.
        -- final_errors.
        -- intros [= ->]. exfalso.
           destruct Hv as [[Hv Hu]|(_ & Hnone & _)].
           ++ apply py_int_escapes in Hv as [msg Hv]; [discriminate | exact Hu].
           ++ eapply quantity_in_values, Hnone.
      * intros (_ & Hna & _). exfalso. apply Hna. eauto.
    + (* the quantity is rejected *)
      destruct Hq as [_ Hq].
      assert (Hna : ~ (exists rq0 q,
                 Some rq = Some rq0 /\ py_int rq0 = Return q /\ 0 <= q)).
      { intros (rq0 & q & [= <-] & Hq1 & Hq2).
        destruct Hq as [(q' & Hq' & Hneg)|(e & He & _)]; congruence || idtac.
        rewrite Hq1 in Hq'. injection Hq' as <-. lia. }
      assert (Hne : ~ (exists rq0 e,
                 Some rq = Some rq0 /\ py_int rq0 = Raise e /\ uncaught e)).
      { intros (rq0 & e & [= <-] & He & Hu).
        destruct Hq as [(q' & Hq' & _)|(e' & He' & Hc)]; [congruence|].
        rewrite He in He'. injection He' as <-. unfold uncaught in Hu.
        congruence. }
      destruct (dict_get data "value") as [rv|].
      * destruct (py_int rv) as [v|e] eqn:Hv.
        -- unfold value_field. rewrite (int_field_cast _ _ _ _ _ _ Hv).
           fold value_field. rewrite value_check, H1.
           destruct (Z.ltb_spec v 0).
           ++ split.
              ** final_errors.
              ** intros ((rv0 & v0 & [= <-] & Hv0 & Hpos) & _).
                 rewrite Hv in Hv0. injection Hv0 as <-. lia.
           ++ destruct (Z.eqb_spec v 0).
              ** split.
                 --- final_errors.
                 --- intros ((rv0 & v0 & [= <-] & Hv0 & Hpos) & _).
                     rewrite Hv in Hv0. injection Hv0 as <-. lia.
              ** split; [|reflexivity]. intros _.
                 repeat split; auto. exists rv, v. repeat split; auto. lia.
        -- pose proof (value_result rv values1 [LField "value"]) as Hr.
           destruct (field_validate value_field rv values1 _) as [xv|ev|e'].
           ++ destruct Hr as (v & _ & Hv' & _). congruence.
           ++ split.
              ** final_errors.
              ** intros ((rv0 & v0 & [= <-] & Hv0 & _) & _). congruence.
           ++ split.
              ** intros [= ->].
                 destruct Hr as [[Hr Hu]|(_ & _ & v & Hr & _)]; [|congruence].
                 apply py_int_escapes in Hr as [msg Hr];
                   [discriminate | exact Hu].
              ** intros ((rv0 & v0 & [= <-] & Hv0 & _) & _). congruence.
      * split.
        -- final_errors.
        -- intros ((rv0 & v0 & Hn & _) & _). discriminate Hn.
    + (* the cast of the quantity escapes *)
      destruct Hq as [Hq Hu]. split.
      * intros [= ->]. apply py_int_escapes in Hq as [msg Hq];
          [discriminate | exact Hu].
      * intros (_ & _ & Hne). exfalso. apply Hne. eauto.
  - (* the quantity is missing *)
    destruct (dict_get data "value") as [rv|].
    + destruct (py_int rv) as [v|e] eqn:Hv.
      * unfold value_field. rewrite (int_field_cast _ _ _ _ _ _ Hv).
        fold value_field. rewrite value_check, H1.
        destruct (Z.ltb_spec v 0).
        -- split.
           ++ final_errors.
           ++ intros ((rv0 & v0 & [= <-] & Hv0 & Hpos) & _).
              rewrite Hv in Hv0. injection Hv0 as <-. lia.
        -- destruct (Z.eqb_spec v 0).
           ++ split.
              ** final_errors.
              ** intros ((rv0 & v0 & [= <-] & Hv0 & Hpos) & _).
                 rewrite Hv in Hv0. injection Hv0 as <-. lia.
           ++ split; [|reflexivity]. intros _.
              repeat split.
              ** exists rv, v. repeat split; auto. lia.
              ** intros (rq0 & q & Hn & _). discriminate Hn.
              ** intros (rq0 & e & Hn & _). discriminate Hn.
      * pose proof (value_result rv values1 [LField "value"]) as Hr.
        destruct (field_validate value_field rv values1 _) as [xv|ev|e'].
        -- destruct Hr as (v & _ & Hv' & _). congruence.
        -- split.
           ++ final_errors.
           ++ intros ((rv0 & v0 & [= <-] & Hv0 & _) & _). congruence.
        -- split.
           ++ intros [= ->].
              destruct Hr as [[Hr Hu]|(_ & _ & v & Hr & _)]; [|congruence].
              apply py_int_escapes in Hr as [msg Hr];
                [discriminate | exact Hu].
           ++ intros ((rv0 & v0 & [= <-] & Hv0 & _) & _). congruence.
    + split.
      * final_errors.
      * intros ((rv0 & v0 & Hn & _) & _). discriminate Hn.
Qed.

Ltac final_raise Hu :=
  match goal with
  | |- context [match ?l with [] => _ | _ :: _ => _ end] =>
      destruct l; [discriminate |]; intros [= <-]; discriminate Hu
  end.

Lemma BaseModel_init_raises cls fields data e :
  BaseModel_init cls fields data = Raise e ->
  (exists lines, e = ValidationError lines /\ lines <> []) \/ uncaught e.
Proof.
  intros H. pose proof (BaseModel_init_outcome cls fields data) as Ho.
  rewrite H in Ho. destruct e; try (right; exact Ho); try discriminate Ho.
  left. eauto.
Qed.

(** What escapes the construction of a product. *)
Lemma Product_escapes cats data e :
  Product cats data = Raise e -> uncaught e -> escaping e.
Proof.
  intros H Hu. revert H. rewrite Product_run.
  destruct (category_step_returns cats data) as (values1 & errs1 & H1).
  rewrite H1.
  assert (Hvalue : forall rv values e',
             field_validate value_field rv values [LField "value"]
               = Escaped e' -> escaping e').
  { intros rv values e' He.
    pose proof (value_result rv values [LField "value"]) as Hr.
    rewrite He in Hr. destruct Hr as [[Hr Hu']|(-> & _)]; [|left; reflexivity].
    right. eapply py_int_escapes; eauto. }
  destruct (dict_get data "quantity") as [rq|].
  - pose proof (quantity_result rq values1 [LField "quantity"]) as Hq.
    destruct (field_validate quantity_field rq values1 _) as [xq|eq|eq].
    + destruct (dict_get data "value") as [rv|]; [|final_raise Hu].
      destruct (field_validate value_field rv _ _) as [xv|ev|ev] eqn:Hv;
        try final_raise Hu.
      intros [= <-]. eapply Hvalue, Hv.
    + destruct (dict_get data "value") as [rv|]; [|final_raise Hu].
      destruct (field_validate value_field rv _ _) as [xv|ev|ev] eqn:Hv;
        try final_raise Hu.
      intros [= <-]. eapply Hvalue, Hv.
    + intros [= <-]. right. destruct Hq as [Hq Hu'].
      eapply py_int_escapes; eauto.
  - destruct (dict_get data "value") as [rv|]; [|final_raise Hu].
    destruct (field_validate value_field rv _ _) as [xv|ev|ev] eqn:Hv;
      try final_raise Hu.
    intros [= <-]. eapply Hvalue, Hv.
Qed.

(** X3. What a construction of a product can raise: a [ValidationError] with a
    line, the [KeyError] of the value validator, or an [OverflowError] of a
    cast. *)
Theorem Product_exceptions cats data e :
  Product cats data = Raise e ->
  (exists errs, e = ValidationError errs /\ errs <> []) \/
  e = KeyError "quantity" \/
  (exists msg, e = OverflowError msg).
Proof.
  intros H. destruct (BaseModel_init_raises _ _ _ _ H) as [Hv|Hu];
    [left; exact Hv | right].
  exact (Product_escapes _ _ _ H Hu).
Qed.

(** ** The constructors read the declared fields only *)

Lemma validate_model_same fields data data' :
  same_on (names fields) data data' ->
  forall values errors,
    validate_model fields data values errors
    = validate_model fields data' values errors.
Proof.
  induction fields as [|f fields IH]; intros Hs values errors; [reflexivity|].
  cbn [validate_model].
  rewrite <- (Hs (name f)) by (left; reflexivity).
  assert (Hs' : same_on (names fields) data data').
  { intros k Hk. apply Hs. right. exact Hk. }
  destruct (dict_get data (name f)) as [v|].
  - destruct (field_validate f v values _); auto.
  - destruct (required f); auto.
Qed.

Lemma BaseModel_init_same cls fields data data' :
  same_on (names fields) data data' ->
  BaseModel_init cls fields data = BaseModel_init cls fields data'.
Proof.
  intros Hs. unfold BaseModel_init.
  rewrite (validate_model_same _ _ _ Hs). reflexivity.
Qed.

(** X4. Two sets of keyword arguments that give the same for the names of the
    fields of a class give the same construction: what is given under another
    name is not read. *)
Theorem constructors_read_declared_fields cats data data' :
  (same_on ["customer_name"; "customer_cpf"] data data' ->
   Customer data = Customer data') /\
  (same_on ["category"; "quantity"; "value"] data data' ->
   Product cats data = Product cats data') /\
  (same_on ["sold_at"; "customer"; "total"; "products"] data data' ->
   CashBackTransaction cats data = CashBackTransaction cats data') /\
  (same_on ["username"; "full_name"; "email"; "disabled"] data data' ->
   User data = User data') /\
  (same_on ["username"; "full_name"; "email"; "disabled"; "hashed_password"]
     data data' ->
   UserInDB data = UserInDB data') /\
  (same_on ["access_token"; "token_type"] data data' ->
   Token data = Token data') /\
  (same_on ["username"] data data' -> TokenOwner data = TokenOwner data') /\
  (same_on ["sub"; "exp"] data data' -> JWTPayload data = JWTPayload data').
Proof.
  repeat split; intros Hs; apply BaseModel_init_same; exact Hs.
Qed.

(** A user given under a misspelled name of a field. *)
Lemma constructors_read_declared_fields_witness :
  User [("username", VStr "ana"); ("emial", VStr "ana@example.com")]
  = User [("username", VStr "ana")].
Proof.
  refine (proj1 (proj2 (proj2 (proj2
    (constructors_read_declared_fields [] _ _)))) _).
  intros k [<-|[<-|[<-|[<-|[]]]]]; reflexivity.
Defined.

(** ** A field that cannot be validated stops the construction *)

Lemma validate_model_escape fields data f v :
  In f fields -> dict_get data (name f) = Some v ->
  (forall values, exists e,
      field_validate f v values [LField (name f)] = Escaped e) ->
  forall values errors, exists e,
    validate_model fields data values errors = Raise e /\ uncaught e.
Proof.
  intros Hin Hget Hesc.
  assert (Hany : forall values errors, exists e,
             validate_model fields data values errors = Raise e).
  { induction fields as [|g fields IH]; [destruct Hin|].
    intros values errors. cbn [validate_model].
    destruct Hin as [->|Hin].
    - rewrite Hget. destruct (Hesc values) as [e ->]. eauto.
    - destruct (dict_get data (name g)) as [w|].
      + destruct (field_validate g w values _); eauto.
      + destruct (required g); eauto. }
  intros values errors. destruct (Hany values errors) as [e He].
  exists e. split; [exact He|]. eapply validate_model_raise, He.
Qed.

Lemma validate_model_rejects fields data f v (wanted : list error_line) :
  In f fields -> dict_get data (name f) = Some v ->
  (forall values,
      match field_validate f v values [LField (name f)] with
      | Valid _ => False
      | Invalid lines => incl wanted lines
      | Escaped _ => True
      end) ->
  forall values errors,
    match validate_model fields data values errors with
    | Return (_, errors') => incl wanted errors'
    | Raise e => uncaught e
    end.
Proof.
  intros Hin Hget Hrej values errors.
  destruct (validate_model fields data values errors) as [[values' errors']|e]
    eqn:Hrun; [|eapply validate_model_raise, Hrun].
  revert values errors Hrun.
  induction fields as [|g fields IH]; [destruct Hin|].
  intros values errors. cbn [validate_model].
  destruct Hin as [->|Hin].
  - rewrite Hget. specialize (Hrej values).
    destruct (field_validate f v values _) as [x|lines|e];
      [destruct Hrej | | discriminate].
    intros Hrun. apply validate_model_errors in Hrun as [more ->].
    intros l Hl. apply in_or_app. left. apply in_or_app. right.
    apply Hrej, Hl.
  - destruct (dict_get data (name g)) as [w|].
    + destruct (field_validate g w values _); try discriminate; eauto.
    + destruct (required g); eauto.
Qed.

(** ** The items of a list field *)

Lemma validate_items_escape vs values loc e : forall items i i0 v,
  nth_error items i = Some v -> v <> VNone ->
  apply_validators vs v values (loc ++ [LIndex (i0 + i)])%list = Escaped e ->
  exists e', validate_items vs items i0 values loc = Raise e'.
Proof.
  induction items as [|w items IH]; intros i i0 v Hnth Hv He.
  - destruct i; discriminate.
  - cbn [validate_items]. destruct i as [|i].
    + injection Hnth as ->. rewrite Nat.add_0_r in He.
      destruct v; try (rewrite He; eauto). congruence.
    + cbn [nth_error] in Hnth.
      rewrite <- Nat.add_succ_comm in He.
      destruct (IH i (S i0) v Hnth Hv He) as [e' Hrest].
      rewrite Hrest.
      destruct (match w with VNone => _ | _ => _ end); cbn; eauto.
Qed.

Lemma validate_items_rejects vs values loc lines : forall items i i0 v,
  nth_error items i = Some v -> v <> VNone ->
  apply_validators vs v values (loc ++ [LIndex (i0 + i)])%list
    = Invalid lines ->
  match validate_items vs items i0 values loc with
  | Return (_, errs) => incl lines errs
  | Raise _ => True
  end.
Proof.
  induction items as [|w items IH]; intros i i0 v Hnth Hv He.
  - destruct i; discriminate.
  - cbn [validate_items]. destruct i as [|i].
    + injection Hnth as ->. rewrite Nat.add_0_r in He.
      assert (Hr : match v with
                   | VNone => none_not_allowed (loc ++ [LIndex i0])
                   | _ => apply_validators vs v values (loc ++ [LIndex i0])
                   end = Invalid lines).
      { destruct v; auto. congruence. }
      rewrite Hr.
      destruct (validate_items vs items (S i0) values loc) as [[r errs]|];
        cbn; [|exact I].
      apply incl_appl, incl_refl.
    + cbn [nth_error] in Hnth.
      rewrite <- Nat.add_succ_comm in He.
      specialize (IH i (S i0) v Hnth Hv He).
      destruct (validate_items vs items (S i0) values loc) as [[r errs]|];
        destruct (match w with VNone => _ | _ => _ end); cbn; auto.
      apply incl_appr, IH.
Qed.

(** ** A product inside a transaction *)

(** X5. A product of the list whose construction raises an exception other
    than [ValidationError] makes the construction of the transaction raise one
    too, whatever the other fields and products are. *)
Theorem CashBackTransaction_product_escapes cats data items i d e :
  dict_get data "products" = Some (VList items) ->
  nth_error items i = Some (VDict d) ->
  Product cats d = Raise e -> uncaught e ->
  exists e', CashBackTransaction cats data = Raise e' /\ uncaught e'.
Proof.
  intros Hget Hnth Hp Hu.
  set (f := required_field "products" SHAPE_LIST
              [model_validator "Product" (Product cats)] []).
  destruct (validate_model_escape (CashBackTransaction_fields cats) data f
              (VList items)) with (values := @nil (string * pyval))
                                  (errors := @nil error_line)
    as (e' & He' & Hu').
  - cbn. auto.
  - exact Hget.
  - intros values.
    destruct (validate_items_escape
                [model_validator "Product" (Product cats)] values
                [LField "products"] e items i 0%nat (VDict d))
      as [e' He']; auto; [discriminate | |].
    + cbn [apply_validators model_validator]. rewrite Hp.
      unfold uncaught in Hu. rewrite Hu. reflexivity.
    + exists e'. cbn [field_validate f required_field field_shape validators
                       post_validators name validate_sequence_like].
      rewrite He'. reflexivity.
  - exists e'. split; [|exact Hu'].
    unfold CashBackTransaction, BaseModel_init. rewrite He'. reflexivity.
Qed.

(** X6. A product of the list that is rejected keeps the transaction from
    being constructed, and the error of the transaction has the lines of the
    product under [products] and its index. *)
Theorem CashBackTransaction_product_rejected cats data items i d errs :
  dict_get data "products" = Some (VList items) ->
  nth_error items i = Some (VDict d) ->
  Product cats d = Raise (ValidationError errs) ->
  (exists e, CashBackTransaction cats data = Raise e /\ uncaught e) \/
  (exists lines,
      CashBackTransaction cats data = Raise (ValidationError lines) /\
      forall l, In l errs -> In (under_product i l) lines).
Proof.
  intros Hget Hnth Hp.
  set (f := required_field "products" SHAPE_LIST
              [model_validator "Product" (Product cats)] []).
  assert (Hne : errs <> []).
  { pose proof (BaseModel_init_outcome "Product" (Product_fields cats) d) as H.
    fold (Product cats d) in H. rewrite Hp in H. exact H. }
  pose proof (validate_model_rejects (CashBackTransaction_fields cats) data f
                (VList items) (map (under_product i) errs)) as Hrun.
  specialize (Hrun (or_intror (or_intror (or_intror (or_introl eq_refl))))
                Hget).
  assert (Hfield : forall values,
             match field_validate f (VList items) values [LField (name f)] with
             | Valid _ => False
             | Invalid lines => incl (map (under_product i) errs) lines
             | Escaped _ => True
             end).
  { intros values.
    pose proof (validate_items_rejects
                  [model_validator "Product" (Product cats)] values
                  [LField "products"]
                  (map (under_product i) errs) items i 0%nat (VDict d) Hnth)
      as Hitems.
    cbn [field_validate f required_field field_shape validators
           post_validators name validate_sequence_like].
    destruct (validate_items _ items 0 values [LField "products"])
      as [[r lines]|e'].
    - assert (Hincl : incl (map (under_product i) errs) lines).
      { apply Hitems; [discriminate|].
        cbn [apply_validators model_validator]. rewrite Hp. reflexivity. }
      destruct lines as [|l lines]; [|exact Hincl].
      destruct errs as [|l0 errs]; [congruence|].
      apply (Hincl (under_product i l0)). left. reflexivity.
    - exact I. }
  specialize (Hrun Hfield [] []).
  unfold CashBackTransaction, BaseModel_init.
  destruct (validate_model (CashBackTransaction_fields cats) data [] [])
    as [[values lines]|e].
  - right. cbn [bind snd fst].
    destruct lines as [|l lines].
    + destruct errs as [|l0 errs]; [congruence|].
      destruct (Hrun (under_product i l0)). left. reflexivity.
    + eexists. split; [reflexivity|].
      intros l0 Hl0. apply Hrun, in_map, Hl0.
  - left. exists e. split; [reflexivity | exact Hrun].
Qed.

(** ** Fields whose type is a model *)

Lemma BaseModel_init_instance cls fields data x :
  BaseModel_init cls fields data = Return x -> is_instance cls x = true.
Proof.
  intros H. pose proof (BaseModel_init_outcome cls fields data) as Ho.
  rewrite H in Ho. destruct Ho as [values ->]. cbn. apply String.eqb_refl.
Qed.

Lemma model_validator_returns cls fs v values x :
  model_validator cls (BaseModel_init cls fs) v values = Return x ->
  is_instance cls x = true.
Proof.
  destruct v; cbn [model_validator]; try discriminate.
  - destruct s; [|discriminate]. apply BaseModel_init_instance.
  - destruct (dict_of_items l [] true); cbn [bind]; [|discriminate].
    apply BaseModel_init_instance.
  - apply BaseModel_init_instance.
  - destruct (String.eqb cls0 cls) eqn:E.
    + intros [= <-]. exact E.
    + apply BaseModel_init_instance.
Qed.

Lemma apply_one vs g v values loc x :
  vs = [g] ->
  apply_validators vs v values loc = Valid x <-> g v values = Return x.
Proof.
  intros ->. cbn [apply_validators].
  destruct (g v values) as [y|e].
  - split; intros [= ->]; reflexivity.
  - split; [|discriminate]. destruct (caught e); discriminate.
Qed.

Lemma model_field_valid n cls init v values loc x :
  field_validate (required_field n SHAPE_SINGLETON [model_validator cls init] [])
    v values loc = Valid x <->
  v <> VNone /\ model_validator cls init v values = Return x.
Proof.
  unfold field_validate, required_field.
  cbn [allow_none field_shape validators post_validators].
  destruct v;
    try (rewrite <- (apply_one _ _ _ values loc x eq_refl);
         destruct (apply_validators _ _ values loc) as [y| |];
         cbn [apply_validators];
         (split; [intros H; split; [discriminate | exact H] | intros [_ H]; exact H])).
  unfold none_not_allowed. split; [discriminate | intros [H _]; congruence].
Qed.

(** ** The items of a list that is accepted *)

Lemma validate_items_nth vs values loc :
  Forall raises_lines vs ->
  forall items i0 result,
    validate_items vs items i0 values loc = Return (result, []) ->
    forall i v, nth_error items i = Some v ->
      exists x, nth_error result i = Some x /\ v <> VNone /\
        apply_validators vs v values (loc ++ [LIndex (i0 + i)])%list = Valid x.
Proof.
  intros Hvs. induction items as [|w items IH]; intros i0 result Hrun i v Hnth.
  - destruct i; discriminate.
  - cbn [validate_items] in Hrun.
    assert (Hw : w <> VNone ->
              match w with
              | VNone => none_not_allowed (loc ++ [LIndex i0])
              | _ => apply_validators vs w values (loc ++ [LIndex i0])
              end = apply_validators vs w values (loc ++ [LIndex i0])%list).
    { destruct w; congruence. }
    destruct (match w with VNone => _ | _ => _ end) as [x|errs|e] eqn:Hr;
      [| |discriminate].
    + destruct (validate_items vs items (S i0) values loc) as [[res errs]|]
        eqn:Hrest; [|discriminate].
      cbn in Hrun. injection Hrun as <- ->.
      destruct i as [|i].
      * injection Hnth as <-. exists x. cbn [nth_error].
        assert (Hn : w <> VNone).
        { intros ->. discriminate Hr. }
        rewrite Nat.add_0_r, <- (Hw Hn). auto.
      * cbn [nth_error] in Hnth |- *.
        rewrite <- Nat.add_succ_comm. eapply IH; eauto.
    + destruct (validate_items vs items (S i0) values loc) as [[res errs']|]
        eqn:Hrest; [|discriminate].
      cbn in Hrun. injection Hrun as _ Hnil.
      apply app_eq_nil in Hnil as [-> _]. exfalso.
      destruct w; try (eapply apply_validators_lines; eassumption).
      discriminate Hr.
Qed.

Lemma validate_items_instances cls fs values loc : forall items i0 result errs,
  validate_items [model_validator cls (BaseModel_init cls fs)] items i0
    values loc = Return (result, errs) ->
  forallb (is_instance cls) result = true.
Proof.
  induction items as [|w items IH]; intros i0 result errs.
  - intros [= <- <-]. reflexivity.
  - cbn [validate_items].
    destruct (match w with VNone => _ | _ => _ end) as [x|es|e] eqn:Hr;
      [| |discriminate].
    + destruct (validate_items _ items (S i0) values loc) as [[res es]|]
        eqn:Hrest; [|discriminate].
      cbn. intros [= <- <-]. cbn [forallb].
      rewrite (IH _ _ _ Hrest), andb_true_r.
      destruct w; try discriminate Hr;
        apply (apply_one _ _ _ _ _ _ eq_refl) in Hr;
        eapply model_validator_returns, Hr.
    + destruct (validate_items _ items (S i0) values loc) as [[res es']|]
        eqn:Hrest; [|discriminate].
      cbn. intros [= <- <-]. eapply IH, Hrest.
Qed.

Lemma list_field_valid n vs v values loc x :
  field_validate (required_field n SHAPE_LIST vs []) v values loc = Valid x ->
  exists items result,
    v = VList items /\ x = VList result /\
    validate_items vs items 0 values loc = Return (result, []).
Proof.
  unfold field_validate, required_field.
  cbn [allow_none field_shape validators post_validators].
  destruct v; cbn [validate_sequence_like none_not_allowed]; try discriminate.
  destruct (validate_items vs l 0 values loc) as [[result [|e errs]]|]
    eqn:Hrun; cbn [apply_validators]; try discriminate.
  intros [= <-]. eauto.
Qed.

(** ** A transaction that is constructed *)

Lemma CashBackTransaction_fields_accept cats data p :
  CashBackTransaction cats data = Return p ->
  exists rs rc rt rp t c x ps,
    dict_get data "sold_at" = Some rs /\
    dict_get data "customer" = Some rc /\
    dict_get data "total" = Some rt /\
    dict_get data "products" = Some (VList rp) /\
    parse_datetime rs = Return (VDatetime t) /\
    rc <> VNone /\
    model_validator "Customer" Customer rc [("sold_at", VDatetime t)]
      = Return c /\
    float_validator rt = Return (VFloat x) /\
    validate_items [model_validator "Product" (Product cats)] rp 0
      [("sold_at", VDatetime t); ("customer", c); ("total", VFloat x)]
      [LField "products"] = Return (ps, []) /\
    p = VModel "CashBackTransaction"
          (transaction_data (VDatetime t) c (VFloat x) (VList ps)).
Proof.
  unfold CashBackTransaction.
  rewrite (BaseModel_init_returns _ _ _ _
             (never_silent_CashBackTransaction cats)).
  intros ([|x1 [|x2 [|x3 [|x4 [|? ?]]]]] & Hxs & ->); cbn in Hxs; try tauto.
  destruct Hxs as (H1 & H2 & H3 & H4 & _).
  unfold field_accepts in H1, H2, H3, H4.
  cbn [name required_field required] in H1, H2, H3, H4.
  destruct (dict_get data "sold_at") as [rs|]; [|destruct H1; discriminate].
  destruct (dict_get data "customer") as [rc|]; [|destruct H2; discriminate].
  destruct (dict_get data "total") as [rt|]; [|destruct H3; discriminate].
  destruct (dict_get data "products") as [rp|]; [|destruct H4; discriminate].
  apply required_plain_valid in H1 as [_ H1].
  pose proof (parse_datetime_outcome rs) as Hd. rewrite H1 in Hd.
  destruct Hd as [t ->].
  apply model_field_valid in H2 as [Hrc H2].
  apply required_plain_valid in H3 as [_ H3].
  destruct (float_validator_result _ _ H3) as [x ->].
  apply list_field_valid in H4 as (items & ps & -> & -> & H4).
  exists rs, rc, rt, items, t, x2, x, ps. repeat split; auto.
Qed.

(** X7. A transaction that is constructed holds a [datetime], an instance of
    [Customer], a [float] and a list of instances of [Product]. *)
Theorem CashBackTransaction_shape cats data p :
  CashBackTransaction cats data = Return p ->
  exists t c x ps,
    p = VModel "CashBackTransaction"
          (transaction_data (VDatetime t) c (VFloat x) (VList ps)) /\
    is_instance "Customer" c = true /\
    forallb (is_instance "Product") ps = true.
Proof.
  intros H. apply CashBackTransaction_fields_accept in H
    as (rs & rc & rt & rp & t & c & x & ps & _ & _ & _ & _ & _ & _ & Hc & _
        & Hps & ->).
  exists t, c, x, ps. repeat split.
  - eapply model_validator_returns, Hc.
  - eapply validate_items_instances, Hps.
Qed.

(** X8. Every product given as a dictionary to a transaction that is
    constructed is held, at its index, as a product that keeps the rules. *)
Theorem CashBackTransaction_products_checked cats data p items i d :
  CashBackTransaction cats data = Return p ->
  dict_get data "products" = Some (VList items) ->
  nth_error items i = Some (VDict d) ->
  exists ps s q v,
    field_of p "products" = Some (VList ps) /\
    nth_error ps i =
      Some (VModel "Product" (product_data (VStr s) (VInt q) (VInt v))) /\
    name_pattern s /\ In s cats /\ 0 <= q /\ 0 <= v /\ (v = 0 \/ 0 < q).
Proof.
  intros H Hget Hnth. apply CashBackTransaction_fields_accept in H
    as (rs & rc & rt & rp & t & c & x & ps & _ & _ & _ & Hrp & _ & _ & _ & _
        & Hps & ->).
  rewrite Hget in Hrp. injection Hrp as <-.
  eapply validate_items_nth in Hps as (y & Hy & _ & Hv); [| |exact Hnth].
  2:{ repeat constructor. apply model_validator_lines. }
  apply (apply_one _ _ _ _ _ _ eq_refl) in Hv. cbn [model_validator] in Hv.
  apply Product_returns in Hv as (s & q & v & -> & Hm & Hk & Hrest).
  exists ps, s, q, v. repeat split; try tauto.
  - apply RE_NAMES_spec, Hm.
  - apply known_category_In, Hk.
Qed.

(** ** Constructing again from the fields of an instance *)

(** X9. The fields of a product that is constructed construct the same product
    again. *)
Theorem Product_reconstructs cats data p :
  Product cats data = Return p ->
  exists fields, p = VModel "Product" fields /\ Product cats fields = Return p.
Proof.
  intros H. apply Product_returns in H
    as (s & q & v & -> & Hm & Hk & Hq & Hv & Hqv).
  eexists. split; [reflexivity|].
  rewrite Product_outcome by lia.
  unfold violation_lines, category_reason, quantity_reason, value_reason.
  rewrite Hm, Hk. cbn [negb line_of app].
  destruct (Z.ltb_spec q 0); [lia|].
  destruct (Z.ltb_spec v 0); [lia|].
  destruct (Z.eqb_spec v 0); cbn [negb andb line_of app]; [reflexivity|].
  destruct (Z.eqb_spec q 0); [lia | reflexivity].
Qed.

Lemma CashBackTransaction_of_instances cats t c x ps :
  is_instance "Customer" c = true ->
  forallb (is_instance "Product") ps = true ->
  CashBackTransaction cats
    (transaction_data (VDatetime t) c (VFloat x) (VList ps)) =
  Return (VModel "CashBackTransaction"
            (transaction_data (VDatetime t) c (VFloat x) (VList ps))).
Proof.
  intros Hc Hps. destruct c; try discriminate Hc.
  cbn in Hc. unfold CashBackTransaction, BaseModel_init.
  cbn [CashBackTransaction_fields validate_model transaction_data dict_get
         name required_field String.eqb Ascii.eqb Bool.eqb
         field_validate allow_none field_shape validators post_validators
         apply_validators plain parse_datetime model_validator
         float_validator validate_sequence_like app].
  rewrite Hc. cbn [apply_validators app].
  rewrite (validate_instances _ _ _ Hps). reflexivity.
Qed.

(** X10. The fields of a transaction that is constructed construct the same
    transaction again: the instances it holds are taken as they are. *)
Theorem CashBackTransaction_reconstructs cats data p :
  CashBackTransaction cats data = Return p ->
  exists fields,
    p = VModel "CashBackTransaction" fields /\
    CashBackTransaction cats fields = Return p.
Proof.
  intros H. apply CashBackTransaction_fields_accept in H
    as (rs & rc & rt & rp & t & c & x & ps & _ & _ & _ & _ & _ & _ & Hc & _
        & Hps & ->).
  eexists. split; [reflexivity|].
  apply CashBackTransaction_of_instances.
  - eapply model_validator_returns, Hc.
  - eapply validate_items_instances, Hps.
Qed.

(** ** The total of a transaction *)

Lemma apply_validators_values vs :
  Forall ignores_values vs ->
  forall v a b loc, apply_validators vs v a loc = apply_validators vs v b loc.
Proof.
  induction 1 as [|g vs Hg _ IH]; intros v a b loc; [reflexivity|].
  cbn [apply_validators]. rewrite (Hg v a b).
  destruct (g v b); [apply IH | reflexivity].
Qed.

Lemma validate_items_values vs :
  Forall ignores_values vs ->
  forall items i a b loc,
    validate_items vs items i a loc = validate_items vs items i b loc.
Proof.
  intros Hvs. induction items as [|w items IH]; intros i a b loc;
    [reflexivity|].
  cbn [validate_items]. rewrite (IH (S i) a b loc).
  rewrite (apply_validators_values vs Hvs w a b). reflexivity.
Qed.

Lemma model_validator_ignores cls init :
  ignores_values (model_validator cls init).
Proof. intros v a b. reflexivity. Qed.

(** X11. The total is not compared with anything: with any other [float] as
    the total and the other fields as they were, a transaction that is
    constructed is constructed again, with that total. *)
Theorem CashBackTransaction_total_unchecked cats data data' p y :
  CashBackTransaction cats data = Return p ->
  same_on ["sold_at"; "customer"; "products"] data data' ->
  dict_get data' "total" = Some (VFloat y) ->
  exists t c x ps,
    p = VModel "CashBackTransaction"
          (transaction_data (VDatetime t) c (VFloat x) (VList ps)) /\
    CashBackTransaction cats data' =
    Return (VModel "CashBackTransaction"
              (transaction_data (VDatetime t) c (VFloat y) (VList ps))).
Proof.
  intros H Hsame Hy. apply CashBackTransaction_fields_accept in H
    as (rs & rc & rt & rp & t & c & x & ps & Hs & Hcu & Ht & Hp & Hrs & Hrc
        & Hc & Hx & Hps & ->).
  exists t, c, x, ps. split; [reflexivity|].
  unfold CashBackTransaction.
  apply (BaseModel_init_returns _ _ _ _
           (never_silent_CashBackTransaction cats)).
  exists [VDatetime t; c; VFloat y; VList ps]. split; [|reflexivity].
  cbn [fields_accept CashBackTransaction_fields]. unfold field_accepts.
  cbn [name required_field app].
  rewrite <- (Hsame "sold_at"), <- (Hsame "customer"), <- (Hsame "products")
    by (cbn; auto).
  rewrite Hs, Hcu, Hp, Hy. repeat split.
  - apply required_plain_valid. split; [|exact Hrs].
    intros ->. discriminate Hrs.
  - apply model_field_valid. split; [exact Hrc | exact Hc].
  - cbn [field_validate required_field allow_none field_shape validators
           post_validators validate_sequence_like].
    rewrite (validate_items_values _
               (Forall_cons _ (model_validator_ignores _ _) (Forall_nil _))
               rp 0%nat _
               [("sold_at", VDatetime t); ("customer", c); ("total", VFloat x)]).
    rewrite Hps. reflexivity.
Qed.

(** ** The payload of a token *)

(** X12. A payload that is constructed holds a string as [sub] and a
    [datetime] or [None] as [exp]; [None] when no [exp] is given. *)
Theorem JWTPayload_returns data p :
  JWTPayload data = Return p ->
  exists sub exp,
    p = payload sub exp /\ (dict_get data "exp" = None -> exp = None).
Proof.
  unfold JWTPayload.
  rewrite (BaseModel_init_returns _ _ _ _ never_silent_JWTPayload).
  intros ([|x1 [|x2 [|? ?]]] & Hxs & ->); cbn in Hxs; try tauto.
  destruct Hxs as (H1 & H2 & _). unfold field_accepts in H1, H2.
  cbn [name required_field optional_field required default] in H1, H2.
  destruct (dict_get data "sub") as [rs|]; [|destruct H1; discriminate].
  apply required_plain_valid in H1 as [_ H1].
  apply str_validator_result in H1 as [s ->].
  destruct (dict_get data "exp") as [re|].
  - apply optional_plain_valid in H2 as [[_ ->]|[_ H2]].
    + exists s, None. split; [reflexivity | discriminate].
    + pose proof (parse_datetime_outcome re) as Hd. rewrite H2 in Hd.
      destruct Hd as [d ->]. exists s, (Some d).
      split; [reflexivity | discriminate].
  - destruct H2 as [_ ->]. exists s, None. split; reflexivity.
Qed.

(** ** Users *)

Lemma optional_str_valid n v values loc x :
  field_validate (optional_field n [plain str_validator]) v values loc
    = Valid x -> optional_str x = true.
Proof.
  intros H. apply optional_plain_valid in H as [[_ ->]|[_ H]]; [reflexivity|].
  apply str_validator_result in H as [s ->]. reflexivity.
Qed.

Lemma User_fields_accept data values :
  validate_model User_fields data [] [] = Return (values, []) ->
  exists u fn em ds,
    values = [("username", VStr u); ("full_name", fn); ("email", em);
              ("disabled", ds)] /\
    optional_str fn = true /\ optional_str em = true /\
    optional_bool ds = true.
Proof.
  rewrite (validate_model_returns _ _ _ _ never_silent_User).
  intros ([|x1 [|x2 [|x3 [|x4 [|? ?]]]]] & Hxs & ->); cbn in Hxs; try tauto.
  destruct Hxs as (H1 & H2 & H3 & H4 & _).
  unfold field_accepts in H1, H2, H3, H4.
  cbn [name required_field optional_field required default] in H1, H2, H3, H4.
  destruct (dict_get data "username") as [ru|]; [|destruct H1; discriminate].
  apply required_plain_valid in H1 as [_ H1].
  apply str_validator_result in H1 as [u ->].
  exists u, x2, x3, x4. split; [reflexivity|]. repeat split.
  - destruct (dict_get data "full_name");
      [eapply optional_str_valid, H2 | destruct H2 as [_ ->]; reflexivity].
  - destruct (dict_get data "email");
      [eapply optional_str_valid, H3 | destruct H3 as [_ ->]; reflexivity].
  - destruct (dict_get data "disabled") as [rd|];
      [|destruct H4 as [_ ->]; reflexivity].
    apply optional_plain_valid in H4 as [[_ ->]|[_ H4]]; [reflexivity|].
    apply bool_validator_result in H4 as [b ->]. reflexivity.
Qed.

(** X13. A user that is constructed holds a string as its name, strings or
    [None] as its full name and its address, and a [bool] or [None] as
    [disabled]. *)
Theorem User_returns data p :
  User data = Return p ->
  exists u fn em ds,
    p = VModel "User"
          [("username", VStr u); ("full_name", fn); ("email", em);
           ("disabled", ds)] /\
    optional_str fn = true /\ optional_str em = true /\
    optional_bool ds = true.
Proof.
  unfold User, BaseModel_init.
  destruct (validate_model User_fields data [] []) as [[values errs]|e]
    eqn:Hrun; cbn [bind fst snd]; [|discriminate].
  destruct errs; [|discriminate]. intros [= <-].
  apply User_fields_accept in Hrun as (u & fn & em & ds & -> & Hrest).
  exists u, fn, em, ds. split; [reflexivity | exact Hrest].
Qed.

Lemma validate_model_app fs1 fs2 data : forall values errors,
  validate_model (fs1 ++ fs2) data values errors =
  (r <- validate_model fs1 data values errors ;;
   validate_model fs2 data (fst r) (snd r))%py.
Proof.
  induction fs1 as [|f fs1 IH]; intros values errors; [reflexivity|].
  cbn [app validate_model].
  destruct (dict_get data (name f)) as [v|].
  - destruct (field_validate f v values _); auto.
  - destruct (required f); auto.
Qed.

(** X14. A stored user is constructed exactly when the same arguments
    construct a user and give a string as the hashed password; it holds the
    fields of that user and then the password. *)
Theorem UserInDB_returns_iff data p :
  UserInDB data = Return p <->
  exists fields rh h,
    User data = Return (VModel "User" fields) /\
    dict_get data "hashed_password" = Some rh /\
    str_validator rh = Return (VStr h) /\
    p = VModel "UserInDB" (fields ++ [("hashed_password", VStr h)]).
Proof.
  unfold UserInDB, User, BaseModel_init, UserInDB_fields.
  rewrite validate_model_app.
  destruct (validate_model User_fields data [] []) as [[values errs]|e]
    eqn:Hrun; cbn [bind fst snd validate_model name required_field required].
  - destruct (dict_get data "hashed_password") as [rh|].
    + destruct (field_validate _ rh values _) as [x|lines|e] eqn:Hf;
        cbn [bind fst snd].
      * apply required_plain_valid in Hf as [_ Hf].
        destruct (str_validator_result _ _ Hf) as [h ->].
        destruct errs as [|l errs]; cbn [app].
        -- split.
           ++ intros [= <-]. exists values, rh, h. auto.
           ++ intros (fields & rh' & h' & Hu & Hr & Hh & ->).
              injection Hu as Hu. injection Hr as Hr. subst fields rh'.
              rewrite Hf in Hh. injection Hh as Hh. subst h'. reflexivity.
        -- split; [discriminate|].
           intros (fields & rh' & h' & Hu & _). discriminate Hu.
      * split.
        -- assert (Hl : lines <> []).
           { intros ->. revert Hf. apply never_silent_field.
             - repeat constructor. apply str_validator_lines.
             - constructor. }
           destruct lines; [congruence|]. destruct errs; discriminate.
        -- intros (fields & rh' & h' & Hu & [= <-] & Hh & ->). exfalso.
           assert (Hv : field_validate
                     (required_field "hashed_password" SHAPE_SINGLETON
                        [plain str_validator] []) rh values
                     [LField "hashed_password"] = Valid (VStr h')).
           { apply required_plain_valid. split; [|exact Hh].
             intros ->. discriminate Hh. }
           congruence.
      * split; [discriminate|].
        intros (fields & rh' & h' & Hu & [= <-] & Hh & ->). exfalso.
        assert (Hv : field_validate
                  (required_field "hashed_password" SHAPE_SINGLETON
                     [plain str_validator] []) rh values
                  [LField "hashed_password"] = Valid (VStr h')).
        { apply required_plain_valid. split; [|exact Hh].
          intros ->. discriminate Hh. }
        congruence.
    + split.
      * destruct (errs ++ _)%list eqn:E; [|discriminate].
        apply app_eq_nil in E as [_ E]. discriminate E.
      * intros (fields & rh' & h' & _ & Hn & _). discriminate Hn.
  - split; [discriminate|].
    intros (fields & rh' & h' & Hu & _). discriminate Hu.
Qed.

(** ** [None] for an optional field *)

Lemma validate_model_None fields data data' k :
  dict_get data k = None -> dict_get data' k = Some VNone ->
  (forall k', k' <> k -> dict_get data' k' = dict_get data k') ->
  (forall f, In f fields -> name f = k ->
     required f = false /\ allow_none f = true /\ default f = VNone /\
     post_validators f = []) ->
  forall values errors,
    validate_model fields data' values errors
    = validate_model fields data values errors.
Proof.
  intros Hk Hk' Hsame. induction fields as [|f fields IH];
    intros Hopt values errors; [reflexivity|].
  cbn [validate_model].
  assert (IH' := IH (fun g Hg => Hopt g (or_intror Hg))).
  destruct (String.eqb_spec (name f) k) as [E|E].
  - destruct (Hopt f (or_introl eq_refl) E) as (Hr & Ha & Hd & Hp).
    subst k. rewrite Hk, Hk', Hr. unfold field_validate. rewrite Ha, Hp, Hd.
    cbn [apply_validators]. apply IH'.
  - rewrite (Hsame _ E). destruct (dict_get data (name f)) as [v|].
    + destruct (field_validate f v values _); auto.
    + destruct (required f); auto.
Qed.

(** X15. An optional field given as [None] is a field left out: with the other
    arguments the same, the construction gives the same. *)
Theorem explicit_None_is_omitted data data' k :
  dict_get data k = None -> dict_get data' k = Some VNone ->
  (forall k', k' <> k -> dict_get data' k' = dict_get data k') ->
  (In k ["full_name"; "email"; "disabled"] ->
   User data' = User data /\ UserInDB data' = UserInDB data) /\
  (k = "username" -> TokenOwner data' = TokenOwner data) /\
  (k = "exp" -> JWTPayload data' = JWTPayload data).
Proof.
  intros Hk Hk' Hsame.
  assert (Hgen : forall cls fields,
             (forall f, In f fields -> name f = k ->
                required f = false /\ allow_none f = true /\
                default f = VNone /\ post_validators f = []) ->
             BaseModel_init cls fields data' = BaseModel_init cls fields data).
  { intros cls fields Hopt. unfold BaseModel_init.
    rewrite (validate_model_None _ _ _ _ Hk Hk' Hsame Hopt). reflexivity. }
  split; [intros H; split | split; intros H]; apply Hgen; intros f Hf Hn;
    cbn in Hf, H;
    repeat (destruct Hf as [<-|Hf];
            [cbn in Hn |- *;
             try (repeat split; reflexivity);
             subst k; try discriminate;
             repeat (destruct H as [H|H]; try discriminate H);
             contradiction|]);
    contradiction.
Qed.

(** ** The models whose fields are strings and flags *)

Lemma apply_validators_caught vs :
  Forall raises_caught vs ->
  forall v values loc e, apply_validators vs v values loc <> Escaped e.
Proof.
  induction 1 as [|g vs Hg _ IH]; intros v values loc e; [discriminate|].
  cbn [apply_validators]. destruct (g v values) as [x|e'] eqn:E; [apply IH|].
  rewrite (Hg _ _ _ E). discriminate.
Qed.

Lemma field_validate_caught f :
  field_shape f = SHAPE_SINGLETON ->
  Forall raises_caught (validators f) ->
  Forall raises_caught (post_validators f) ->
  forall v values loc e, field_validate f v values loc <> Escaped e.
Proof.
  intros Hs Hv Hp v values loc e. unfold field_validate. rewrite Hs.
  assert (Hpost : forall w, apply_validators (post_validators f) w values loc
                            <> Escaped e).
  { intros w. apply apply_validators_caught, Hp. }
  assert (Hmain : forall r,
             r <> Escaped e ->
             match r with
             | Valid v' => apply_validators (post_validators f) v' values loc
             | _ => r
             end <> Escaped e).
  { intros [x|l|e0] Hr; [apply Hpost | discriminate | exact Hr]. }
  destruct v; try (apply Hmain; apply apply_validators_caught, Hv).
  destruct (allow_none f); [apply Hpost | discriminate].
Qed.

Lemma validate_model_caught fields data :
  Forall (fun f => forall v values loc e,
              field_validate f v values loc <> Escaped e) fields ->
  forall values errors e,
    validate_model fields data values errors <> Raise e.
Proof.
  induction 1 as [|f fields Hf _ IH]; intros values errors e; [discriminate|].
  cbn [validate_model]. destruct (dict_get data (name f)) as [v|].
  - destruct (field_validate f v values _) eqn:E; try apply IH.
    exfalso. eapply Hf, E.
  - destruct (required f); apply IH.
Qed.

Lemma str_validator_caught : raises_caught (plain str_validator).
Proof.
  intros v values e. unfold plain.
  destruct v; cbn; try discriminate; intros [= <-]; reflexivity.
Qed.

Lemma bool_validator_caught : raises_caught (plain bool_validator).
Proof.
  intros v values e. unfold plain, bool_validator, BoolError.
  destruct v; try discriminate; try (intros [= <-]; reflexivity).
  - destruct (n =? 1); [discriminate|].
    destruct (n =? 0); [discriminate|]. intros [= <-]. reflexivity.
  - destruct (compare_float_int x 1) as [[]|];
      destruct (compare_float_int x 0) as [[]|];
      try discriminate; intros [= <-]; reflexivity.
  - destruct (existsb _ BOOL_TRUE); [discriminate|].
    destruct (existsb _ BOOL_FALSE); [discriminate|].
    intros [= <-]. reflexivity.
Qed.

Lemma plain_field_caught n g :
  raises_caught (plain g) ->
  (forall v values loc e,
      field_validate (required_field n SHAPE_SINGLETON [plain g] [])
        v values loc <> Escaped e) /\
  (forall v values loc e,
      field_validate (optional_field n [plain g]) v values loc <> Escaped e).
Proof.
  intros Hg. split; apply field_validate_caught; try reflexivity;
    repeat constructor; exact Hg.
Qed.

Lemma BaseModel_init_caught cls fields data e :
  Forall (fun f => forall v values loc e,
              field_validate f v values loc <> Escaped e) fields ->
  BaseModel_init cls fields data = Raise e ->
  exists lines, e = ValidationError lines /\ lines <> [].
Proof.
  intros Hf. unfold BaseModel_init.
  destruct (validate_model fields data [] []) as [[values errs]|e'] eqn:Hrun.
  - cbn [bind fst snd]. destruct errs as [|l errs]; [discriminate|].
    intros [= <-]. eexists. split; [reflexivity | discriminate].
  - exfalso. eapply validate_model_caught; eauto.
Qed.

(** X16. Constructing a user, a stored user, a token or the owner of a token
    raises nothing but a [ValidationError], which has a line. *)
Theorem Accounts_raise_only_ValidationError data e :
  User data = Raise e \/ UserInDB data = Raise e \/
  Token data = Raise e \/ TokenOwner data = Raise e ->
  exists lines, e = ValidationError lines /\ lines <> [].
Proof.
  pose proof (fun n => proj1 (plain_field_caught n _ str_validator_caught))
    as Hrs.
  pose proof (fun n => proj2 (plain_field_caught n _ str_validator_caught))
    as Hos.
  pose proof (fun n => proj2 (plain_field_caught n _ bool_validator_caught))
    as Hob.
  intros [H|[H|[H|H]]]; revert H; apply BaseModel_init_caught;
    repeat constructor; auto.
Qed.

(** ** The names [RE_NAMES] matches *)

Lemma string_length_app s1 s2 :
  String.length (s1 ++ s2) = (String.length s1 + String.length s2)%nat.
Proof. induction s1 as [|c s1 IH]; cbn; [reflexivity | now rewrite IH]. Qed.

Lemma all_chars_app p s1 s2 :
  all_chars p (s1 ++ s2) = all_chars p s1 && all_chars p s2.
Proof.
  induction s1 as [|c s1 IH]; cbn; [reflexivity|].
  rewrite IH. apply andb_assoc.
Qed.

Lemma word_chars lo hi w :
  word lo hi w -> all_chars letter_or_space w = true.
Proof.
  intros [H _]. induction w as [|c w IH]; [reflexivity|].
  cbn [all_in] in H. cbn [all_chars]. apply andb_prop in H as [Hc Hw].
  rewrite (IH Hw). unfold letter_or_space. rewrite Hc. reflexivity.
Qed.

(** X17. What [RE_NAMES] matches has 3 to 46 characters, each a letter of the
    basic alphabet or a space. *)
Theorem RE_NAMES_bounds s :
  fullmatch RE_NAMES s = true ->
  (3 <= String.length s <= 46)%nat /\ all_chars letter_or_space s = true.
Proof.
  intros H. apply RE_NAMES_spec in H as (w1 & Hw1 & [->|(w2 & Hw2 & ->)]).
  - split; [|eapply word_chars, Hw1]. destruct Hw1 as [_ Hl]. lia.
  - rewrite !string_length_app, !all_chars_app.
    rewrite (word_chars _ _ _ Hw1), (word_chars _ _ _ Hw2).
    destruct Hw1 as [_ H1], Hw2 as [_ H2]. cbn. split; [lia | reflexivity].
Qed.

(** ** A number given as a string of digits *)

Lemma rev_string_twice s : forall a b,
  rev_string b (rev_string a s) = rev_string (s ++ b) a.
Proof.
  induction s as [|c s IH]; intros a b; [reflexivity|].
  cbn [rev_string append]. rewrite IH. reflexivity.
Qed.

Lemma all_digits_rev s : forall a,
  all_digits a = true -> all_digits s = true ->
  all_digits (rev_string a s) = true.
Proof.
  induction s as [|c s IH]; intros a Ha Hs; [exact Ha|].
  cbn in Hs. apply andb_prop in Hs as [Hc Hs].
  cbn [rev_string]. apply IH; [|exact Hs]. cbn. now rewrite Hc, Ha.
Qed.

Lemma lstrip_digits s : all_digits s = true -> lstrip s = s.
Proof.
  destruct s as [|c s]; [reflexivity|]. cbn [all_digits lstrip].
  intros H. apply andb_prop in H as [Hc _].
  now rewrite (digit_not_space c Hc).
Qed.

Lemma strip_digits s : all_digits s = true -> strip s = s.
Proof.
  intros H. unfold strip. rewrite (lstrip_digits s H).
  rewrite lstrip_digits by (apply all_digits_rev; auto).
  rewrite rev_string_twice. cbn [rev_string]. apply append_nil_r.
Qed.

Lemma scan_digits_all s : forall acc cnt,
  all_digits s = true ->
  exists cnt',
    scan_digits acc cnt s =
    (fold_left (fun a c => 10 * a + digit_value c) (list_ascii_of_string s) acc,
     cnt', "").
Proof.
  induction s as [|c s IH]; intros acc cnt H; [cbn; eauto|].
  cbn [all_digits] in H. apply andb_prop in H as [Hc Hs].
  rewrite (scan_digits_digit _ _ _ _ Hc). cbn [list_ascii_of_string fold_left].
  apply IH, Hs.
Qed.

Lemma int_of_str_digits s :
  all_digits s = true -> s <> "" ->
  int_of_str s = Some (number_of (list_ascii_of_string s)).
Proof.
  intros H Hne. unfold int_of_str. rewrite (strip_digits s H).
  destruct s as [|c s]; [congruence|].
  cbn [all_digits] in H. apply andb_prop in H as [Hc Hs].
  rewrite (scan_sign_digit c s Hc). cbn [digitpart]. rewrite Hc.
  destruct (scan_digits_all s (10 * 0 + digit_value c) 1 Hs) as [cnt' ->].
  reflexivity.
Qed.

(** X18. An identification number given as a string of digits is held as the
    number the digits write: the zeros it starts with are not kept. *)
Theorem Customer_cpf_of_digits nm ds :
  all_digits ds = true -> (1 <= String.length ds <= 4300)%nat ->
  Customer (customer_data (VStr nm) (VStr ds)) =
  Return (VModel "Customer"
            (customer_data (VStr nm)
               (VInt (number_of (list_ascii_of_string ds))))).
Proof.
  intros Hd Hl. unfold Customer.
  apply (BaseModel_init_returns _ _ _ _ never_silent_Customer).
  eexists [_; _]. split; [|reflexivity].
  cbn [fields_accept Customer_fields]. unfold field_accepts.
  cbn [name required_field customer_data dict_get String.eqb Ascii.eqb
         Bool.eqb app].
  repeat split.
  - apply required_plain_valid. split; [discriminate|].
    apply int_validator_result. eexists. split; [reflexivity|].
    cbn [py_int]. rewrite int_of_str_digits; [reflexivity | exact Hd |].
    intros ->. cbn in Hl. lia.
Qed.

(** ** When a product is constructed *)

Lemma category_cast cats c s values loc :
  str_validator c = Return (VStr s) ->
  field_validate (category_field cats) c values loc =
  field_validate (category_field cats) (VStr s) values loc.
Proof.
  intros H.
  unfold field_validate, category_field, required_field, plain;
    cbn [allow_none field_shape validators post_validators apply_validators].
  destruct c; try discriminate H; rewrite ?H; reflexivity.
Qed.

Lemma category_valid_iff cats c values loc x :
  field_validate (category_field cats) c values loc = Valid x <->
  exists s, str_validator c = Return (VStr s) /\ x = VStr s /\
            fullmatch RE_NAMES s = true /\ known_category cats s = true.
Proof.
  destruct (str_validator c) as [y|e] eqn:Hc.
  - destruct (str_validator_result _ _ Hc) as [s ->].
    rewrite (category_cast _ _ _ _ _ Hc), category_check.
    destruct (fullmatch RE_NAMES s) eqn:Hm; cbn [negb].
    + destruct (known_category cats s) eqn:Hk; cbn [negb].
      * split.
        -- intros [= <-]. exists s. auto.
        -- intros (s' & [= <-] & -> & _). reflexivity.
      * split; [discriminate|].
        intros (s' & [= <-] & _ & _ & Hk'). congruence.
    + split; [discriminate|].
      intros (s' & [= <-] & _ & Hm' & _). congruence.
  - split; [|intros (s & Hs & _); discriminate Hs].
    unfold field_validate, category_field, required_field, plain;
      cbn [allow_none field_shape validators post_validators apply_validators].
    destruct c; try discriminate Hc; cbn; discriminate.
Qed.

(** X19. A product is constructed exactly when the three fields are given, the
    category is or casts to a string that matches the pattern and is known,
    the quantity and the value cast to integers that are not negative, and the
    quantity is above zero unless the value is zero; it holds the string and
    the two integers. *)
Theorem Product_returns_iff cats data p :
  Product cats data = Return p <->
  exists rc rq rv s q v,
    dict_get data "category" = Some rc /\
    dict_get data "quantity" = Some rq /\
    dict_get data "value" = Some rv /\
    str_validator rc = Return (VStr s) /\
    py_int rq = Return q /\ py_int rv = Return v /\
    name_pattern s /\ In s cats /\
    0 <= q /\ 0 <= v /\ (v = 0 \/ 0 < q) /\
    p = VModel "Product" (product_data (VStr s) (VInt q) (VInt v)).
Proof.
  unfold Product.
  rewrite (BaseModel_init_returns _ _ _ _ (never_silent_Product cats)).
  split.
  - intros ([|x1 [|x2 [|x3 [|? ?]]]] & Hxs & ->); cbn in Hxs; try tauto.
    destruct Hxs as (H1 & H2 & H3 & _). unfold field_accepts in H1, H2, H3.
    cbn [name category_field quantity_field value_field required_field
           required] in H1, H2, H3.
    destruct (dict_get data "category") as [rc|]; [|destruct H1; discriminate].
    destruct (dict_get data "quantity") as [rq|]; [|destruct H2; discriminate].
    destruct (dict_get data "value") as [rv|]; [|destruct H3; discriminate].
    apply category_valid_iff in H1 as (s & Hc & -> & Hm & Hk).
    pose proof (quantity_result rq [("category", VStr s)] [LField "quantity"])
      as Hq.
    change (field_validate quantity_field rq [("category", VStr s)]
              [LField "quantity"] = Valid x2) in H2.
    rewrite H2 in Hq. destruct Hq as (q & -> & Hq & Hq0).
    pose proof (value_result rv
                  [("category", VStr s); ("quantity", VInt q)]
                  [LField "value"]) as Hv.
    change (field_validate value_field rv
              [("category", VStr s); ("quantity", VInt q)] [LField "value"]
            = Valid x3) in H3.
    rewrite H3 in Hv. destruct Hv as (v & -> & Hv & Hv0 & Hvq).
    exists rc, rq, rv, s, q, v. repeat split; auto.
    + apply RE_NAMES_spec, Hm.
    + apply known_category_In, Hk.
    + destruct Hvq as [->|(qv & Hget & Hz)]; [left; reflexivity|].
      vm_compute in Hget. injection Hget as Hget. subst qv. cbn in Hz.
      apply Z.eqb_neq in Hz. right. lia.
  - intros (rc & rq & rv & s & q & v & Hc & Hq & Hv & Hs & Hpq & Hpv & Hm & Hk
            & Hq0 & Hv0 & Hqv & ->).
    exists [VStr s; VInt q; VInt v]. split; [|reflexivity].
    cbn [fields_accept Product_fields]. unfold field_accepts.
    cbn [name category_field quantity_field value_field required_field app].
    rewrite Hc, Hq, Hv. repeat split.
    + apply category_valid_iff. exists s. repeat split; auto.
      * apply RE_NAMES_spec, Hm.
      * apply known_category_In, Hk.
    + change (field_validate quantity_field rq [("category", VStr s)]
                [LField "quantity"] = Valid (VInt q)).
      unfold quantity_field. rewrite (int_field_cast _ _ _ _ _ _ Hpq).
      fold quantity_field. rewrite quantity_check.
      destruct (Z.ltb_spec q 0); [lia | reflexivity].
    + change (field_validate value_field rv
                [("category", VStr s); ("quantity", VInt q)] [LField "value"]
              = Valid (VInt v)).
      unfold value_field. rewrite (int_field_cast _ _ _ _ _ _ Hpv).
      fold value_field. rewrite value_check.
      destruct (Z.ltb_spec v 0); [lia|].
      destruct (Z.eqb_spec v 0); [reflexivity|].
      change (dict_get [("category", VStr s); ("quantity", VInt q)] "quantity")
        with (Some (VInt q)).
      cbn [py_eq_int]. destruct (Z.eqb_spec q 0); [lia | reflexivity].
Qed.

(** ** A transaction without products *)

(** X20. The list of products may be empty: with an empty list in its place
    and the other fields as they were, a transaction that is constructed is
    constructed again, without products. *)
Theorem CashBackTransaction_accepts_no_products cats data data' p :
  CashBackTransaction cats data = Return p ->
  same_on ["sold_at"; "customer"; "total"] data data' ->
  dict_get data' "products" = Some (VList []) ->
  exists t c x ps,
    p = VModel "CashBackTransaction"
          (transaction_data (VDatetime t) c (VFloat x) (VList ps)) /\
    CashBackTransaction cats data' =
    Return (VModel "CashBackTransaction"
              (transaction_data (VDatetime t) c (VFloat x) (VList []))).
Proof.
  intros H Hsame Hnone. apply CashBackTransaction_fields_accept in H
    as (rs & rc & rt & rp & t & c & x & ps & Hs & Hcu & Ht & Hp & Hrs & Hrc
        & Hc & Hx & Hps & ->).
  exists t, c, x, ps. split; [reflexivity|].
  unfold CashBackTransaction.
  apply (BaseModel_init_returns _ _ _ _
           (never_silent_CashBackTransaction cats)).
  exists [VDatetime t; c; VFloat x; VList []]. split; [|reflexivity].
  cbn [fields_accept CashBackTransaction_fields]. unfold field_accepts.
  cbn [name required_field app].
  rewrite <- (Hsame "sold_at"), <- (Hsame "customer"), <- (Hsame "total")
    by (cbn; auto).
  rewrite Hs, Hcu, Ht, Hnone. repeat split.
  - apply required_plain_valid. split; [|exact Hrs].
    intros ->. discriminate Hrs.
  - apply model_field_valid. split; [exact Hrc | exact Hc].
  - apply required_plain_valid. split; [|exact Hx].
    intros ->. discriminate Hx.
Qed.

(** ** What the casts raise *)

Lemma builtin_escapes e :
  builtin_error e = true -> uncaught e -> exists msg, e = OverflowError msg.
Proof. destruct e; try discriminate; intros _ H; try discriminate H; eauto. Qed.

Lemma int_of_float_builtin x e :
  int_of_float x = Raise e -> builtin_error e = true.
Proof. destruct x; cbn; intros [= <-]; reflexivity. Qed.

Lemma timedelta_of_seconds_builtin n e :
  timedelta_of_seconds n = Raise e -> builtin_error e = true.
Proof.
  destruct n as [n|x]; cbn [timedelta_of_seconds]; [discriminate|].
  unfold timedelta_of_float.
  destruct (int_of_float x) as [w|e'] eqn:Hw; cbn [bind].
  - destruct (float_is_zero _); [discriminate|].
    destruct (SFmul prec emax _ _); discriminate.
  - intros [= <-]. eapply int_of_float_builtin, Hw.
Qed.

Lemma from_unix_seconds_builtin n e :
  from_unix_seconds n = Raise e -> builtin_error e = true.
Proof.
  unfold from_unix_seconds.
  destruct (number_gt n MAX_NUMBER); [discriminate|].
  destruct (number_lt n (- MAX_NUMBER)); [discriminate|].
  destruct (timedelta_of_seconds _) as [td|e'] eqn:Htd; cbn [bind].
  - unfold datetime_add.
    destruct (between _ _ _); cbn [bind].
    + destruct (ord2ymd _) as [[y m] d]. cbn [bind]. discriminate.
    + intros [= <-]. reflexivity.
  - intros [= <-]. eapply timedelta_of_seconds_builtin, Htd.
Qed.

Lemma parse_datetime_builtin v e :
  parse_datetime v = Raise e -> builtin_error e = true.
Proof.
  unfold parse_datetime.
  assert (Hnum : forall n,
    (d <- from_unix_seconds n ;; Return (VDatetime d))%py = Raise e ->
    builtin_error e = true).
  { intros n. destruct (from_unix_seconds n) as [d|e'] eqn:H; cbn;
      [discriminate|]. intros [= <-]. eapply from_unix_seconds_builtin, H. }
  assert (Hnew : forall y mo d h mi s us tz,
    match datetime_new y mo d h mi s us tz with
    | Return d => Return (VDatetime d)
    | Raise (ValueError _) => Raise (ValueError "invalid datetime format")
    | Raise e => Raise e
    end = Raise e -> builtin_error e = true).
  { intros y mo d h mi s us tz.
    destruct (datetime_new y mo d h mi s us tz) as [x|e'] eqn:H;
      [discriminate|].
    apply datetime_new_raises in H as [msg ->]. intros [= <-]. reflexivity. }
  destruct v; cbn [get_numeric bind]; try apply Hnum; try discriminate;
    try (intros [= <-]; reflexivity).
  destruct (float_of_str s) as [x|]; cbn [option_map]; [apply Hnum|].
  destruct (datetime_re_match s) as [kw|]; [|intros [= <-]; reflexivity].
  unfold parse_timezone.
  destruct (g_tzinfo kw) as [tz|]; cbn [bind]; [|apply Hnew].
  destruct (String.eqb tz "Z"); cbn [bind]; [apply Hnew|].
  match goal with |- context [if ?b then Return _ else _] => destruct b end;
    cbn [bind]; [apply Hnew | intros [= <-]; reflexivity].
Qed.

Lemma float_validator_builtin v e :
  float_validator v = Raise e -> builtin_error e = true.
Proof.
  destruct v; cbn; try discriminate; try (intros [= <-]; reflexivity).
  - unfold float_of_int.
    destruct (float_of_ratio _ _ _); try discriminate;
      intros [= <-]; reflexivity.
  - unfold float_of_int.
    destruct (float_of_ratio _ _ _); try discriminate;
      intros [= <-]; reflexivity.
  - destruct (float_of_str s); [discriminate | intros [= <-]; reflexivity].
Qed.

Lemma int_validator_builtin v e :
  int_validator v = Raise e -> builtin_error e = true.
Proof.
  destruct v; cbn; try discriminate; try (intros [= <-]; reflexivity).
  - destruct x; cbn; try discriminate; intros [= <-]; reflexivity.
  - destruct (int_of_str s); [discriminate | intros [= <-]; reflexivity].
Qed.

Lemma str_validator_builtin v e :
  str_validator v = Raise e -> builtin_error e = true.
Proof. destruct v; cbn; try discriminate; intros [= <-]; reflexivity. Qed.

(** ** The field that lets an exception through *)

Lemma validate_model_escaped_field fields data : forall values errors e,
  validate_model fields data values errors = Raise e ->
  exists f v values',
    In f fields /\ field_validate f v values' [LField (name f)] = Escaped e.
Proof.
  induction fields as [|f fields IH]; intros values errors e; [discriminate|].
  cbn [validate_model].
  assert (Hrest : forall values errors,
             validate_model fields data values errors = Raise e ->
             exists g v values',
               In g (f :: fields) /\
               field_validate g v values' [LField (name g)] = Escaped e).
  { intros vs es H. apply IH in H as (g & v & vs' & Hg & H).
    exists g, v, vs'. split; [right; exact Hg | exact H]. }
  destruct (dict_get data (name f)) as [v|].
  - destruct (field_validate f v values _) eqn:E; try apply Hrest.
    intros [= <-]. exists f, v, values. split; [left; reflexivity | exact E].
  - destruct (required f); apply Hrest.
Qed.

Lemma apply_one_escaped g v values loc e :
  apply_validators [g] v values loc = Escaped e -> g v values = Raise e.
Proof.
  cbn [apply_validators]. destruct (g v values) as [x|e']; [discriminate|].
  destruct (caught e'); [discriminate|]. intros [= <-]. reflexivity.
Qed.

Lemma plain_field_escaped n g v values loc e :
  field_validate (required_field n SHAPE_SINGLETON [plain g] []) v values loc
    = Escaped e \/
  field_validate (optional_field n [plain g]) v values loc = Escaped e ->
  g v = Raise e.
Proof.
  unfold field_validate, required_field, optional_field.
  cbn [allow_none field_shape validators post_validators].
  intros [H|H]; revert H;
    (destruct v;
     [cbn; discriminate
     |destruct (apply_validators [plain g] _ values loc) eqn:E;
      cbn [apply_validators]; try discriminate;
      intros [= <-]; apply apply_one_escaped in E; exact E ..]).
Qed.

Lemma model_validator_raises cls init v values e :
  model_validator cls init v values = Raise e -> uncaught e ->
  exists d, init d = Raise e.
Proof.
  intros H Hu. destruct v; cbn [model_validator] in H;
    try (injection H as <-; discriminate Hu); eauto.
  - destruct s; [eauto | injection H as <-; discriminate Hu].
  - destruct (dict_of_items l [] true) as [d|e'] eqn:Hd; cbn [bind] in H;
      [eauto|].
    injection H as <-. apply dict_of_items_raises in Hd as [msg ->].
    discriminate Hu.
  - destruct (String.eqb cls0 cls); [discriminate | eauto].
Qed.

Lemma model_field_escaped n cls init v values loc e :
  field_validate (required_field n SHAPE_SINGLETON [model_validator cls init] [])
    v values loc = Escaped e ->
  exists d, init d = Raise e.
Proof.
  intros H. pose proof (field_validate_escaped _ _ _ _ _ H) as Hu. revert H.
  unfold field_validate, required_field.
  cbn [allow_none field_shape validators post_validators].
  destruct v;
    [cbn; discriminate
    |destruct (apply_validators _ _ values loc) eqn:E;
     cbn [apply_validators]; try discriminate;
     intros [= <-]; apply apply_one_escaped in E;
     eapply model_validator_raises; eauto ..].
Qed.

Lemma validate_items_escaped_item vs values loc e : forall items i,
  validate_items vs items i values loc = Raise e ->
  exists v loc', apply_validators vs v values loc' = Escaped e.
Proof.
  induction items as [|w items IH]; intros i; [discriminate|].
  cbn [validate_items].
  destruct (match w with VNone => _ | _ => _ end) as [x|errs|e'] eqn:Hr.
  - destruct (validate_items vs items (S i) values loc) eqn:Hrest;
      cbn [bind]; [discriminate|]. intros [= <-]. eapply IH, Hrest.
  - destruct (validate_items vs items (S i) values loc) eqn:Hrest;
      cbn [bind]; [discriminate|]. intros [= <-]. eapply IH, Hrest.
  - intros [= <-]. destruct w; try discriminate Hr; eauto.
Qed.

Lemma list_field_escaped n cls init v values loc e :
  field_validate (required_field n SHAPE_LIST [model_validator cls init] [])
    v values loc = Escaped e ->
  exists d, init d = Raise e.
Proof.
  intros H. pose proof (field_validate_escaped _ _ _ _ _ H) as Hu. revert H.
  unfold field_validate, required_field.
  cbn [allow_none field_shape validators post_validators].
  destruct v; cbn [validate_sequence_like none_not_allowed]; try discriminate.
  destruct (validate_items _ l 0 values loc) as [[result [|l0 errs]]|e']
    eqn:Hrun; cbn [apply_validators]; try discriminate.
  intros [= <-]. apply validate_items_escaped_item in Hrun as (w & loc' & Hw).
  apply apply_one_escaped in Hw. eapply model_validator_raises; eauto.
Qed.

(** What escapes the construction of a customer. *)
Lemma Customer_escapes data e :
  Customer data = Raise e -> uncaught e -> exists msg, e = OverflowError msg.
Proof.
  intros H Hu. unfold Customer, BaseModel_init in H.
  destruct (validate_model Customer_fields data [] []) as [[vs es]|e'] eqn:Hrun;
    cbn [bind fst snd] in H.
  - destruct es; [discriminate H|]. injection H as <-. discriminate Hu.
  - injection H as ->.
    apply validate_model_escaped_field in Hrun as (f & v & vs & Hf & Hrun).
    apply builtin_escapes; [|exact Hu].
    cbn in Hf. destruct Hf as [<-|[<-|[]]];
      apply (fun H => plain_field_escaped _ _ _ _ _ _ (or_introl H)) in Hrun.
    + eapply str_validator_builtin, Hrun.
    + eapply int_validator_builtin, Hrun.
Qed.

(** X21. What a construction of a transaction can raise: a [ValidationError]
    with a line, the [KeyError] of the value validator of a product, or an
    [OverflowError] of a cast. *)
Theorem CashBackTransaction_exceptions cats data e :
  CashBackTransaction cats data = Raise e ->
  (exists errs, e = ValidationError errs /\ errs <> []) \/
  e = KeyError "quantity" \/
  (exists msg, e = OverflowError msg).
Proof.
  intros H. destruct (BaseModel_init_raises _ _ _ _ H) as [Hv|Hu];
    [left; exact Hv | right].
  unfold CashBackTransaction, BaseModel_init in H.
  destruct (validate_model (CashBackTransaction_fields cats) data [] [])
    as [[vs es]|e'] eqn:Hrun; cbn [bind fst snd] in H.
  - destruct es; [discriminate H|]. injection H as <-. discriminate Hu.
  - injection H as ->.
    apply validate_model_escaped_field in Hrun as (f & v & vs & Hf & Hrun).
    cbn in Hf. destruct Hf as [<-|[<-|[<-|[<-|[]]]]].
    + right. apply builtin_escapes; [|exact Hu].
      apply (fun H => plain_field_escaped _ _ _ _ _ _ (or_introl H)) in Hrun.
      eapply parse_datetime_builtin, Hrun.
    + right. apply model_field_escaped in Hrun as [d Hd].
      eapply Customer_escapes; eauto.
    + right. apply builtin_escapes; [|exact Hu].
      apply (fun H => plain_field_escaped _ _ _ _ _ _ (or_introl H)) in Hrun.
      eapply float_validator_builtin, Hrun.
    + apply list_field_escaped in Hrun as [d Hd].
      exact (Product_escapes _ _ _ Hd Hu).
Qed.

(** X22. Constructing a customer or the payload of a token raises a
    [ValidationError] with a line or an [OverflowError] of a cast, nothing
    else. *)
Theorem Customer_JWTPayload_exceptions data e :
  Customer data = Raise e \/ JWTPayload data = Raise e ->
  (exists errs, e = ValidationError errs /\ errs <> []) \/
  (exists msg, e = OverflowError msg).
Proof.
  intros [H|H]; destruct (BaseModel_init_raises _ _ _ _ H) as [Hv|Hu];
    try (left; exact Hv); right.
  - eapply Customer_escapes; eauto.
  - unfold JWTPayload, BaseModel_init in H.
    destruct (validate_model JWTPayload_fields data [] []) as [[vs es]|e']
      eqn:Hrun; cbn [bind fst snd] in H.
    + destruct es; [discriminate H|]. injection H as <-. discriminate Hu.
    + injection H as ->.
      apply validate_model_escaped_field in Hrun as (f & v & vs & Hf & Hrun).
      apply builtin_escapes; [|exact Hu].
      cbn in Hf. destruct Hf as [<-|[<-|[]]].
      * apply (fun H => plain_field_escaped _ _ _ _ _ _ (or_introl H)) in Hrun.
        eapply str_validator_builtin, Hrun.
      * apply (fun H => plain_field_escaped _ _ _ _ _ _ (or_intror H)) in Hrun.
        eapply parse_datetime_builtin, Hrun.
Qed.

(** ** The properties at the values of the examples *)

Lemma Customer_cpf_of_digits_witness :
  all_digits "01234567890" = true /\
  (1 <= String.length "01234567890" <= 4300)%nat /\
  Customer (customer_data (VStr "Ana") (VStr "01234567890")) =
  Return (VModel "Customer" (customer_data (VStr "Ana") (VInt 1234567890))).
Proof.
  assert (Hl : (1 <= String.length "01234567890" <= 4300)%nat)
    by (cbn; lia).
  split; [reflexivity|]. split; [exact Hl|].
  exact (Customer_cpf_of_digits "Ana" "01234567890" eq_refl Hl).
Defined.

Lemma Product_exceptions_witness :
  Product known (product_data (VStr "Eletronico") (VInt (-1)) (VInt 5)) =
    Raise (KeyError "quantity") /\
  ((exists errs, KeyError "quantity" = ValidationError errs /\ errs <> []) \/
   KeyError "quantity" = KeyError "quantity" \/
   (exists msg, KeyError "quantity" = OverflowError msg)).
Proof.
  split; [reflexivity|].
  apply (Product_exceptions known
           (product_data (VStr "Eletronico") (VInt (-1)) (VInt 5))).
  reflexivity.
Defined.

Lemma Product_reconstructs_witness :
  Product known (product_data (VStr "Eletronico") (VStr "2") (VInt 150)) =
    Return tv /\
  exists fields, tv = VModel "Product" fields /\ Product known fields = Return tv.
Proof.
  split; [reflexivity|].
  apply (Product_reconstructs known
           (product_data (VStr "Eletronico") (VStr "2") (VInt 150))).
  reflexivity.
Defined.

Lemma RE_NAMES_bounds_witness :
  fullmatch RE_NAMES "Eletronico" = true /\
  (3 <= String.length "Eletronico" <= 46)%nat /\
  all_chars letter_or_space "Eletronico" = true.
Proof.
  split; [reflexivity|]. apply (RE_NAMES_bounds "Eletronico"). reflexivity.
Defined.

Lemma CashBackTransaction_shape_witness :
  CashBackTransaction known (purchase [VDict tv_data]) =
    Return (purchased [tv]) /\
  exists t c x ps,
    purchased [tv] =
      VModel "CashBackTransaction"
        (transaction_data (VDatetime t) c (VFloat x) (VList ps)) /\
    is_instance "Customer" c = true /\
    forallb (is_instance "Product") ps = true.
Proof.
  split; [vm_compute; reflexivity|].
  apply (CashBackTransaction_shape known (purchase [VDict tv_data])).
  vm_compute. reflexivity.
Defined.

Lemma CashBackTransaction_products_checked_witness :
  CashBackTransaction known (purchase [VDict tv_data]) =
    Return (purchased [tv]) /\
  exists ps s q v,
    field_of (purchased [tv]) "products" = Some (VList ps) /\
    nth_error ps 0 =
      Some (VModel "Product" (product_data (VStr s) (VInt q) (VInt v))) /\
    name_pattern s /\ In s known /\ 0 <= q /\ 0 <= v /\ (v = 0 \/ 0 < q).
Proof.
  split; [vm_compute; reflexivity|].
  apply (CashBackTransaction_products_checked known
           (purchase [VDict tv_data]) (purchased [tv]) [VDict tv_data] 0
           tv_data); vm_compute; reflexivity.
Defined.

Lemma CashBackTransaction_product_rejected_witness :
  Product known broken_data =
    Raise (ValidationError
             [([LField "quantity"], "product quantity cannot be negative");
              ([LField "value"], "product value cannot be negative")]) /\
  ((exists e,
       CashBackTransaction known (purchase [tv; VDict broken_data]) = Raise e /\
       uncaught e) \/
   (exists lines,
       CashBackTransaction known (purchase [tv; VDict broken_data]) =
         Raise (ValidationError lines) /\
       forall l,
         In l [([LField "quantity"], "product quantity cannot be negative");
               ([LField "value"], "product value cannot be negative")] ->
         In (under_product 1 l) lines)).
Proof.
  split; [vm_compute; reflexivity|].
  apply (CashBackTransaction_product_rejected known
           (purchase [tv; VDict broken_data]) [tv; VDict broken_data] 1
           broken_data);
    vm_compute; reflexivity.
Defined.

Lemma CashBackTransaction_product_escapes_witness :
  Product known returned_data = Raise (KeyError "quantity") /\
  exists e,
    CashBackTransaction known (purchase [tv; VDict returned_data]) = Raise e /\
    uncaught e.
Proof.
  split; [vm_compute; reflexivity|].
  apply (CashBackTransaction_product_escapes known
           (purchase [tv; VDict returned_data]) [tv; VDict returned_data] 1
           returned_data (KeyError "quantity"));
    vm_compute; reflexivity.
Defined.

Lemma CashBackTransaction_total_unchecked_witness :
  CashBackTransaction known (purchase [tv]) = Return (purchased [tv]) /\
  exists t c x ps,
    purchased [tv] =
      VModel "CashBackTransaction"
        (transaction_data (VDatetime t) c (VFloat x) (VList ps)) /\
    CashBackTransaction known
      (transaction_data (VStr "2023-01-15 10:30:00") ana
         (VFloat (S754_infinity true)) (VList [tv])) =
    Return (VModel "CashBackTransaction"
              (transaction_data (VDatetime t) c (VFloat (S754_infinity true))
                 (VList ps))).
Proof.
  split; [vm_compute; reflexivity|].
  apply (CashBackTransaction_total_unchecked known (purchase [tv])).
  - vm_compute. reflexivity.
  - intros k [<-|[<-|[<-|[]]]]; reflexivity.
  - reflexivity.
Defined.

Lemma CashBackTransaction_accepts_no_products_witness :
  CashBackTransaction known (purchase [tv]) = Return (purchased [tv]) /\
  exists t c x ps,
    purchased [tv] =
      VModel "CashBackTransaction"
        (transaction_data (VDatetime t) c (VFloat x) (VList ps)) /\
    CashBackTransaction known (purchase []) =
    Return (VModel "CashBackTransaction"
              (transaction_data (VDatetime t) c (VFloat x) (VList []))).
Proof.
  split; [vm_compute; reflexivity|].
  apply (CashBackTransaction_accepts_no_products known (purchase [tv])).
  - vm_compute. reflexivity.
  - intros k [<-|[<-|[<-|[]]]]; reflexivity.
  - reflexivity.
Defined.

Lemma CashBackTransaction_reconstructs_witness :
  CashBackTransaction known (purchase [VDict tv_data]) =
    Return (purchased [tv]) /\
  exists fields,
    purchased [tv] = VModel "CashBackTransaction" fields /\
    CashBackTransaction known fields = Return (purchased [tv]).
Proof.
  split; [vm_compute; reflexivity|].
  apply (CashBackTransaction_reconstructs known (purchase [VDict tv_data])).
  vm_compute. reflexivity.
Defined.

Lemma CashBackTransaction_exceptions_witness :
  CashBackTransaction known (purchase [VDict returned_data]) =
    Raise (KeyError "quantity") /\
  ((exists errs, KeyError "quantity" = ValidationError errs /\ errs <> []) \/
   KeyError "quantity" = KeyError "quantity" \/
   (exists msg, KeyError "quantity" = OverflowError msg)).
Proof.
  split; [vm_compute; reflexivity|].
  apply (CashBackTransaction_exceptions known
           (purchase [VDict returned_data])).
  vm_compute. reflexivity.
Defined.

Lemma JWTPayload_returns_witness :
  JWTPayload [("sub", VInt 7)] = Return (payload "7" None) /\
  exists sub exp,
    payload "7" None = payload sub exp /\
    (dict_get [("sub", VInt 7)] "exp" = None -> exp = None).
Proof.
  split; [vm_compute; reflexivity|].
  apply (JWTPayload_returns [("sub", VInt 7)]). vm_compute. reflexivity.
Defined.

Lemma Customer_JWTPayload_exceptions_witness :
  Customer (customer_data (VStr "Ana") (VFloat (S754_infinity false))) =
    Raise (OverflowError "cannot convert float infinity to integer") /\
  ((exists errs,
       OverflowError "cannot convert float infinity to integer"
       = ValidationError errs /\ errs <> []) \/
   (exists msg,
       OverflowError "cannot convert float infinity to integer"
       = OverflowError msg)).
Proof.
  split; [vm_compute; reflexivity|].
  apply (Customer_JWTPayload_exceptions
           (customer_data (VStr "Ana") (VFloat (S754_infinity false)))).
  left. vm_compute. reflexivity.
Defined.

Lemma User_returns_witness :
  User [("username", VStr "ana"); ("disabled", VStr "Yes")] =
    Return (VModel "User"
              [("username", VStr "ana"); ("full_name", VNone);
               ("email", VNone); ("disabled", VBool true)]) /\
  exists u fn em ds,
    VModel "User"
      [("username", VStr "ana"); ("full_name", VNone);
       ("email", VNone); ("disabled", VBool true)] =
    VModel "User"
      [("username", VStr u); ("full_name", fn); ("email", em);
       ("disabled", ds)] /\
    optional_str fn = true /\ optional_str em = true /\
    optional_bool ds = true.
Proof.
  split; [vm_compute; reflexivity|].
  apply (User_returns [("username", VStr "ana"); ("disabled", VStr "Yes")]).
  vm_compute. reflexivity.
Defined.

Lemma Accounts_raise_only_ValidationError_witness :
  Token [("access_token", VStr "abc")] =
    Raise (ValidationError [([LField "token_type"], "field required")]) /\
  exists lines,
    ValidationError [([LField "token_type"], "field required")]
    = ValidationError lines /\ lines <> [].
Proof.
  split; [vm_compute; reflexivity|].
  apply (Accounts_raise_only_ValidationError [("access_token", VStr "abc")]).
  right. right. left. vm_compute. reflexivity.
Defined.

Lemma explicit_None_is_omitted_witness :
  dict_get [("username", VStr "ana")] "email" = None /\
  User [("username", VStr "ana"); ("email", VNone)]
  = User [("username", VStr "ana")].
Proof.
  split; [reflexivity|].
  refine (proj1 (proj1 (explicit_None_is_omitted
                          [("username", VStr "ana")]
                          [("username", VStr "ana"); ("email", VNone)]
                          "email" eq_refl eq_refl _) _)).
  - intros k' Hk'. cbn [dict_get].
    destruct (String.eqb k' "username"); [reflexivity|].
    destruct (String.eqb_spec k' "email"); [contradiction | reflexivity].
  - right. left. reflexivity.
Defined.
